(** * Receipt validation engine: [validate_receipt] of [validation_ui.py]

    A shallow embedding of the validator, the one component of the
    receipt-tracking application that carries business rules, and the
    properties its specification states about it.

    Layout: binary64 arithmetic ([F64]), Python values and exceptions,
    the validator itself inside a section that abstracts the two library
    parsers it calls, reference parsers on which the examples run, the
    vocabulary of the specification and the example records; then the
    facts about rounding, the rules one by one, the whole run, and the
    claims with their examples. *)

From Stdlib Require Import ZArith Bool List String Ascii Lia.
From Stdlib Require Import Floats.SpecFloat.
From stdpp Require Import base option list strings gmap.

Local Open Scope string_scope.
Local Open Scope list_scope.
Local Open Scope Z_scope.

(** ** Binary64 arithmetic

    Python's [float] is IEEE 754 binary64.  The operations are those of
    the reference implementation [SpecFloat] at precision 53 and maximal
    exponent 1024, rounding to nearest, ties to even. *)

Module F64.

Definition prec : Z := 53.
Definition emax : Z := 1024.

Abbreviation float := spec_float.

Definition zero : float := S754_zero false.

Definition sub : float -> float -> float := SFsub prec emax.
Definition mul : float -> float -> float := SFmul prec emax.
Definition div : float -> float -> float := SFdiv prec emax.
Definition abs : float -> float := SFabs.

Definition eqb : float -> float -> bool := SFeqb.
Definition ltb : float -> float -> bool := SFltb.
Definition leb : float -> float -> bool := SFleb.

(** The float nearest to an integer (infinite when out of range). *)
Definition of_Z (z : Z) : float := binary_normalize prec emax z 0 false.

(** The float nearest to the quotient of two positive integers. *)
Definition of_ratio (s : bool) (n d : positive) : float :=
  let '(q, e, l) := SFdiv_core_binary prec emax (Zpos n) 0 (Zpos d) 0 in
  binary_round_aux prec emax s q e l.

End F64.

Abbreviation float := spec_float.

(** ** Python values and exceptions *)

(** The values a receipt field can hold: what JSON extraction or a
    database row yields.  [PyOther] stands for a JSON array or object (a
    list or a dict), which [float()] rejects with [TypeError]. *)
Inductive pyval :=
  | PyNone
  | PyBool (b : bool)
  | PyInt (z : Z)
  | PyFloat (x : float)
  | PyStr (s : string)
  | PyOther.

Inductive exn :=
  | KeyError
  | ValueError
  | TypeError
  | OverflowError
  | ZeroDivisionError
  | RecursionError
  | LookupFault.

Inductive result (A : Type) :=
  | Ok (a : A)
  | Raise (e : exn).
Arguments Ok {A} a.
Arguments Raise {A} e.

#[global] Instance result_ret : MRet result := fun _ a => Ok a.
#[global] Instance result_bind : MBind result := fun _ _ f m =>
  match m with
  | Ok a => f a
  | Raise e => Raise e
  end.

(** A computation that may call the existence lookup: it threads the
    list of arguments the lookup has been called with, oldest first. *)
Definition M (A : Type) : Type := list pyval -> result A * list pyval.

#[global] Instance M_ret : MRet M := fun _ a t => (Ok a, t).
#[global] Instance M_bind : MBind M := fun _ _ f m t =>
  match m t with
  | (Ok a, t') => f a t'
  | (Raise e, t') => (Raise e, t')
  end.

Definition lift {A} (r : result A) : M A := fun t => (r, t).

(** The answer of [receipt_exists]: a boolean, or a fault of the store. *)
Definition lookup : Type := pyval -> result bool.

Definition call (receipt_exists : lookup) (v : pyval) : M bool :=
  fun t => (receipt_exists v, t ++ [v]).

(** Running a computation from an empty call history. *)
Definition run {A} (m : M A) : result A * list pyval := m [].
Definition outcome {A} (m : M A) : result A := fst (run m).
Definition calls {A} (m : M A) : list pyval := snd (run m).

(** ** Reports *)

(** An f-string: literal text and formatted fields [{v:spec}]. *)
Inductive fpart :=
  | Lit (s : string)
  | Fmt (v : pyval) (spec : string).

Record rule_result := {
  title : string;
  status : string;
  message : list fpart
}.

Record report := {
  passed : bool;
  results : list rule_result
}.

(** ** The validator *)

Definition EXPECTED_TAX_RATE : float := S754_finite false 5764607523034235 (-56).
Definition TOLERANCE : float := S754_finite false 7205759403792794 (-57).
Definition hundred : float := S754_finite false 7036874417766400 (-46).

Definition required : list string :=
  ["bill_id"; "vendor"; "date"; "amount"; "tax"].

(** [data.get(f) is None] *)
Definition get_is_None (data : gmap string pyval) (f : string) : bool :=
  match data !! f with
  | None | Some PyNone => true
  | Some _ => false
  end.

(** [data[k]] *)
Definition getitem (data : gmap string pyval) (k : string) : result pyval :=
  match data !! k with
  | Some v => Ok v
  | None => Raise KeyError
  end.

(** [x / y] on floats *)
Definition truediv (x y : float) : result float :=
  if F64.eqb y F64.zero then Raise ZeroDivisionError else Ok (F64.div x y).

(** [float(z)] for an int: the nearest float, [OverflowError] when that
    is out of range. *)
Definition float_of_int (z : Z) : result float :=
  match F64.of_Z z with
  | S754_infinity _ => Raise OverflowError
  | x => Ok x
  end.

(** [sys.int_info.default_max_str_digits]: the longest int that [str()]
    writes in decimal. *)
Definition INT_MAX_STR_DIGITS : Z := 4300.

Section Validator.

(** [float(s)] for a str: [None] when it raises [ValueError]. *)
Variable float_of_str : string -> option float.

(** Whether [datetime.strptime(str(v), "%Y-%m-%d")] returns. *)
Variable strptime_ymd : pyval -> bool.

(** What [str()] raises on the list or dict that [PyOther] stands for,
    if anything: [ValueError] when it holds an int that is too long,
    [RecursionError] when it is nested too deep. *)
Variable str_other : option exn.

(** What [str(v)] raises, if anything, and with it [format(v, "")] and
    the f-string field [{v}]: an int of more than 4300 digits is not
    written. *)
Definition str_raises (v : pyval) : option exn :=
  match v with
  | PyInt z =>
      if 10 ^ INT_MAX_STR_DIGITS <=? Z.abs z then Some ValueError else None
  | PyOther => str_other
  | PyNone | PyBool _ | PyFloat _ | PyStr _ => None
  end.

(** The f-string field [{v}]. *)
Definition format_value (v : pyval) : result fpart :=
  match str_raises v with
  | Some e => Raise e
  | None => Ok (Fmt v "")
  end.

(** [float(v)] *)
Definition py_float (v : pyval) : result float :=
  match v with
  | PyNone => Raise TypeError
  | PyBool b => Ok (F64.of_Z (if b then 1 else 0))
  | PyInt z => float_of_int z
  | PyFloat x => Ok x
  | PyStr s =>
      match float_of_str s with
      | Some x => Ok x
      | None => Raise ValueError
      end
  | PyOther => Raise TypeError
  end.

(** [try: float(v) except (ValueError, TypeError): 0.0] *)
Definition coerce (v : pyval) : result float :=
  match py_float v with
  | Raise ValueError | Raise TypeError => Ok F64.zero
  | r => r
  end.

(** [abs(rate - EXPECTED_TAX_RATE) <= TOLERANCE] *)
Definition within_tolerance (rate : float) : bool :=
  F64.leb (F64.abs (F64.sub rate EXPECTED_TAX_RATE)) TOLERANCE.

(** The loop over the candidate subtotals; its state is
    [(valid, used_subtotal, actual_rate)]. *)
Fixpoint tax_rate_loop (tax : float) (subtotals : list float)
    (st : bool * float * float) : result (bool * float * float) :=
  match subtotals with
  | [] => Ok st
  | subtotal :: rest =>
      if F64.leb subtotal F64.zero then tax_rate_loop tax rest st
      else
        rate ← truediv tax subtotal;
        if within_tolerance rate then Ok (true, subtotal, rate)
        else tax_rate_loop tax rest st
  end.

(** Each rule below is one block of [validate_receipt]; it takes and
    returns the two locals [(results, passed)]. *)

(* ---------- Date Format ---------- *)

(** The [try] block returns when [strptime] does; [str()] has then
    written the date, and the f-string of line 42 writes it again.  Any
    exception of the block leads to the handler, whose f-string writes
    the date in turn, and raises when [str()] does. *)
Definition date_format (data : gmap string pyval)
    (st : list rule_result * bool) : result (list rule_result * bool) :=
  let '(results, passed) := st in
  date ← getitem data "date";
  if strptime_ymd date then
    Ok (results ++ [{|
          title := "Date Format";
          status := "success";
          message := [Lit "Valid date: "; Fmt date ""]
        |}], passed)
  else
    text ← format_value date;
    Ok (results ++ [{|
          title := "Date Format";
          status := "error";
          message := [Lit "Invalid date format: "; text]
        |}], false).

(* ---------- Total Validation ---------- *)
Definition total_validation (amount : float)
    (st : list rule_result * bool) : list rule_result * bool :=
  let '(results, passed) := st in
  if F64.ltb F64.zero amount then
    (results ++ [{|
       title := "Total Validation";
       status := "success";
       message := [Lit "Amount detected: ₹"; Fmt (PyFloat amount) ".2f"]
     |}], passed)
  else
    (results ++ [{|
       title := "Total Validation";
       status := "error";
       message := [Lit "Invalid amount value"]
     |}], false).

(* ---------- Tax Rate Validation ---------- *)
Definition tax_rate_validation (amount tax : float)
    (st : list rule_result * bool) : result (list rule_result * bool) :=
  let '(results, passed) := st in
  if F64.eqb tax F64.zero then
    Ok (results ++ [{|
          title := "Tax Rate Validation";
          status := "success";
          message := [Lit "No tax applied (valid)"]
        |}], passed)
  else
    (* Try both interpretations *)
    let subtotal_option_1 := F64.sub amount tax in
    let subtotal_option_2 := amount in
    '(valid, used_subtotal, actual_rate) ←
      tax_rate_loop tax [subtotal_option_1; subtotal_option_2]
        (false, F64.zero, F64.zero);
    if valid : bool then
      Ok (results ++ [{|
            title := "Tax Rate Validation";
            status := "success";
            message := [Lit "Tax rate OK (";
                        Fmt (PyFloat (F64.mul actual_rate hundred)) ".2f";
                        Lit "%, Subtotal ₹";
                        Fmt (PyFloat used_subtotal) ".2f"; Lit ")"]
          |}], passed)
    else
      Ok (results ++ [{|
            title := "Tax Rate Validation";
            status := "error";
            message := [Lit "Tax mismatch. Expected ~";
                        Fmt (PyFloat (F64.mul EXPECTED_TAX_RATE hundred)) ".1f";
                        Lit "% but got ₹"; Fmt (PyFloat tax) ".2f";
                        Lit " on amount ₹"; Fmt (PyFloat amount) ".2f"]
          |}], false).

(* ---------- Duplicate Detection ---------- *)
Definition duplicate_detection (receipt_exists : lookup)
    (data : gmap string pyval) (skip_duplicate : bool)
    (st : list rule_result * bool) : M (list rule_result * bool) :=
  let '(results, passed) := st in
  if negb skip_duplicate then
    bill_id ← lift (getitem data "bill_id");
    found ← call receipt_exists bill_id;
    if found : bool then
      mret (results ++ [{|
              title := "Duplicate Detection";
              status := "error";
              message := [Lit "Duplicate receipt found"]
            |}], false)
    else
      mret (results ++ [{|
              title := "Duplicate Detection";
              status := "success";
              message := [Lit "No duplicate found"]
            |}], passed)
  else mret (results, passed).

Definition validate_receipt (receipt_exists : lookup)
    (data : gmap string pyval) (skip_duplicate : bool) : M report :=
  let results : list rule_result := [] in
  let passed := true in
  (* ---------- Required Fields ---------- *)
  let missing := List.filter (get_is_None data) required in
  if negb (bool_decide (missing = [])) then
    let results := results ++ [{|
      title := "Required Fields";
      status := "error";
      message := [Lit "Missing fields: ";
                  Fmt (PyStr (String.concat ", " missing)) ""]
    |}] in
    let passed := false in
    (* Return early if fields are missing to prevent subsequent errors *)
    mret {| passed := passed; results := results |}
  else
    let results := results ++ [{|
      title := "Required Fields";
      status := "success";
      message := [Lit "All required fields present"]
    |}] in
    st ← lift (date_format data (results, passed));
    amount ← lift (getitem data "amount" ≫= coerce);
    tax ← lift (getitem data "tax" ≫= coerce);
    let st := total_validation amount st in
    st ← lift (tax_rate_validation amount tax st);
    '(results, passed) ← duplicate_detection receipt_exists data skip_duplicate st;
    mret {| passed := passed; results := results |}.

End Validator.

(** ** Reference parsers

    The two library parsers on ASCII input, used to run the validator on
    concrete records: [float()] on a str and [datetime.strptime] with the
    format [%Y-%m-%d]. *)

Module Ref.

Definition code (c : ascii) : Z := Z.of_nat (nat_of_ascii c).

Definition digit (c : ascii) : option Z :=
  let n := code c in
  if (48 <=? n) && (n <=? 57) then Some (n - 48) else None.

Definition digit_in (lo hi : Z) (c : ascii) : option Z :=
  match digit c with
  | Some d => if (lo <=? d) && (d <=? hi) then Some d else None
  | None => None
  end.

Definition is_space (c : ascii) : bool :=
  let n := code c in
  (n =? 32) || ((9 <=? n) && (n <=? 13)).

Definition lower (c : ascii) : ascii :=
  let n := code c in
  if (65 <=? n) && (n <=? 90) then ascii_of_nat (Z.to_nat (n + 32)) else c.

Fixpoint lstrip (l : list ascii) : list ascii :=
  match l with
  | c :: l' => if is_space c then lstrip l' else l
  | [] => []
  end.

Definition strip (l : list ascii) : list ascii :=
  rev (lstrip (rev (lstrip l))).

(** *** [float(s)] *)

(** The rest of a digit part, [("_"? digit)*]: the value read so far,
    the number of digits, and what follows. *)
Fixpoint digitpart_tail (l : list ascii) (acc : Z) (n : Z)
    : Z * Z * list ascii :=
  match l with
  | [] => (acc, n, [])
  | c :: l' =>
      match digit c with
      | Some d => digitpart_tail l' (10 * acc + d) (n + 1)
      | None =>
          match l' with
          | c' :: l'' =>
              match digit c' with
              | Some d =>
                  if Ascii.eqb c "_"
                  then digitpart_tail l'' (10 * acc + d) (n + 1)
                  else (acc, n, l)
              | None => (acc, n, l)
              end
          | [] => (acc, n, l)
          end
      end
  end.

(** [digit ("_"? digit)*], absent when it does not start with a digit. *)
Definition digitpart (l : list ascii) (acc : Z) : option (Z * Z * list ascii) :=
  match l with
  | c :: l' =>
      match digit c with
      | Some d => Some (digitpart_tail l' (10 * acc + d) 1)
      | None => None
      end
  | [] => None
  end.

(** An optional sign. *)
Definition sign (l : list ascii) : bool * list ascii :=
  match l with
  | "-"%char :: l' => (true, l')
  | "+"%char :: l' => (false, l')
  | _ => (false, l)
  end.

(** An optional exponent [(e|E) sign? digitpart]; [None] when one
    starts and is malformed. *)
Definition exponent (l : list ascii) : option (Z * list ascii) :=
  match l with
  | [] => Some (0, [])
  | c :: l' =>
      if Ascii.eqb (lower c) "e" then
        let '(neg, l'') := sign l' in
        match digitpart l'' 0 with
        | Some (e, _, rest) => Some (if neg then - e else e, rest)
        | None => None
        end
      else Some (0, l)
  end.

(** The decimal mantissa [digitpart? ("." digitpart?)?] with at least
    one digit: its digits as an integer and the number of digits after
    the point. *)
Definition mantissa (l : list ascii) : option (Z * Z * list ascii) :=
  let '(ip, any, l1) :=
    match digitpart l 0 with
    | Some (v, _, rest) => (v, true, rest)
    | None => (0, false, l)
    end in
  match l1 with
  | "."%char :: l2 =>
      match digitpart l2 ip with
      | Some (v, n, rest) => Some (v, n, rest)
      | None => if any then Some (ip, 0, l2) else None
      end
  | _ => if any then Some (ip, 0, l1) else None
  end.

(** The float nearest to [(-1)^neg * d * 10^e]. *)
Definition of_decimal (neg : bool) (d e : Z) : float :=
  match d with
  | Zpos p =>
      if 0 <=? e then F64.of_Z (if neg then - (d * 10 ^ e) else d * 10 ^ e)
      else F64.of_ratio neg p (Z.to_pos (10 ^ (- e)))
  | _ => S754_zero neg
  end.

Definition float_of_str (s : string) : option float :=
  let '(neg, l) := sign (strip (list_ascii_of_string s)) in
  let word := string_of_list_ascii (map lower l) in
  if String.eqb word "inf" || String.eqb word "infinity"
  then Some (S754_infinity neg)
  else if String.eqb word "nan" then Some S754_nan
  else
    match mantissa l with
    | Some (d, n, l') =>
        match exponent l' with
        | Some (e, []) => Some (of_decimal neg d (e - n))
        | _ => None
        end
    | None => None
    end.

(** *** [datetime.strptime(s, "%Y-%m-%d")] *)

Definition is_leap (y : Z) : bool :=
  ((y mod 4 =? 0) && negb (y mod 100 =? 0)) || (y mod 400 =? 0).

Definition days_in_month (y m : Z) : Z :=
  if m =? 2 then (if is_leap y then 29 else 28)
  else if (m =? 4) || (m =? 6) || (m =? 9) || (m =? 11) then 30
  else 31.

(** [%Y]: exactly four digits. *)
Definition year (l : list ascii) : option (Z * list ascii) :=
  match l with
  | a :: b :: c :: d :: rest =>
      match digit a, digit b, digit c, digit d with
      | Some a, Some b, Some c, Some d =>
          Some (1000 * a + 100 * b + 10 * c + d, rest)
      | _, _, _, _ => None
      end
  | _ => None
  end.

(** [%m] followed by ["-"]: [1[0-2]|0[1-9]|[1-9]], first alternative
    after which the hyphen matches. *)
Definition month_hyphen (l : list ascii) : option (Z * list ascii) :=
  let two :=
    match l with
    | a :: b :: "-"%char :: rest =>
        match digit_in 1 1 a, digit_in 0 2 b with
        | Some _, Some b => Some (10 + b, rest)
        | _, _ =>
            match digit_in 0 0 a, digit_in 1 9 b with
            | Some _, Some b => Some (b, rest)
            | _, _ => None
            end
        end
    | _ => None
    end in
  match two with
  | Some r => Some r
  | None =>
      match l with
      | a :: "-"%char :: rest =>
          match digit_in 1 9 a with
          | Some a => Some (a, rest)
          | None => None
          end
      | _ => None
      end
  end.

(** [%d]: [3[0-1]|[1-2]\d|0[1-9]|[1-9]| [1-9]], first alternative that
    matches. *)
Definition day (l : list ascii) : option (Z * list ascii) :=
  let two :=
    match l with
    | a :: b :: rest =>
        match digit_in 3 3 a, digit_in 0 1 b with
        | Some _, Some b => Some (30 + b, rest)
        | _, _ =>
            match digit_in 1 2 a, digit b with
            | Some a, Some b => Some (10 * a + b, rest)
            | _, _ =>
                match digit_in 0 0 a, digit_in 1 9 b with
                | Some _, Some b => Some (b, rest)
                | _, _ => None
                end
            end
        end
    | _ => None
    end in
  match two with
  | Some r => Some r
  | None =>
      match l with
      | a :: rest =>
          match digit_in 1 9 a with
          | Some a => Some (a, rest)
          | None =>
              match rest with
              | b :: rest' =>
                  match digit_in 1 9 b with
                  | Some b => if Ascii.eqb a " " then Some (b, rest') else None
                  | None => None
                  end
              | [] => None
              end
          end
      | [] => None
      end
  end.

Definition strptime (s : string) : option (Z * Z * Z) :=
  match year (list_ascii_of_string s) with
  | Some (y, "-"%char :: l1) =>
      match month_hyphen l1 with
      | Some (m, l2) =>
          match day l2 with
          | Some (d, []) =>
              if (1 <=? y) && (d <=? days_in_month y m)
              then Some (y, m, d) else None
          | _ => None
          end
      | None => None
      end
  | _ => None
  end.

(** [str(v)] of a value that is not a str never has the shape
    [dddd-m-d], so only a str can parse. *)
Definition strptime_ymd (v : pyval) : bool :=
  match v with
  | PyStr s => bool_decide (is_Some (strptime s))
  | _ => false
  end.

End Ref.

(** ** Vocabulary of the specification *)


(** The required-fields gate: the five fields are present and non-null. *)
Definition gate_passes (data : gmap string pyval) : Prop :=
  forall f, In f required -> exists v, data !! f = Some v /\ v <> PyNone.

(** The names of the missing fields, in the order of [required]. *)
Definition missing_fields (data : gmap string pyval) : list string :=
  List.filter (get_is_None data) required.

(** The sign bit is set, or the float is not a number. *)
Definition sign_set (x : float) : Prop :=
  match x with
  | S754_nan => True
  | S754_zero s | S754_infinity s | S754_finite s _ _ => s = true
  end.

Definition succeeded (r : rule_result) : Prop := status r = "success".

Definition ok (r : rule_result) : bool := String.eqb (status r) "success".

(** What every rule does to the two locals: append its result, and
    clear [passed] unless the result is a success. *)
Definition step (st : list rule_result * bool) (r : rule_result)
    : list rule_result * bool :=
  (st.1 ++ [r], st.2 && ok r).

(** The report of a record that fails the gate. *)
Definition missing_report (data : gmap string pyval) : report :=
  {| passed := false;
     results := [{|
       title := "Required Fields";
       status := "error";
       message := [Lit "Missing fields: ";
                   Fmt (PyStr (String.concat ", " (missing_fields data))) ""]
     |}] |}.

Definition required_ok : rule_result :=
  {| title := "Required Fields";
     status := "success";
     message := [Lit "All required fields present"] |}.

Definition duplicate_error : rule_result :=
  {| title := "Duplicate Detection";
     status := "error";
     message := [Lit "Duplicate receipt found"] |}.

Definition duplicate_ok : rule_result :=
  {| title := "Duplicate Detection";
     status := "success";
     message := [Lit "No duplicate found"] |}.

(** The report over a sequence of results: it passes when all do. *)
Definition report_of (rs : list rule_result) : report :=
  {| passed := forallb ok rs; results := rs |}.

(** The result of the duplicate rule on the answer of the lookup. *)
Definition duplicate_result (found : bool) : rule_result :=
  if found then duplicate_error else duplicate_ok.

(** The result of the Date Format rule, for a date that parses or not. *)
Definition date_result (parses : bool) (date : pyval) : rule_result :=
  if parses then
    {| title := "Date Format";
       status := "success";
       message := [Lit "Valid date: "; Fmt date ""] |}
  else
    {| title := "Date Format";
       status := "error";
       message := [Lit "Invalid date format: "; Fmt date ""] |}.

(** The exception the Date Format rule ends in, if any: the date does
    not parse and cannot be written into the error message. *)
Definition date_fault (strptime_ymd : pyval -> bool) (str_other : option exn)
    (date : pyval) : option exn :=
  if strptime_ymd date then None else str_raises str_other date.

(** The date of the record, if it has one, parses or can be written. *)
Definition reportable (strptime_ymd : pyval -> bool) (str_other : option exn)
    (data : gmap string pyval) : Prop :=
  forall date, data !! "date" = Some date ->
    date_fault strptime_ymd str_other date = None.

(** The result of the Total Validation rule. *)
Definition total_result (amount : float) : rule_result :=
  if F64.ltb F64.zero amount then
    {| title := "Total Validation";
       status := "success";
       message := [Lit "Amount detected: ₹"; Fmt (PyFloat amount) ".2f"] |}
  else
    {| title := "Total Validation";
       status := "error";
       message := [Lit "Invalid amount value"] |}.

(** Both numeric fields convert: neither is an int too large for a
    float. *)
Definition convertible (data : gmap string pyval) : Prop :=
  forall f z, f = "amount" \/ f = "tax" ->
    data !! f = Some (PyInt z) -> exists x, float_of_int z = Ok x.

(** The lookup answers for the record's bill id. *)
Definition answers (lk : lookup) (data : gmap string pyval) : Prop :=
  forall bill_id, data !! "bill_id" = Some bill_id ->
    exists found, lk bill_id = Ok found.

(** What the duplicate rule appends, given the answer of the lookup. *)
Definition duplicate_tail (skip_duplicate : bool) (answer : result bool)
    : list rule_result :=
  if skip_duplicate then []
  else match answer with
       | Ok found => [duplicate_result found]
       | Raise _ => []
       end.

(** The titles of a report, in order. *)
Definition titles (r : report) : list string := map title (results r).

Definition rule_titles (skip_duplicate : bool) : list string :=
  ["Required Fields"; "Date Format"; "Total Validation"; "Tax Rate Validation"]
  ++ (if skip_duplicate then [] else ["Duplicate Detection"]).

(** *** The Tax Rate Validation rule, as the specification words it *)

Definition candidates (amount tax : float) : list float :=
  [F64.sub amount tax; amount].

(** The floats nearest to 8/100 and to 5/100. *)
Definition eight_percent : float := F64.of_ratio false 8 100.
Definition five_percent : float := F64.of_ratio false 5 100.

(** [|rate - 0.08| <= 0.05], computed in binary64. *)
Definition in_band (rate : float) : bool :=
  F64.leb (F64.abs (F64.sub rate eight_percent)) five_percent.

(** A candidate qualifies when it is not skipped ([<= 0]) and its rate
    [tax / candidate] lies in the band. *)
Definition qualifies (tax candidate : float) : bool :=
  negb (F64.leb candidate F64.zero) && in_band (F64.div tax candidate).


Definition first_qualifying (amount tax : float) : option float :=
  List.find (qualifies tax) (candidates amount tax).

Definition tax_rate_result (amount tax : float) : rule_result :=
  if F64.eqb tax F64.zero then
    {| title := "Tax Rate Validation";
       status := "success";
       message := [Lit "No tax applied (valid)"] |}
  else
    match first_qualifying amount tax with
    | Some candidate =>
        {| title := "Tax Rate Validation";
           status := "success";
           message := [Lit "Tax rate OK (";
                       Fmt (PyFloat (F64.mul (F64.div tax candidate) hundred)) ".2f";
                       Lit "%, Subtotal ₹";
                       Fmt (PyFloat candidate) ".2f"; Lit ")"] |}
    | None =>
        {| title := "Tax Rate Validation";
           status := "error";
           message := [Lit "Tax mismatch. Expected ~";
                       Fmt (PyFloat (F64.mul EXPECTED_TAX_RATE hundred)) ".1f";
                       Lit "% but got ₹"; Fmt (PyFloat tax) ".2f";
                       Lit " on amount ₹"; Fmt (PyFloat amount) ".2f"] |}
    end.

(** ** Example records *)

Definition receipt (bill_id vendor date amount tax : pyval)
    : gmap string pyval :=
  <["bill_id" := bill_id]> (<["vendor" := vendor]> (<["date" := date]>
    (<["amount" := amount]> (<["tax" := tax]> ∅)))).


(** The specification's [amount = 108, tax = 8]. *)
Definition groceries : gmap string pyval :=
  receipt (PyStr "B-1") (PyStr "Corner Shop") (PyStr "2024-01-15")
    (PyInt 108) (PyInt 8).

(** A tax-free receipt. *)
Definition tax_free : gmap string pyval :=
  receipt (PyStr "B-2") (PyStr "Bakery") (PyStr "2024-02-29")
    (PyFloat (F64.of_Z 100)) (PyInt 0).

(** A receipt whose date does not parse. *)
Definition bad_date : gmap string pyval :=
  receipt (PyStr "B-3") (PyStr "Kiosk") (PyStr "15/01/2024")
    (PyInt 108) (PyInt 8).

(** The specification's [amount = "abc"]. *)
Definition abc_amount : gmap string pyval :=
  receipt (PyStr "B-4") (PyStr "Cafe") (PyStr "2024-01-15")
    (PyStr "abc") (PyStr "0").

(** A receipt whose amount is an int of 401 digits. *)
Definition huge_amount : gmap string pyval :=
  receipt (PyStr "B-5") (PyStr "Depot") (PyStr "2024-01-15")
    (PyInt (10 ^ 400)) (PyInt 8).

(** A receipt whose tax is an int of 401 digits. *)
Definition huge_tax : gmap string pyval :=
  receipt (PyStr "B-6") (PyStr "Depot") (PyStr "2024-01-15")
    (PyInt 108) (PyInt (10 ^ 400)).

(** A refund: the tax is negative. *)
Definition refund : gmap string pyval :=
  receipt (PyStr "B-7") (PyStr "Outlet") (PyStr "2024-01-15")
    (PyInt 108) (PyInt (-8)).


(** A receipt whose date is an int of 5001 digits. *)
Definition huge_date : gmap string pyval :=
  receipt (PyStr "B-11") (PyStr "Depot") (PyInt (10 ^ 5000))
    (PyInt 108) (PyInt 8).

Definition never_stored : lookup := fun _ => Ok false.
Definition always_stored : lookup := fun _ => Ok true.
Definition store_down : lookup := fun _ => Raise LookupFault.

(** A store that holds the bill [B-1] only. *)
Definition only_B1 : lookup := fun v =>
  match v with
  | PyStr s => Ok (String.eqb s "B-1")
  | _ => Ok false
  end.

(** [validate_receipt] with the reference parsers; a list or a dict, if
    the record holds one, can be written. *)
Definition validate : lookup -> gmap string pyval -> bool -> M report :=
  validate_receipt Ref.float_of_str Ref.strptime_ymd None.

(** The report of a run, empty when the run raised. *)
Definition report_or_empty (o : result report) : report :=
  match o with
  | Ok r => r
  | Raise _ => report_of []
  end.

Definition groceries_report : report :=
  Eval vm_compute in
    report_or_empty (outcome (validate never_stored groceries false)).

Definition tax_free_duplicate_report : report :=
  Eval vm_compute in
    report_or_empty (outcome (validate always_stored tax_free false)).

Definition bad_date_report : report :=
  Eval vm_compute in
    report_or_empty (outcome (validate never_stored bad_date false)).

Definition abc_report : report :=
  Eval vm_compute in
    report_or_empty (outcome (validate never_stored abc_amount false)).

Definition refund_report : report :=
  Eval vm_compute in
    report_or_empty (outcome (validate never_stored refund true)).


(** ** The pages around the validator

    [validation_ui] of [validation_ui.py], which shows the report of the
    last upload and validates a stored receipt picked by four text
    filters, and the end of [render_upload_ui] of [upload_ui.py], from
    the point where the extraction has produced the receipt: summary,
    duplicate check, validation, save. *)

(** Exceptions of the pages: those of the validator, the
    [AttributeError] of [.lower()] on a value that is not a str, and the
    exceptions of Streamlit, such as
    [StreamlitDataframeConversionError]. *)
Inductive pyexn :=
  | Py (e : exn)
  | AttributeError
  | StreamlitError.

Inductive answer (A : Type) :=
  | Done (a : A)
  | Failed (e : pyexn).
Arguments Done {A} a.
Arguments Failed {A} e.

#[global] Instance answer_ret : MRet answer := fun _ a => Done a.
#[global] Instance answer_bind : MBind answer := fun _ _ f m =>
  match m with
  | Done a => f a
  | Failed e => Failed e
  end.

Definition of_result {A} (r : result A) : answer A :=
  match r with
  | Ok a => Done a
  | Raise e => Failed (Py e)
  end.

(** A cell of the summary table: a value, or [round(v, 2)]. *)
Inductive cell :=
  | Value (v : pyval)
  | Round2 (v : pyval).

(** The Streamlit calls a page makes. *)
Inductive st_call :=
  | st_header (text : string)
  | st_subheader (text : list fpart)
  | st_success (text : list fpart)
  | st_error (text : list fpart)
  | st_info (text : string)
  | st_divider
  | st_columns (n : nat)
  | st_text_input (label : string)
  | st_button (label : string)
  | st_dataframe (row : list (string * cell))
  | st_dataframe_items (items : list (gmap string pyval)).

(** What a page reads and changes: the two session keys, the calls
    drawn so far, the arguments [receipt_exists] was called with, and
    the receipts handed to [save_receipt]; lists are oldest first. *)
Record world := {
  LAST_EXTRACTED_RECEIPT : option (gmap string pyval);
  LAST_VALIDATION_REPORT : option report;
  drawn : list st_call;
  looked_up : list pyval;
  saved : list (gmap string pyval)
}.

Definition P (A : Type) : Type := world -> answer A * world.

#[global] Instance P_ret : MRet P := fun _ a w => (Done a, w).
#[global] Instance P_bind : MBind P := fun _ _ f m w =>
  match m w with
  | (Done a, w') => f a w'
  | (Failed e, w') => (Failed e, w')
  end.

Definition draw (c : st_call) : P unit := fun w =>
  (Done tt,
   {| LAST_EXTRACTED_RECEIPT := LAST_EXTRACTED_RECEIPT w;
      LAST_VALIDATION_REPORT := LAST_VALIDATION_REPORT w;
      drawn := drawn w ++ [c];
      looked_up := looked_up w;
      saved := saved w |}).

Definition set_extracted (data : gmap string pyval) : P unit := fun w =>
  (Done tt,
   {| LAST_EXTRACTED_RECEIPT := Some data;
      LAST_VALIDATION_REPORT := LAST_VALIDATION_REPORT w;
      drawn := drawn w;
      looked_up := looked_up w;
      saved := saved w |}).

Definition set_report (r : report) : P unit := fun w =>
  (Done tt,
   {| LAST_EXTRACTED_RECEIPT := LAST_EXTRACTED_RECEIPT w;
      LAST_VALIDATION_REPORT := Some r;
      drawn := drawn w;
      looked_up := looked_up w;
      saved := saved w |}).

(** A computation of the validator, run on the log of lookups. *)
Definition of_M {A} (m : M A) : P A := fun w =>
  let '(r, t) := m (looked_up w) in
  (of_result r,
   {| LAST_EXTRACTED_RECEIPT := LAST_EXTRACTED_RECEIPT w;
      LAST_VALIDATION_REPORT := LAST_VALIDATION_REPORT w;
      drawn := drawn w;
      looked_up := t;
      saved := saved w |}).

Definition of_answer {A} (a : answer A) : P A := fun w => (a, w).

(** The text a user typed in four inputs, and whether the button was
    pressed. *)
Record inputs := {
  bill_id_input : string;
  vendor_input : string;
  amount_input : string;
  tax_input : string;
  run_clicked : bool
}.

Definition newline : string := String (ascii_of_nat 10) EmptyString.

(** Truth value of a str: non-empty. *)
Definition nonempty (s : string) : bool := negb (String.eqb s "").

(** [needle in hay] on two strs. *)
Fixpoint str_contains (needle hay : string) : bool :=
  String.prefix needle hay
  || match hay with
     | EmptyString => false
     | String _ rest => str_contains needle rest
     end.

(** [x == z] for a float and an int: the exact comparison. *)
Definition float_eqb_Z (x : float) (z : Z) : bool :=
  match x with
  | S754_zero _ => z =? 0
  | S754_finite s m e =>
      let v := cond_Zopp s (Zpos m) in
      if 0 <=? e then v * 2 ^ e =? z else v =? z * 2 ^ (- e)
  | S754_infinity _ | S754_nan => false
  end.

(** [x != v] for a float [x]. *)
Definition float_ne (x : float) (v : pyval) : bool :=
  match v with
  | PyFloat y => negb (F64.eqb x y)
  | PyInt z => negb (float_eqb_Z x z)
  | PyBool b => negb (float_eqb_Z x (if b then 1 else 0))
  | PyNone | PyStr _ | PyOther => true
  end.

(** [round(v, 2)], kept as a cell. *)
Definition round2 (v : pyval) : result cell :=
  match v with
  | PyBool _ | PyInt _ | PyFloat _ => Ok (Round2 v)
  | PyNone | PyStr _ | PyOther => Raise TypeError
  end.

(** One line per rule result: [st.success] or [st.error]. *)
Definition result_line (r : rule_result) : st_call :=
  if String.eqb (status r) "success" then
    st_success ([Lit "✅ **"; Fmt (PyStr (title r)) ""; Lit "**";
                 Lit newline; Lit newline] ++ message r)
  else
    st_error ([Lit "❌ **"; Fmt (PyStr (title r)) ""; Lit "**";
               Lit newline; Lit newline] ++ message r).

(** [for r in results: ...] *)
Fixpoint show_results (rs : list rule_result) : P unit :=
  match rs with
  | [] => mret tt
  | r :: rest => draw (result_line r) ≫= fun _ => show_results rest
  end.

Section Pages.

Variable float_of_str : string -> option float.
Variable strptime_ymd : pyval -> bool.

Variable str_other : option exn.

(** [s.lower()] on a str. *)
Variable str_lower : string -> string.

(** Whether the list or dict that [PyOther] stands for holds a str. *)
Variable in_other : string -> bool.

(** What [st.dataframe] raises on a table, if anything: Streamlit hands
    the table to Arrow, which refuses some cells (an int beyond 64 bits,
    for one). *)
Variable dataframe_raises : st_call -> option pyexn.

(** What [save_receipt] raises on a receipt, if anything: a fault of
    the store. *)
Variable save_raises : gmap string pyval -> option exn.

(** [st.dataframe(...)] of a table built by [pd.DataFrame] or of the
    items. *)
Definition show_table (table : st_call) : P unit := fun w =>
  match dataframe_raises table with
  | Some e => (Failed e, w)
  | None => draw table w
  end.

(** [save_receipt(data)] *)
Definition save_receipt (data : gmap string pyval) : P unit := fun w =>
  match save_raises data with
  | Some e => (Failed (Py e), w)
  | None =>
      (Done tt,
       {| LAST_EXTRACTED_RECEIPT := LAST_EXTRACTED_RECEIPT w;
          LAST_VALIDATION_REPORT := LAST_VALIDATION_REPORT w;
          drawn := drawn w;
          looked_up := looked_up w;
          saved := saved w ++ [data] |})
  end.

(** [needle in v] *)
Definition py_in (needle : string) (v : pyval) : answer bool :=
  match v with
  | PyStr s => Done (str_contains needle s)
  | PyOther => Done (in_other needle)
  | PyNone | PyBool _ | PyInt _ | PyFloat _ => Failed (Py TypeError)
  end.

(** [v.lower()] *)
Definition py_lower (v : pyval) : answer string :=
  match v with
  | PyStr s => Done (str_lower s)
  | _ => Failed AttributeError
  end.

(** The two numeric filters:
    [try: if float(text) != r[key]: continue; except ValueError: pass];
    [true] stands for [continue]. *)
Definition number_differs (text key : string) (r : gmap string pyval)
    : answer bool :=
  if nonempty text then
    match float_of_str text with
    | Some x =>
        v ← of_result (getitem r key);
        mret (float_ne x v)
    | None => mret false
    end
  else mret false.

(** The body of the loop over the stored receipts, up to [match = r]:
    [true] when one of the four filters says [continue]. *)
Definition filtered_out (i : inputs) (r : gmap string pyval) : answer bool :=
  skip ←
    (if nonempty (bill_id_input i) then
       b ← of_result (getitem r "bill_id");
       found ← py_in (bill_id_input i) b;
       mret (negb found)
     else mret false);
  if skip : bool then mret true else
  skip ←
    (if nonempty (vendor_input i) then
       let needle := str_lower (vendor_input i) in
       v ← of_result (getitem r "vendor");
       hay ← py_lower v;
       mret (negb (str_contains needle hay))
     else mret false);
  if skip : bool then mret true else
  skip ← number_differs (amount_input i) "amount" r;
  if skip : bool then mret true else
  number_differs (tax_input i) "tax" r.

(** [match = None; for r in receipts: ...; match = r; break] *)
Fixpoint find_match (i : inputs) (receipts : list (gmap string pyval))
    : answer (option (gmap string pyval)) :=
  match receipts with
  | [] => Done None
  | r :: rest =>
      skip ← filtered_out i r;
      if skip : bool then find_match i rest else Done (Some r)
  end.

(** Truth value of [match]: [None] and the empty dict are false. *)
Definition truthy (m : option (gmap string pyval)) : bool :=
  match m with
  | Some d => negb (bool_decide (d = ∅))
  | None => false
  end.

(** The first half of [validation_ui]: the report of the last upload,
    read from the session. *)
Definition current_uploaded_receipt : P unit := fun w =>
  let data := LAST_EXTRACTED_RECEIPT w in
  let report := LAST_VALIDATION_REPORT w in
  match truthy data, report with
  | true, Some report =>
      (_ ← draw (st_subheader [Lit "🎯 Current Uploaded Receipt"]);
       _ ← show_results (results report);
       if passed report
       then draw (st_success [Lit "🎉 Receipt passed validation"])
       else draw (st_error [Lit "❌ Receipt failed validation"])) w
  | _, _ => draw (st_info "No receipt uploaded yet") w
  end.

(** The second half: the four filters, the button, and on a click the
    search and the validation of the receipt found; [receipts] is what
    [fetch_all_receipts()] returns. *)
Definition stored_receipt_validation (receipt_exists : lookup) (i : inputs)
    (receipts : list (gmap string pyval)) : P unit :=
  _ ← draw (st_subheader [Lit "🔍 Validate Stored Receipt"]);
  _ ← draw (st_columns 4);
  _ ← draw (st_text_input "Bill ID");
  _ ← draw (st_text_input "Vendor");
  _ ← draw (st_text_input "Amount");
  _ ← draw (st_text_input "Tax");
  _ ← draw (st_button "Run Validation");
  if run_clicked i then
    found ← of_answer (find_match i receipts);
    match found with
    | Some match_ =>
        if truthy found then
          stored_report ←
            of_M (validate_receipt float_of_str strptime_ymd str_other
                    receipt_exists match_ true);
          bill_id ←
            of_answer (of_result (getitem match_ "bill_id"
                                  ≫= format_value str_other));
          _ ← draw (st_subheader [Lit "🧪 Validation for "; bill_id]);
          _ ← show_results (results stored_report);
          if passed stored_report
          then draw (st_success [Lit "🎉 Stored receipt passed validation"])
          else draw (st_error [Lit "❌ Stored receipt failed validation"])
        else draw (st_error [Lit "No matching stored receipt found"])
    | None => draw (st_error [Lit "No matching stored receipt found"])
    end
  else mret tt.

(** [validation_ui()] *)
Definition validation_ui (receipt_exists : lookup) (i : inputs)
    (receipts : list (gmap string pyval)) : P unit :=
  _ ← draw (st_header "🧾 Receipt Validation");
  _ ← current_uploaded_receipt;
  _ ← draw st_divider;
  stored_receipt_validation receipt_exists i receipts.

(** [data.get(key, default)] *)
Definition get_default (data : gmap string pyval) (key : string)
    (default : pyval) : pyval :=
  match data !! key with
  | Some v => v
  | None => default
  end.

(** The row of the summary table, in the order the dict is built. *)
Definition summary_row (data : gmap string pyval)
    : result (list (string * cell)) :=
  bill_id ← getitem data "bill_id";
  vendor ← getitem data "vendor";
  let category := get_default data "category" (PyStr "Uncategorized") in
  date ← getitem data "date";
  subtotal ← round2 (get_default data "subtotal" (PyFloat F64.zero));
  tax ← getitem data "tax" ≫= round2;
  amount ← getitem data "amount" ≫= round2;
  mret [("Bill ID", Value bill_id); ("Vendor", Value vendor);
        ("Category", Value category); ("Date", Value date);
        ("Subtotal (₹)", subtotal); ("Tax (₹)", tax);
        ("Amount (₹)", amount)].

(** [render_upload_ui()] from the point where the extraction has
    produced [data] and [items]. *)
Definition render_upload_ui (receipt_exists : lookup)
    (data : gmap string pyval) (items : list (gmap string pyval)) : P unit :=
  _ ← set_extracted data;
  (* ================= RECEIPT SUMMARY ================= *)
  _ ← draw (st_subheader [Lit "🧾 Receipt Summary"]);
  row ← of_answer (of_result (summary_row data));
  _ ← show_table (st_dataframe row);
  (* ================= ITEM WISE EXTRACTION ================= *)
  _ ← draw (st_subheader [Lit "🛒 Item-wise Details"]);
  _ ← (if negb (bool_decide (items = []))
       then show_table (st_dataframe_items items)
       else draw (st_info "No item-wise details detected from this receipt"));
  _ ← draw st_divider;
  (* ================= DUPLICATE CHECK ================= *)
  bill_id ← of_answer (of_result (getitem data "bill_id"));
  duplicate ← of_M (call receipt_exists bill_id);
  if duplicate : bool then
    draw (st_error [Lit "❌ Duplicate detected — receipt NOT saved to database"])
  else
    _ ← draw (st_success [Lit "✅ No duplicate found"]);
    (* ================= VALIDATION ================= *)
    validation ←
      of_M (validate_receipt float_of_str strptime_ymd str_other
              receipt_exists data false);
    _ ← set_report validation;
    (* ================= SAVE (EVEN IF VALIDATION FAILS) ================= *)
    _ ← save_receipt data;
    if passed validation
    then draw (st_success
                 [Lit "🎉 Receipt passed validation and was saved successfully"])
    else draw (st_error [Lit "❌ Receipt failed validation"]).

End Pages.

(** *** Vocabulary for the pages *)

(** The world after some more calls were drawn. *)
Definition with_drawn (w : world) (cs : list st_call) : world :=
  {| LAST_EXTRACTED_RECEIPT := LAST_EXTRACTED_RECEIPT w;
     LAST_VALIDATION_REPORT := LAST_VALIDATION_REPORT w;
     drawn := drawn w ++ cs;
     looked_up := looked_up w;
     saved := saved w |}.

Definition is_success_line (c : st_call) : Prop := exists text, c = st_success text.

(** The form of the stored-receipt validation. *)
Definition stored_form : list st_call :=
  [st_subheader [Lit "🔍 Validate Stored Receipt"];
   st_columns 4; st_text_input "Bill ID"; st_text_input "Vendor";
   st_text_input "Amount"; st_text_input "Tax"; st_button "Run Validation"].

(** What the first half of the page draws for a session. *)
Definition current_lines (w : world) : list st_call :=
  match LAST_EXTRACTED_RECEIPT w, LAST_VALIDATION_REPORT w with
  | Some data, Some r =>
      if bool_decide (data = ∅) then [st_info "No receipt uploaded yet"]
      else
        [st_subheader [Lit "🎯 Current Uploaded Receipt"]]
        ++ map result_line (results r)
        ++ [if passed r
            then st_success [Lit "🎉 Receipt passed validation"]
            else st_error [Lit "❌ Receipt failed validation"]]
  | _, _ => [st_info "No receipt uploaded yet"]
  end.

(** What the second half draws after the form: nothing without a
    click, the report of the receipt found, or that none was found. *)
Definition stored_lines (float_of_str : string -> option float)
    (strptime_ymd : pyval -> bool) (str_other : option exn)
    (str_lower : string -> string)
    (in_other : string -> bool) (lk : lookup) (i : inputs)
    (receipts : list (gmap string pyval)) : answer (list st_call) :=
  if run_clicked i then
    found ← find_match float_of_str str_lower in_other i receipts;
    match found with
    | Some m =>
        if bool_decide (m = ∅)
        then mret [st_error [Lit "No matching stored receipt found"]]
        else
          r ← of_result
                (outcome (validate_receipt float_of_str strptime_ymd str_other
                            lk m true));
          bill_id ← of_result (getitem m "bill_id" ≫= format_value str_other);
          mret ([st_subheader [Lit "🧪 Validation for "; bill_id]]
                ++ map result_line (results r)
                ++ [if passed r
                    then st_success [Lit "🎉 Stored receipt passed validation"]
                    else st_error [Lit "❌ Stored receipt failed validation"]])
    | None => mret [st_error [Lit "No matching stored receipt found"]]
    end
  else mret [].

(** A stored receipt as the search expects it: bill id and vendor are
    text, amount and tax are there. *)
Definition text_row (r : gmap string pyval) : Prop :=
  exists b v a t,
    r !! "bill_id" = Some (PyStr b) /\ r !! "vendor" = Some (PyStr v)
    /\ r !! "amount" = Some a /\ r !! "tax" = Some t.

(** A numeric filter lets a value through when nothing was typed, when
    what was typed is not a number, or when it is a number equal to the
    value. *)
Definition number_matches (float_of_str : string -> option float)
    (text : string) (v : pyval) : bool :=
  match float_of_str text with
  | Some x => String.eqb text "" || negb (float_ne x v)
  | None => true
  end.

(** What the four filters mean for a stored receipt. *)
Definition selects (float_of_str : string -> option float)
    (str_lower : string -> string) (i : inputs) (r : gmap string pyval)
    : bool :=
  match r !! "bill_id", r !! "vendor", r !! "amount", r !! "tax" with
  | Some (PyStr b), Some (PyStr v), Some a, Some t =>
      (String.eqb (bill_id_input i) "" || str_contains (bill_id_input i) b)
      && (String.eqb (vendor_input i) ""
          || str_contains (str_lower (vendor_input i)) (str_lower v))
      && number_matches float_of_str (amount_input i) a
      && number_matches float_of_str (tax_input i) t
  | _, _, _, _ => false
  end.

(** What the upload page draws before the duplicate check. *)
Definition summary_calls (row : list (string * cell))
    (items : list (gmap string pyval)) : list st_call :=
  [st_subheader [Lit "🧾 Receipt Summary"]; st_dataframe row;
   st_subheader [Lit "🛒 Item-wise Details"];
   if bool_decide (items = [])
   then st_info "No item-wise details detected from this receipt"
   else st_dataframe_items items;
   st_divider].

(** [st.dataframe] shows the summary and, when there are any, the
    items. *)
Definition tables_shown (dataframe_raises : st_call -> option pyexn)
    (row : list (string * cell)) (items : list (gmap string pyval)) : Prop :=
  dataframe_raises (st_dataframe row) = None
  /\ (items = [] \/ dataframe_raises (st_dataframe_items items) = None).

(** The world when the upload page reaches the validator: the receipt is
    in the session, the summary is drawn, the lookup has answered that
    the bill is not stored. *)
Definition checked (w : world) (data : gmap string pyval)
    (row : list (string * cell)) (items : list (gmap string pyval))
    (bill_id : pyval) : world :=
  {| LAST_EXTRACTED_RECEIPT := Some data;
     LAST_VALIDATION_REPORT := LAST_VALIDATION_REPORT w;
     drawn := drawn w ++ summary_calls row items
              ++ [st_success [Lit "✅ No duplicate found"]];
     looked_up := looked_up w ++ [bill_id];
     saved := saved w |}.

(** *** Example worlds and inputs *)

(** A receipt whose tax was read as text that is not a number. *)
Definition tax_unreadable : gmap string pyval :=
  receipt (PyStr "B-8") (PyStr "Market") (PyStr "2024-03-01")
    (PyInt 108) (PyStr "n/a").

(** The groceries with a subtotal and a category besides. *)
Definition groceries_detailed : gmap string pyval :=
  <["subtotal" := PyInt 1]> (<["category" := PyStr "Food"]> groceries).

(** A stored receipt whose vendor is null. *)
Definition null_vendor : gmap string pyval :=
  receipt (PyStr "B-9") PyNone (PyStr "2024-03-02") (PyInt 50) (PyInt 4).

(** A stored receipt whose bill id is a number. *)
Definition numeric_bill : gmap string pyval :=
  receipt (PyInt 17) (PyStr "Kiosk") (PyStr "2024-03-03") (PyInt 50) (PyInt 4).

Definition no_filter : inputs :=
  {| bill_id_input := ""; vendor_input := ""; amount_input := "";
     tax_input := ""; run_clicked := true |}.

Definition by_vendor (s : string) : inputs :=
  {| bill_id_input := ""; vendor_input := s; amount_input := "";
     tax_input := ""; run_clicked := true |}.

Definition by_bill (s : string) : inputs :=
  {| bill_id_input := s; vendor_input := ""; amount_input := "";
     tax_input := ""; run_clicked := true |}.

Definition by_amount (s : string) : inputs :=
  {| bill_id_input := ""; vendor_input := ""; amount_input := s;
     tax_input := ""; run_clicked := true |}.

Definition not_clicked : inputs :=
  {| bill_id_input := ""; vendor_input := ""; amount_input := "";
     tax_input := ""; run_clicked := false |}.

Definition fresh : world :=
  {| LAST_EXTRACTED_RECEIPT := None; LAST_VALIDATION_REPORT := None;
     drawn := []; looked_up := []; saved := [] |}.

(** [s.lower()] on ASCII text. *)
Definition ascii_lower (s : string) : string :=
  string_of_list_ascii (map Ref.lower (list_ascii_of_string s)).

(** The pages with the reference parsers; no list or dict is stored,
    and the store takes every receipt. *)
Definition validation_page : lookup -> inputs -> list (gmap string pyval)
    -> P unit :=
  validation_ui Ref.float_of_str Ref.strptime_ymd None ascii_lower
    (fun _ => false).

Definition find_stored : inputs -> list (gmap string pyval)
    -> answer (option (gmap string pyval)) :=
  find_match Ref.float_of_str ascii_lower (fun _ => false).

(** A reference for [st.dataframe] on the summary: Arrow refuses a
    table that holds an int beyond 64 bits. *)
Definition fits_64_bits (v : pyval) : bool :=
  match v with
  | PyInt z => (- 2 ^ 63 <=? z) && (z <? 2 ^ 64)
  | _ => true
  end.

Definition cell_value (c : cell) : pyval :=
  match c with
  | Value v | Round2 v => v
  end.

Definition arrow_refuses (table : st_call) : option pyexn :=
  match table with
  | st_dataframe row =>
      if forallb (fun kc => fits_64_bits (cell_value kc.2)) row then None
      else Some StreamlitError
  | _ => None
  end.

Definition upload_page : lookup -> gmap string pyval
    -> list (gmap string pyval) -> P unit :=
  render_upload_ui Ref.float_of_str Ref.strptime_ymd None
    arrow_refuses (fun _ => None).

(** A session in which the groceries were uploaded and validated. *)
Definition groceries_uploaded : world :=
  {| LAST_EXTRACTED_RECEIPT := Some groceries;
     LAST_VALIDATION_REPORT := Some groceries_report;
     drawn := []; looked_up := []; saved := [groceries] |}.

(** Three stored receipts. *)
Definition shelf : list (gmap string pyval) := [tax_free; groceries; bad_date].

Definition row_or_empty (r : result (list (string * cell)))
    : list (string * cell) :=
  match r with
  | Ok row => row
  | Raise _ => []
  end.

Definition groceries_row : list (string * cell) :=
  Eval vm_compute in row_or_empty (summary_row groceries).

Definition bad_date_row : list (string * cell) :=
  Eval vm_compute in row_or_empty (summary_row bad_date).

Definition tax_free_row : list (string * cell) :=
  Eval vm_compute in row_or_empty (summary_row tax_free).

Definition huge_amount_row : list (string * cell) :=
  Eval vm_compute in row_or_empty (summary_row huge_amount).

Definition tax_unreadable_report : report :=
  Eval vm_compute in
    report_or_empty (outcome (validate never_stored tax_unreadable true)).

(** ** Properties *)

(** Pick the result a rule has just appended as the witness. *)
Ltac appended :=
  match goal with
  | |- exists r, Ok (_ ++ [?R], _) = _ /\ _ => exists R
  | |- exists r, (_ ++ [?R], _) = _ /\ _ => exists R
  end;
  unfold step, ok; cbn [fst snd status title message String.eqb Ascii.eqb Bool.eqb];
  rewrite ?andb_true_r, ?andb_false_r.

(** *** Rounding in binary64

    What the tax-rate rule needs of the arithmetic: a value of magnitude
    at least 2^-4 is never rounded to a float below 2^-5, so a rate that
    is negative (or a negative zero, or not a number) stays outside the
    tolerance band. *)

Lemma digits2_pos_size p : digits2_pos p = Pos.size p.
Proof. induction p; simpl; congruence. Qed.

Lemma Zdigits2_log2 m : 0 < m -> Zdigits2 m = Z.log2 m + 1.
Proof.
  destruct m as [|p|p]; try lia. intros _. simpl.
  rewrite digits2_pos_size. destruct p; simpl; lia.
Qed.

Lemma Zdigits2_bounds m :
  0 < m -> 2 ^ (Zdigits2 m - 1) <= m < 2 ^ Zdigits2 m.
Proof.
  intros H. rewrite (Zdigits2_log2 m H).
  replace (Z.log2 m + 1 - 1) with (Z.log2 m) by lia.
  replace (Z.log2 m + 1) with (Z.succ (Z.log2 m)) by lia.
  apply Z.log2_spec, H.
Qed.

Lemma Zdigits2_mono a b : 0 < a -> a <= b -> Zdigits2 a <= Zdigits2 b.
Proof.
  intros Ha Hab. rewrite !Zdigits2_log2 by lia.
  pose proof (Z.log2_le_mono a b Hab). lia.
Qed.

Lemma shr_1_m mrs : 0 <= shr_m mrs -> shr_m (shr_1 mrs) = shr_m mrs / 2.
Proof.
  destruct mrs as [m r s]. simpl. intros Hm.
  destruct m as [|[p|p|]|p]; try lia; cbn [shr_m].
  - reflexivity.
  - apply (Z.div_unique _ _ _ 1); lia.
  - apply (Z.div_unique _ _ _ 0); lia.
  - reflexivity.
Qed.

Lemma iter_shr_1_m n : forall mrs,
  0 <= shr_m mrs ->
  shr_m (SpecFloat.iter_pos shr_1 n mrs) = shr_m mrs / 2 ^ Zpos n.
Proof.
  induction n as [n IH|n IH|]; intros mrs Hm; simpl SpecFloat.iter_pos.
  - assert (H1 : 0 <= shr_m (shr_1 mrs)).
    { rewrite shr_1_m by assumption. apply Z.div_pos; lia. }
    assert (H2 : 0 <= shr_m (SpecFloat.iter_pos shr_1 n (shr_1 mrs))).
    { rewrite IH by assumption. apply Z.div_pos; lia. }
    rewrite IH, IH, shr_1_m by assumption.
    rewrite !Z.div_div by lia. f_equal.
    replace (Z.pos n~1) with (1 + Z.pos n + Z.pos n) by lia.
    rewrite !Z.pow_add_r by lia. change (2 ^ 1) with 2. ring.
  - assert (H2 : 0 <= shr_m (SpecFloat.iter_pos shr_1 n mrs)).
    { rewrite IH by assumption. apply Z.div_pos; lia. }
    rewrite IH, IH by assumption.
    rewrite !Z.div_div by lia. f_equal.
    replace (Z.pos n~0) with (Z.pos n + Z.pos n) by lia.
    rewrite !Z.pow_add_r by lia. reflexivity.
  - rewrite shr_1_m by assumption. reflexivity.
Qed.

(** Shifting right by fewer bits than the number has keeps it positive
    and removes exactly that many digits. *)
Lemma Zdigits2_shiftr m n :
  0 < m -> 0 < n < Zdigits2 m ->
  0 < m / 2 ^ n /\ Zdigits2 (m / 2 ^ n) = Zdigits2 m - n.
Proof.
  intros Hm Hn. rewrite (Zdigits2_log2 m Hm) in *.
  assert (Hpos : 0 < m / 2 ^ n).
  { apply Z.div_str_pos. split; [lia|].
    apply Z.le_trans with (2 ^ Z.log2 m).
    - apply Z.pow_le_mono_r; lia.
    - apply Z.log2_spec, Hm. }
  split; [exact Hpos|].
  rewrite (Zdigits2_log2 _ Hpos).
  rewrite <- Z.shiftr_div_pow2 by lia.
  rewrite Z.log2_shiftr by lia. lia.
Qed.

Lemma shr_record_of_loc_m m l : shr_m (shr_record_of_loc m l) = m.
Proof. destruct l as [|[]]; reflexivity. Qed.

Lemma fexp_normal k : -1021 <= k -> fexp F64.prec F64.emax k = k - 53.
Proof. unfold fexp, emin, F64.prec, F64.emax. lia. Qed.

(** Truncation to the format: above the subnormal range a positive
    mantissa stays positive and the magnitude [digits + exponent] is
    kept. *)
Lemma shr_fexp_lower m e l :
  0 < m -> -1021 <= Zdigits2 m + e ->
  0 < shr_m (fst (shr_fexp F64.prec F64.emax m e l))
  /\ Zdigits2 m + e - 53 <= snd (shr_fexp F64.prec F64.emax m e l)
  /\ Zdigits2 m + e
     <= Zdigits2 (shr_m (fst (shr_fexp F64.prec F64.emax m e l)))
        + snd (shr_fexp F64.prec F64.emax m e l).
Proof.
  intros Hm Hk. unfold shr_fexp. rewrite (fexp_normal _ Hk).
  pose proof (Zdigits2_bounds m Hm) as Hd.
  assert (Hd0 : 0 < Zdigits2 m).
  { rewrite Zdigits2_log2 by assumption. pose proof (Z.log2_nonneg m). lia. }
  unfold shr.
  destruct (Zdigits2 m + e - 53 - e) as [|n|n] eqn:En;
    cbn [fst snd]; rewrite ?shr_record_of_loc_m; try lia.
  rewrite iter_shr_1_m by (rewrite shr_record_of_loc_m; lia).
  rewrite shr_record_of_loc_m.
  destruct (Zdigits2_shiftr m (Z.pos n)) as [Hpos Hdig]; lia.
Qed.

Lemma round_nearest_even_ge m l : m <= round_nearest_even m l.
Proof.
  unfold round_nearest_even. destruct l as [|[]]; try lia.
  destruct (Z.even m); lia.
Qed.

(** Rounding a positive mantissa of magnitude at least -3, that is a
    value of at least 2^-4: the result keeps the sign, is not F64.zero, and
    its exponent is at least -56. *)
Lemma binary_round_aux_lower s m e l :
  0 < m -> -3 <= Zdigits2 m + e ->
  match binary_round_aux F64.prec F64.emax s m e l with
  | S754_finite s' _ e' => s' = s /\ -56 <= e'
  | S754_infinity s' => s' = s
  | _ => False
  end.
Proof.
  intros Hm Hk. unfold binary_round_aux.
  destruct (shr_fexp_lower m e l Hm) as (Hm1 & He1 & Hk1); [lia|].
  destruct (shr_fexp F64.prec F64.emax m e l) as [mrs1 e1]. cbn [fst snd] in *.
  pose proof (round_nearest_even_ge (shr_m mrs1) (loc_of_shr_record mrs1)) as Hr.
  set (m1 := round_nearest_even (shr_m mrs1) (loc_of_shr_record mrs1)) in *.
  assert (Hm1' : 0 < m1) by lia.
  pose proof (Zdigits2_mono (shr_m mrs1) m1 Hm1 Hr) as Hd.
  destruct (shr_fexp_lower m1 e1 loc_Exact Hm1') as (Hm2 & He2 & Hk2); [lia|].
  destruct (shr_fexp F64.prec F64.emax m1 e1 loc_Exact) as [mrs2 e2].
  cbn [fst snd] in *.
  destruct (shr_m mrs2) as [|p|p]; try lia.
  destruct (e2 <=? F64.emax - F64.prec); [split|]; lia || reflexivity.
Qed.

Lemma iter_xO_pow p d : Zpos (Pos.iter xO p d) = Zpos p * 2 ^ Zpos d.
Proof.
  induction d as [|d IH] using Pos.peano_ind.
  - cbn. lia.
  - rewrite Pos.iter_succ, Pos2Z.inj_xO, IH, Pos2Z.inj_succ, Z.pow_succ_r by lia.
    ring.
Qed.

(** Aligning to a smaller exponent keeps the value. *)
Lemma shl_align_value m e e' :
  e' <= e ->
  Zpos (fst (shl_align m e e')) = Zpos m * 2 ^ (e - e')
  /\ snd (shl_align m e e') = e'.
Proof.
  intros H. unfold shl_align.
  destruct (e' - e) as [|d|d] eqn:Ed; cbn [fst snd]; try lia.
  - replace (e - e') with 0 by lia. lia.
  - rewrite iter_xO_pow. replace (e - e') with (Z.pos d) by lia. lia.
Qed.

Lemma shl_align_magnitude m e e' :
  Zdigits2 (Zpos (fst (shl_align m e e'))) + snd (shl_align m e e')
  = Zdigits2 (Zpos m) + e.
Proof.
  unfold shl_align.
  destruct (e' - e) as [|d|d] eqn:Ed; cbn [fst snd]; try reflexivity.
  rewrite iter_xO_pow, !Zdigits2_log2 by lia.
  rewrite Z.log2_mul_pow2 by lia. lia.
Qed.

Lemma binary_round_lower s m e :
  -3 <= Zdigits2 (Zpos m) + e ->
  match binary_round F64.prec F64.emax s m e with
  | S754_finite s' _ e' => s' = s /\ -56 <= e'
  | S754_infinity s' => s' = s
  | _ => False
  end.
Proof.
  intros Hk. unfold binary_round.
  pose proof (shl_align_magnitude m e
                (fexp F64.prec F64.emax (Z.pos (digits2_pos m) + e))) as Hmag.
  destruct (shl_align m e _) as [mz ez]. cbn [fst snd] in Hmag.
  apply binary_round_aux_lower; lia.
Qed.

Lemma sub_expected_lower m e :
  match F64.sub (S754_finite true m e) EXPECTED_TAX_RATE with
  | S754_finite s' _ e' => s' = true /\ -56 <= e'
  | S754_infinity s' => s' = true
  | _ => False
  end.
Proof.
  unfold EXPECTED_TAX_RATE, F64.sub. cbn [SFsub cond_Zopp].
  set (ez := Z.min e (-56)).
  destruct (shl_align_value m e ez) as [Va Ea]; [lia|].
  pose proof (shl_align_magnitude 5764607523034235 (-56) ez) as Mb.
  destruct (shl_align_value 5764607523034235 (-56) ez) as [Vb Eb]; [lia|].
  rewrite Eb in Mb.
  set (a := fst (shl_align m e ez)) in *.
  set (b := fst (shl_align 5764607523034235 (-56) ez)) in *.
  change (- Z.pos a - Z.pos b) with (Z.neg (a + b)).
  cbn [binary_normalize]. apply binary_round_lower.
  change (Zdigits2 (Z.pos 5764607523034235)) with 53 in Mb.
  pose proof (Zdigits2_mono (Z.pos b) (Z.pos (a + b))). lia.
Qed.

Lemma sign_set_out_of_band x : sign_set x -> within_tolerance x = false.
Proof.
  unfold within_tolerance, F64.leb, F64.abs. destruct x as [s|s| |s m e]; cbn [sign_set].
  - intros ->. reflexivity.
  - intros ->. reflexivity.
  - intros _. reflexivity.
  - intros ->. pose proof (sub_expected_lower m e) as H.
    destruct (F64.sub (S754_finite true m e) EXPECTED_TAX_RATE)
      as [s'|s'| |s' m' e']; try contradiction.
    + reflexivity.
    + destruct H as [_ He]. unfold TOLERANCE, SFleb. cbn [SFabs SFcompare].
      destruct (Z.compare_spec e' (-57)); lia || reflexivity.
Qed.

Lemma binary_round_aux_sign s m e l :
  match binary_round_aux F64.prec F64.emax s m e l with
  | S754_nan => True
  | S754_zero s' | S754_infinity s' | S754_finite s' _ _ => s' = s
  end.
Proof.
  unfold binary_round_aux.
  destruct (shr_fexp F64.prec F64.emax m e l) as [mrs1 e1].
  destruct (shr_fexp F64.prec F64.emax _ e1 loc_Exact) as [mrs2 e2].
  destruct (shr_m mrs2); try reflexivity.
  destruct (e2 <=? F64.emax - F64.prec); reflexivity.
Qed.

Lemma div_sign_set tax c :
  F64.ltb tax F64.zero = true -> F64.leb c F64.zero = false ->
  sign_set (F64.div tax c).
Proof.
  unfold F64.ltb, F64.leb, F64.div, SFltb, SFleb, F64.zero.
  destruct tax as [st|st| |st mt et]; cbn [SFcompare]; try discriminate;
    destruct st; try discriminate; intros _;
    destruct c as [sc|sc| |sc mc ec]; cbn [SFcompare]; try discriminate;
    try destruct sc; try discriminate; intros _; cbn [SFdiv xorb sign_set];
    try reflexivity.
  destruct (SFdiv_core_binary F64.prec F64.emax (Z.pos mt) et (Z.pos mc) ec)
    as [[mz ez] lz].
  pose proof (binary_round_aux_sign true mz ez lz) as H.
  destruct (binary_round_aux F64.prec F64.emax true mz ez lz); exact H.
Qed.

Lemma negative_rate_out_of_band tax c :
  F64.ltb tax F64.zero = true -> F64.leb c F64.zero = false ->
  within_tolerance (F64.div tax c) = false.
Proof. intros Ht Hc. apply sign_set_out_of_band, div_sign_set; assumption. Qed.

(** The band of the specification is the test of the code. *)
Lemma band_constants :
  eight_percent = EXPECTED_TAX_RATE /\ five_percent = TOLERANCE.
Proof. split; vm_compute; reflexivity. Qed.

Lemma within_tolerance_in_band rate : within_tolerance rate = in_band rate.
Proof.
  unfold within_tolerance, in_band.
  by destruct band_constants as [-> ->].
Qed.

Lemma ltb_zero_eqb x : F64.ltb x F64.zero = true -> F64.eqb x F64.zero = false.
Proof.
  unfold F64.ltb, F64.eqb, SFltb, SFeqb.
  destruct (SFcompare x F64.zero) as [[]|]; done.
Qed.

Section Properties.

Variable float_of_str : string -> option float.
Variable strptime_ymd : pyval -> bool.
Variable str_other : option exn.

Local Abbreviation validate_receipt' :=
  (validate_receipt float_of_str strptime_ymd str_other).
Local Abbreviation date_fault' := (date_fault strptime_ymd str_other).
Local Abbreviation reportable' := (reportable strptime_ymd str_other).

(** *** The gate *)


Lemma get_is_None_false data f :
  get_is_None data f = false <-> exists v, data !! f = Some v /\ v <> PyNone.
Proof.
  unfold get_is_None. split.
  - destruct (data !! f) as [v|]; [|done].
    intros H. exists v. split; [done|]. intros ->. done.
  - intros (v & -> & Hv). destruct v; done.
Qed.

Lemma gate_passes_missing data :
  gate_passes data <-> missing_fields data = [].
Proof.
  unfold gate_passes, missing_fields. split.
  - intros H.
    assert (Hf : forall f, In f required -> get_is_None data f = false)
      by (intros f Hin; apply get_is_None_false; auto).
    induction required as [|f l IH]; [done|].
    simpl. rewrite (Hf f) by (by left). apply IH.
    + intros g Hg. apply H. by right.
    + intros g Hg. apply Hf. by right.
  - intros H f Hin. apply get_is_None_false.
    destruct (get_is_None data f) eqn:E; [|done].
    assert (Hm : In f (List.filter (get_is_None data) required))
      by (apply filter_In; done).
    rewrite H in Hm. destruct Hm.
Qed.



Lemma validate_gate_fail lk data skip :
  missing_fields data <> [] ->
  validate_receipt' lk data skip = mret (missing_report data).
Proof.
  intros H. unfold validate_receipt, missing_report.
  fold (missing_fields data).
  rewrite bool_decide_eq_false_2 by done. reflexivity.
Qed.

(** *** The rules, one by one *)

Lemma ok_true r : ok r = true <-> succeeded r.
Proof. unfold ok, succeeded. apply String.eqb_eq. Qed.

Lemma ok_false r : ok r = false <-> ~ succeeded r.
Proof. unfold ok, succeeded. apply String.eqb_neq. Qed.

Lemma ok_status_if r (b : bool) :
  status r = (if b then "success" else "error") -> ok r = b.
Proof. unfold ok. intros ->. by destruct b. Qed.

(** The Date Format rule appends its result, unless the date neither
    parses nor can be written: then it raises. *)
Lemma date_format_step data date st :
  data !! "date" = Some date ->
  date_format strptime_ymd str_other data st =
  match date_fault' date with
  | Some e => Raise e
  | None => Ok (step st (date_result (strptime_ymd date) date))
  end.
Proof.
  intros Hd. destruct st as [results passed].
  unfold date_format, getitem, date_fault, format_value, date_result.
  rewrite Hd. cbn [mbind result_bind].
  destruct (strptime_ymd date).
  - unfold step, ok. cbn. by rewrite andb_true_r.
  - destruct (str_raises str_other date); [done|].
    unfold step, ok. cbn. by rewrite andb_false_r.
Qed.

Lemma date_result_facts parses date :
  title (date_result parses date) = "Date Format"
  /\ status (date_result parses date) = (if parses then "success" else "error").
Proof. by destruct parses. Qed.

Lemma total_validation_step amount st :
  total_validation amount st = step st (total_result amount).
Proof.
  destruct st as [results passed]. unfold total_validation, total_result.
  destruct (F64.ltb F64.zero amount); unfold step, ok; cbn;
    by rewrite ?andb_true_r, ?andb_false_r.
Qed.

Lemma total_result_facts amount :
  title (total_result amount) = "Total Validation"
  /\ status (total_result amount)
     = (if F64.ltb F64.zero amount then "success" else "error")
  /\ (F64.ltb F64.zero amount = false ->
      message (total_result amount) = [Lit "Invalid amount value"]).
Proof. unfold total_result. by destruct (F64.ltb F64.zero amount). Qed.

(** A candidate that is not skipped is not zero: the division is safe. *)
Lemma leb_zero_false_eqb c :
  F64.leb c F64.zero = false -> F64.eqb c F64.zero = false.
Proof.
  unfold F64.leb, F64.eqb, SFleb, SFeqb.
  destruct (SFcompare c F64.zero) as [[]|]; done.
Qed.

Lemma truediv_candidate tax c :
  F64.leb c F64.zero = false -> truediv tax c = Ok (F64.div tax c).
Proof.
  intros H. unfold truediv. by rewrite (leb_zero_false_eqb c H).
Qed.

(** The loop stops at the first qualifying candidate and never raises. *)
Lemma tax_rate_loop_find tax cs st :
  tax_rate_loop tax cs st =
  Ok (match List.find (qualifies tax) cs with
      | Some c => (true, c, F64.div tax c)
      | None => st
      end).
Proof.
  induction cs as [|c cs IH]; [done|].
  cbn [tax_rate_loop List.find]. unfold qualifies at 1.
  destruct (F64.leb c F64.zero) eqn:Hc; cbn [negb andb]; [done|].
  rewrite (truediv_candidate tax c Hc). cbn [mbind result_bind].
  rewrite within_tolerance_in_band.
  destruct (in_band (F64.div tax c)); done.
Qed.

Lemma tax_rate_validation_step amount tax st :
  tax_rate_validation amount tax st = Ok (step st (tax_rate_result amount tax)).
Proof.
  destruct st as [results passed].
  unfold tax_rate_validation, tax_rate_result, first_qualifying, candidates.
  destruct (F64.eqb tax F64.zero).
  - unfold step; simpl. by rewrite andb_true_r.
  - rewrite tax_rate_loop_find. cbn [mbind result_bind].
    destruct (List.find _ _); unfold step; cbn [fst snd ok status].
    + by rewrite andb_true_r.
    + by rewrite andb_false_r.
Qed.

Lemma duplicate_detection_skipped lk data st tr :
  duplicate_detection lk data true st tr = (Ok st, tr).
Proof. by destruct st. Qed.

Lemma duplicate_detection_checked lk data st tr bill_id :
  data !! "bill_id" = Some bill_id ->
  duplicate_detection lk data false st tr =
  (match lk bill_id with
   | Ok true => Ok (step st duplicate_error)
   | Ok false => Ok (step st duplicate_ok)
   | Raise e => Raise e
   end, tr ++ [bill_id]).
Proof.
  intros Hb. destruct st as [results passed].
  unfold duplicate_detection, getitem, lift, call. rewrite Hb.
  unfold mbind, M_bind, mret, M_ret. cbn [negb].
  destruct (lk bill_id) as [[]|]; unfold step, ok; cbn;
    rewrite ?andb_true_r, ?andb_false_r; done.
Qed.

(** *** The whole run *)

(** The only exception [float()] can leak through the [except] clause. *)
Lemma coerce_raises v e :
  coerce float_of_str v = Raise e ->
  e = OverflowError /\
  exists z s, v = PyInt z /\ F64.of_Z z = S754_infinity s.
Proof.
  unfold coerce, py_float, float_of_int. destruct v; try done.
  - destruct (F64.of_Z z) eqn:E; try done.
    intros [= <-]. split; [done|]. by exists z, s.
  - destruct (float_of_str s); done.
Qed.

Lemma coerce_total v :
  (forall z s, v = PyInt z -> F64.of_Z z <> S754_infinity s) ->
  exists x, coerce float_of_str v = Ok x.
Proof.
  intros H. destruct (coerce float_of_str v) as [x|e] eqn:E; [by exists x|].
  apply coerce_raises in E as (_ & z & s & -> & Hz). by destruct (H z s).
Qed.

(** A record that passes the gate and whose amount and tax convert:
    the report is the required-fields success, the date result, the
    total result, the tax-rate result and, unless skipped, the
    duplicate result; the lookup is called once, unless skipped. *)
Lemma validate_gate_pass_run data date va vt bill_id amount tax :
  gate_passes data ->
  data !! "date" = Some date ->
  data !! "amount" = Some va ->
  data !! "tax" = Some vt ->
  data !! "bill_id" = Some bill_id ->
  date_fault' date = None ->
  coerce float_of_str va = Ok amount ->
  coerce float_of_str vt = Ok tax ->
  forall lk skip tr,
    let rs := [required_ok; date_result (strptime_ymd date) date;
               total_result amount; tax_rate_result amount tax] in
    validate_receipt' lk data skip tr =
    if skip then (Ok (report_of rs), tr)
    else
      (match lk bill_id with
       | Ok found => Ok (report_of (rs ++ [duplicate_result found]))
       | Raise e => Raise e
       end, tr ++ [bill_id]).
Proof.
  intros Hg Hd Ha Ht Hb Hdf Hca Hct.
  pose proof (date_format_step data date ([required_ok], true) Hd) as Edate.
  rewrite Hdf in Edate.
  set (r_date := date_result (strptime_ymd date) date) in *.
  set (r_total := total_result amount).
  pose proof (total_validation_step amount (step ([required_ok], true) r_date))
    as Etotal. fold r_total in Etotal.
  intros lk skip tr rs.
  unfold validate_receipt. fold (missing_fields data).
  rewrite (proj1 (gate_passes_missing data) Hg).
  rewrite bool_decide_eq_true_2 by done. cbn [negb app].
  fold required_ok. unfold lift, mbind, M_bind, mret, M_ret.
  rewrite Edate. unfold getitem. rewrite Ha, Ht.
  unfold result_bind. rewrite Hca, Hct, Etotal, tax_rate_validation_step.
  destruct skip.
  - rewrite duplicate_detection_skipped. unfold step, report_of, rs.
    cbn [fst snd app forallb]. do 2 f_equal.
    change (ok required_ok) with true. by rewrite !andb_assoc, andb_true_r.
  - rewrite (duplicate_detection_checked _ _ _ _ _ Hb).
    destruct (lk bill_id) as [found|e]; [|done].
    assert (E : step (step (step (step ([required_ok], true) r_date) r_total)
                  (tax_rate_result amount tax)) (duplicate_result found)
                = (rs ++ [duplicate_result found],
                   forallb ok (rs ++ [duplicate_result found]))).
    { unfold step, rs. cbn [fst snd app forallb].
      change (ok required_ok) with true.
      by rewrite !andb_assoc, andb_true_r. }
    destruct found; cbn [duplicate_result] in E; rewrite E; done.
Qed.

Lemma validate_gate_pass data date va vt bill_id amount tax :
  gate_passes data ->
  data !! "date" = Some date ->
  data !! "amount" = Some va ->
  data !! "tax" = Some vt ->
  data !! "bill_id" = Some bill_id ->
  date_fault' date = None ->
  coerce float_of_str va = Ok amount ->
  coerce float_of_str vt = Ok tax ->
  exists r_date r_total,
    (title r_date = "Date Format"
     /\ status r_date = (if strptime_ymd date then "success" else "error"))
    /\ (title r_total = "Total Validation"
        /\ status r_total
           = (if F64.ltb F64.zero amount then "success" else "error")
        /\ (F64.ltb F64.zero amount = false ->
            message r_total = [Lit "Invalid amount value"]))
    /\ forall lk skip tr,
        let rs := [required_ok; r_date; r_total; tax_rate_result amount tax] in
        validate_receipt' lk data skip tr =
        if skip then (Ok (report_of rs), tr)
        else
          (match lk bill_id with
           | Ok found => Ok (report_of (rs ++ [duplicate_result found]))
           | Raise e => Raise e
           end, tr ++ [bill_id]).
Proof.
  intros Hg Hd Ha Ht Hb Hdf Hca Hct.
  exists (date_result (strptime_ymd date) date), (total_result amount).
  split; [apply date_result_facts|]. split; [apply total_result_facts|].
  by apply validate_gate_pass_run with va vt.
Qed.

(** When the date neither parses nor can be written, the exception of
    the handler escapes before any other rule runs. *)
Lemma validate_date_raises lk data skip tr date e :
  gate_passes data ->
  data !! "date" = Some date ->
  date_fault' date = Some e ->
  validate_receipt' lk data skip tr = (Raise e, tr).
Proof.
  intros Hg Hd Hdf.
  pose proof (date_format_step data date ([required_ok], true) Hd) as Edate.
  rewrite Hdf in Edate.
  unfold validate_receipt. fold (missing_fields data).
  rewrite (proj1 (gate_passes_missing data) Hg).
  rewrite bool_decide_eq_true_2 by done. cbn [negb app].
  fold required_ok. unfold lift, mbind, M_bind, mret, M_ret.
  by rewrite Edate.
Qed.

(** ... and when a conversion overflows, that exception escapes before
    the total, tax-rate and duplicate rules run. *)
Lemma validate_coerce_raises lk data skip tr date va vt e :
  gate_passes data ->
  data !! "date" = Some date ->
  data !! "amount" = Some va ->
  data !! "tax" = Some vt ->
  date_fault' date = None ->
  coerce float_of_str va = Raise e
  \/ (exists amount, coerce float_of_str va = Ok amount)
     /\ coerce float_of_str vt = Raise e ->
  validate_receipt' lk data skip tr = (Raise e, tr).
Proof.
  intros Hg Hd Ha Ht Hdf Hc.
  pose proof (date_format_step data date ([required_ok], true) Hd) as Edate.
  rewrite Hdf in Edate.
  unfold validate_receipt. fold (missing_fields data).
  rewrite (proj1 (gate_passes_missing data) Hg).
  rewrite bool_decide_eq_true_2 by done. cbn [negb app].
  fold required_ok. unfold lift, mbind, M_bind, mret, M_ret.
  rewrite Edate. unfold getitem. rewrite Ha, Ht. unfold result_bind.
  destruct Hc as [Hc|[[amount Hc] Hc']].
  - by rewrite Hc.
  - by rewrite Hc, Hc'.
Qed.

Lemma gate_values data :
  gate_passes data ->
  exists bill_id date va vt,
    data !! "bill_id" = Some bill_id /\ data !! "date" = Some date
    /\ data !! "amount" = Some va /\ data !! "tax" = Some vt.
Proof.
  intros Hg.
  destruct (Hg "bill_id") as (b & Hb & _); [cbn; tauto|].
  destruct (Hg "date") as (d & Hd & _); [cbn; tauto|].
  destruct (Hg "amount") as (a & Ha & _); [cbn; tauto|].
  destruct (Hg "tax") as (t & Ht & _); [cbn; tauto|].
  by exists b, d, a, t.
Qed.

Lemma gate_decide data : gate_passes data \/ missing_fields data <> [].
Proof.
  destruct (missing_fields data) eqn:E.
  - left. by apply gate_passes_missing.
  - by right.
Qed.

(** Every report is the report over its own results. *)
Lemma validate_report_of lk data skip tr r :
  (validate_receipt' lk data skip tr).1 = Ok r -> r = report_of (results r).
Proof.
  destruct (gate_decide data) as [Hg|Hm].
  - destruct (gate_values data Hg) as (b & d & va & vt & Hb & Hd & Ha & Ht).
    destruct (date_fault' d) as [e|] eqn:Hdf.
    { by rewrite (validate_date_raises lk data skip tr d e Hg Hd Hdf). }
    destruct (coerce float_of_str va) as [amount|e] eqn:Hca.
    2:{ rewrite (validate_coerce_raises lk data skip tr d va vt e); auto. done. }
    destruct (coerce float_of_str vt) as [tax|e] eqn:Hct.
    2:{ rewrite (validate_coerce_raises lk data skip tr d va vt e); eauto. done. }
    destruct (validate_gate_pass data d va vt b amount tax)
      as (r_date & r_total & _ & _ & E); auto.
    cbn zeta in E. rewrite E. destruct skip; cbn [fst].
    + by intros [= <-].
    + destruct (lk b); [|done]. by intros [= <-].
  - rewrite validate_gate_fail by done. by intros [= <-].
Qed.

Lemma report_of_passed rs :
  passed (report_of rs) = true <-> Forall succeeded (results (report_of rs)).
Proof.
  cbn. rewrite forallb_forall, List.Forall_forall.
  split; intros H x Hx; apply ok_true, H, Hx.
Qed.

Lemma report_of_failed rs x :
  In x rs -> ok x = false -> passed (report_of rs) = false.
Proof.
  intros Hin Hx. cbn. apply not_true_is_false. intros H.
  rewrite forallb_forall in H. specialize (H x Hin). congruence.
Qed.

(** The report of a record that passes the gate and converts. *)
Lemma validate_gate_pass_report lk data skip date va vt bill_id amount tax :
  gate_passes data ->
  data !! "date" = Some date ->
  data !! "amount" = Some va ->
  data !! "tax" = Some vt ->
  data !! "bill_id" = Some bill_id ->
  date_fault' date = None ->
  coerce float_of_str va = Ok amount ->
  coerce float_of_str vt = Ok tax ->
  exists r_date r_total,
    (title r_date = "Date Format"
     /\ status r_date = (if strptime_ymd date then "success" else "error"))
    /\ (title r_total = "Total Validation"
        /\ status r_total
           = (if F64.ltb F64.zero amount then "success" else "error")
        /\ (F64.ltb F64.zero amount = false ->
            message r_total = [Lit "Invalid amount value"]))
    /\ (skip = true \/ (exists found, lk bill_id = Ok found) ->
        exists r, outcome (validate_receipt' lk data skip) = Ok r)
    /\ forall r,
        outcome (validate_receipt' lk data skip) = Ok r ->
        r = report_of ([required_ok; r_date; r_total;
                        tax_rate_result amount tax]
                       ++ duplicate_tail skip (lk bill_id))
        /\ (skip = false -> exists found, lk bill_id = Ok found).
Proof.
  intros Hg Hd Ha Ht Hb Hdf Hca Hct.
  destruct (validate_gate_pass data date va vt bill_id amount tax)
    as (r_date & r_total & Fd & Ft & E); auto.
  exists r_date, r_total. split; [done|]. split; [done|].
  cbn zeta in E. unfold outcome, run. split.
  - intros Hl. rewrite E. destruct skip; [by eexists|].
    destruct Hl as [|[found ->]]; [done|]. by eexists.
  - intros r. rewrite E. unfold duplicate_tail. destruct skip; cbn [fst].
    + intros [= <-]. by rewrite app_nil_r.
    + destruct (lk bill_id) as [found|]; [|done].
      intros [= <-]. split; [done|]. by exists found.
Qed.

(** A run returns a report as soon as the date parses or can be
    written, the numbers convert and the lookup, when consulted,
    answers. *)
Lemma validate_returns lk data skip :
  reportable' data -> convertible data -> skip = true \/ answers lk data ->
  exists r, outcome (validate_receipt' lk data skip) = Ok r.
Proof.
  intros Hrep Hc Hl. destruct (gate_decide data) as [Hg|Hm].
  - destruct (gate_values data Hg) as (b & d & va & vt & Hb & Hd & Ha & Ht).
    pose proof (Hrep d Hd) as Hdf.
    destruct (coerce_total va) as [amount Hca].
    { intros z s -> Hz. destruct (Hc "amount" z) as [x Hx]; auto.
      unfold float_of_int in Hx. by rewrite Hz in Hx. }
    destruct (coerce_total vt) as [tax Hct].
    { intros z s -> Hz. destruct (Hc "tax" z) as [x Hx]; auto.
      unfold float_of_int in Hx. by rewrite Hz in Hx. }
    destruct (validate_gate_pass_report lk data skip d va vt b amount tax)
      as (r_date & r_total & _ & _ & Hex & _); auto.
    apply Hex. destruct Hl as [|Hl]; [by left|right]. by apply Hl.
  - exists (missing_report data). unfold outcome, run.
    by rewrite validate_gate_fail.
Qed.

(** The only exceptions a run can leak: that of the date handler, the
    overflow of a conversion, and a fault of the lookup. *)
Lemma validate_raises lk data skip e :
  outcome (validate_receipt' lk data skip) = Raise e ->
  (exists date, data !! "date" = Some date /\ date_fault' date = Some e)
  \/ (e = OverflowError /\ reportable' data /\ ~ convertible data)
  \/ (skip = false /\ reportable' data /\ convertible data /\
      exists bill_id, data !! "bill_id" = Some bill_id /\ lk bill_id = Raise e).
Proof.
  unfold outcome, run. destruct (gate_decide data) as [Hg|Hm].
  2:{ by rewrite validate_gate_fail. }
  destruct (gate_values data Hg) as (b & d & va & vt & Hb & Hd & Ha & Ht).
  destruct (date_fault' d) as [e0|] eqn:Hdf.
  { rewrite (validate_date_raises lk data skip [] d e0 Hg Hd Hdf).
    intros [= <-]. left. by exists d. }
  assert (Hrep : reportable' data).
  { intros d' Hd'. rewrite Hd in Hd'. by injection Hd' as <-. }
  intros Hout. right. revert Hout.
  assert (Hover : forall f v e', f = "amount" \/ f = "tax" ->
            data !! f = Some v -> coerce float_of_str v = Raise e' ->
            e' = OverflowError /\ ~ convertible data).
  { intros f v e' Hf Hv Hr.
    apply coerce_raises in Hr as (-> & z & sg & -> & Hz). split; [done|].
    intros Hc. destruct (Hc f z Hf Hv) as [x Hx].
    unfold float_of_int in Hx. by rewrite Hz in Hx. }
  destruct (coerce float_of_str va) as [amount|e1] eqn:Hca.
  2:{ rewrite (validate_coerce_raises lk data skip [] d va vt e1); auto.
      intros [= <-]. left.
      destruct (Hover "amount" va e1) as [-> Hn]; auto. }
  destruct (coerce float_of_str vt) as [tax|e1] eqn:Hct.
  2:{ rewrite (validate_coerce_raises lk data skip [] d va vt e1); eauto.
      intros [= <-]. left.
      destruct (Hover "tax" vt e1) as [-> Hn]; auto. }
  destruct (validate_gate_pass data d va vt b amount tax)
    as (r_date & r_total & _ & _ & E); auto.
  cbn zeta in E. rewrite E. destruct skip; [done|]. cbn [fst].
  destruct (lk b) eqn:El; [done|]. intros [= <-]. right.
  split; [done|]. split; [done|]. split; [|eauto].
  intros f z [-> | ->] Hf.
  - rewrite Ha in Hf. injection Hf as ->.
    unfold coerce, py_float, float_of_int in *.
    destruct (F64.of_Z z); by eauto.
  - rewrite Ht in Hf. injection Hf as ->.
    unfold coerce, py_float, float_of_int in *.
    destruct (F64.of_Z z); by eauto.
Qed.

(** A record that passes the gate and gets a report has a date that
    parses or can be written. *)
Lemma returned_date_fault lk data skip date r :
  gate_passes data -> data !! "date" = Some date ->
  outcome (validate_receipt' lk data skip) = Ok r ->
  date_fault' date = None.
Proof.
  intros Hg Hd. unfold outcome, run.
  destruct (date_fault' date) as [e|] eqn:Hdf; [|done].
  by rewrite (validate_date_raises lk data skip [] date e Hg Hd Hdf).
Qed.

(** *** Coercion *)

(** A [ValueError] or a [TypeError] of [float()] becomes [0.0]. *)
Lemma coerce_defaults v :
  py_float float_of_str v = Raise ValueError
  \/ py_float float_of_str v = Raise TypeError ->
  coerce float_of_str v = Ok F64.zero.
Proof. unfold coerce. by intros [->| ->]. Qed.

Lemma coerce_unparsable s :
  float_of_str s = None -> coerce float_of_str (PyStr s) = Ok F64.zero.
Proof. intros H. apply coerce_defaults. left. cbn. by rewrite H. Qed.

(** A record whose amount is a string that [float()] rejects: no
    exception, and the third result is the Total Validation error. *)
Lemma unparsable_amount_reported lk data skip s r :
  gate_passes data ->
  data !! "amount" = Some (PyStr s) -> float_of_str s = None ->
  outcome (validate_receipt' lk data skip) = Ok r ->
  results r !! 2%nat =
    Some {| title := "Total Validation";
            status := "error";
            message := [Lit "Invalid amount value"] |}.
Proof.
  intros Hg Ha Hs Hout.
  destruct (gate_values data Hg) as (b & d & va & vt & Hb & Hd & Ha' & Ht).
  rewrite Ha in Ha'. injection Ha' as <-.
  pose proof (returned_date_fault lk data skip d r Hg Hd Hout) as Hdf.
  pose proof (coerce_unparsable s Hs) as Hca.
  destruct (coerce float_of_str vt) as [tax|e] eqn:Hct.
  2:{ unfold outcome, run in Hout.
      by rewrite (validate_coerce_raises lk data skip [] d (PyStr s) vt e)
        in Hout by eauto. }
  destruct (validate_gate_pass_report lk data skip d (PyStr s) vt b F64.zero tax)
    as (r_date & r_total & _ & (Tt & St & Mt) & _ & Hr); try assumption.
  destruct (Hr r Hout) as [-> _]. cbn.
  destruct r_total as [t st m]. cbn in *. by rewrite Tt, St, Mt.
Qed.

(** *** Claims *)


(** C2: in every report, for every record and either value of the
    skip-duplicate flag, [passed] is true exactly when every result of
    the report has status success. *)
Theorem C2_passed_iff_all_success lk data skip r :
  outcome (validate_receipt' lk data skip) = Ok r ->
  passed r = true <-> Forall succeeded (results r).
Proof.
  intros H. apply validate_report_of in H. rewrite H.
  apply report_of_passed.
Qed.


(** C5: for a record that passes the gate.  With the flag false and a
    lookup that answers true for the bill id, every report holds the
    Duplicate Detection error and has [passed = false], whatever the
    other rules found; a report is returned as soon as the date parses
    or can be written and the numbers convert.  With the flag true, no
    report holds a Duplicate Detection result, the lookup is not called,
    and the run is the same for every lookup. *)
Theorem C5_duplicate_detection lk data bill_id :
  gate_passes data -> data !! "bill_id" = Some bill_id ->
  (lk bill_id = Ok true ->
     (reportable strptime_ymd str_other data -> convertible data ->
      exists r, outcome (validate_receipt' lk data false) = Ok r)
     /\ forall r, outcome (validate_receipt' lk data false) = Ok r ->
          In duplicate_error (results r) /\ passed r = false)
  /\ (forall r, outcome (validate_receipt' lk data true) = Ok r ->
        ~ In "Duplicate Detection" (titles r))
  /\ calls (validate_receipt' lk data true) = []
  /\ (forall lk', run (validate_receipt' lk' data true)
                  = run (validate_receipt' lk data true)).
Proof.
  intros Hg Hb.
  destruct (gate_values data Hg) as (b & d & va & vt & Hb' & Hd & Ha & Ht).
  rewrite Hb in Hb'. injection Hb' as <-.
  assert (Hskip : forall lk', run (validate_receipt' lk' data true)
                              = run (validate_receipt' lk data true)).
  { intros lk'. unfold run.
    destruct (date_fault' d) as [e|] eqn:Hdf.
    { by rewrite !(validate_date_raises _ data true [] d e Hg Hd Hdf). }
    destruct (coerce float_of_str va) as [amount|e] eqn:Hca.
    2:{ by rewrite !(validate_coerce_raises _ data true [] d va vt e) by auto. }
    destruct (coerce float_of_str vt) as [tax|e] eqn:Hct.
    2:{ by rewrite !(validate_coerce_raises _ data true [] d va vt e)
          by eauto. }
    destruct (validate_gate_pass data d va vt bill_id amount tax)
      as (r_date & r_total & _ & _ & E); try assumption.
    cbn zeta in E. by rewrite !E. }
  split; [|split; [|split]]; [| | |exact Hskip].
  - intros Hlk. split.
    { intros Hrep Hc. apply validate_returns; [done|done|]. right.
      intros b' Hb'. rewrite Hb in Hb'. injection Hb' as <-. eauto. }
    intros r Hout.
    pose proof (returned_date_fault lk data false d r Hg Hd Hout) as Hdf.
    destruct (coerce float_of_str va) as [amount|e] eqn:Hca.
    2:{ unfold outcome, run in Hout.
        by rewrite (validate_coerce_raises lk data false [] d va vt e)
          in Hout by auto. }
    destruct (coerce float_of_str vt) as [tax|e] eqn:Hct.
    2:{ unfold outcome, run in Hout.
        by rewrite (validate_coerce_raises lk data false [] d va vt e)
          in Hout by eauto. }
    destruct (validate_gate_pass_report lk data false d va vt bill_id amount tax)
      as (r_date & r_total & _ & _ & _ & Hr); try assumption.
    destruct (Hr r Hout) as [-> _]. rewrite Hlk.
    split; [cbn; tauto|].
    apply (report_of_failed _ duplicate_error); [cbn; tauto|done].
  - intros r Hout.
    pose proof (returned_date_fault lk data true d r Hg Hd Hout) as Hdf.
    destruct (coerce float_of_str va) as [amount|e] eqn:Hca.
    2:{ unfold outcome, run in Hout.
        by rewrite (validate_coerce_raises lk data true [] d va vt e)
          in Hout by auto. }
    destruct (coerce float_of_str vt) as [tax|e] eqn:Hct.
    2:{ unfold outcome, run in Hout.
        by rewrite (validate_coerce_raises lk data true [] d va vt e)
          in Hout by eauto. }
    destruct (validate_gate_pass_report lk data true d va vt bill_id amount tax)
      as (r_date & r_total & (Td & _) & (Tt & _) & _ & Hr); try assumption.
    destruct (Hr r Hout) as [-> _].
    assert (Ttax : title (tax_rate_result amount tax) = "Tax Rate Validation").
    { unfold tax_rate_result. destruct (F64.eqb tax F64.zero); [done|].
      by destruct (first_qualifying amount tax). }
    unfold titles. cbn. rewrite Td, Tt, Ttax.
    intros [H|[H|[H|[H|[]]]]]; discriminate H.
  - unfold calls, run.
    destruct (date_fault' d) as [e|] eqn:Hdf.
    { by rewrite (validate_date_raises lk data true [] d e Hg Hd Hdf). }
    destruct (coerce float_of_str va) as [amount|e] eqn:Hca.
    2:{ by rewrite (validate_coerce_raises lk data true [] d va vt e) by auto. }
    destruct (coerce float_of_str vt) as [tax|e] eqn:Hct.
    2:{ by rewrite (validate_coerce_raises lk data true [] d va vt e)
          by eauto. }
    destruct (validate_gate_pass data d va vt bill_id amount tax)
      as (r_date & r_total & _ & _ & E); try assumption.
    cbn zeta in E. by rewrite E.
Qed.

(** C6, amended: a record with the five fields present, a coerced tax
    equal to 0, a coerced amount above 0 and a date that parses gets a
    report with [passed = true], provided the duplicate check is skipped
    or the lookup answers false for the bill id. *)
Theorem C6_tax_free_passes lk data skip date va vt bill_id amount tax :
  gate_passes data ->
  data !! "date" = Some date ->
  data !! "amount" = Some va ->
  data !! "tax" = Some vt ->
  data !! "bill_id" = Some bill_id ->
  coerce float_of_str va = Ok amount ->
  coerce float_of_str vt = Ok tax ->
  F64.eqb tax F64.zero = true ->
  F64.ltb F64.zero amount = true ->
  strptime_ymd date = true ->
  skip = true \/ lk bill_id = Ok false ->
  exists r, outcome (validate_receipt' lk data skip) = Ok r /\ passed r = true.
Proof.
  intros Hg Hd Ha Ht Hb Hca Hct Htax Hamount Hdate Hdup.
  assert (Hdf : date_fault' date = None) by (unfold date_fault; by rewrite Hdate).
  destruct (validate_gate_pass data date va vt bill_id amount tax)
    as (r_date & r_total & (_ & Sd) & (_ & St & _) & E); try assumption.
  rewrite Hdate in Sd. rewrite Hamount in St.
  apply (ok_status_if _ true) in Sd, St.
  assert (Otax : ok (tax_rate_result amount tax) = true).
  { unfold tax_rate_result. by rewrite Htax. }
  cbn zeta in E. unfold outcome, run. rewrite E.
  destruct skip.
  - eexists. split; [reflexivity|]. cbn. by rewrite Sd, St, Otax.
  - destruct Hdup as [|Hlk]; [done|]. rewrite Hlk.
    eexists. split; [reflexivity|]. cbn. by rewrite Sd, St, Otax.
Qed.

(** C9: two runs on the same record with the same flag give the same
    report, or the same exception, and call the lookup alike, provided
    the two lookups agree on the record's bill id: nothing else than the
    record, the flag and that answer enters the result. *)
Theorem C9_deterministic lk1 lk2 data skip :
  (forall bill_id, data !! "bill_id" = Some bill_id ->
     lk1 bill_id = lk2 bill_id) ->
  run (validate_receipt' lk1 data skip) = run (validate_receipt' lk2 data skip).
Proof.
  intros Hlk. unfold run. destruct (gate_decide data) as [Hg|Hm].
  2:{ by rewrite !validate_gate_fail. }
  destruct (gate_values data Hg) as (b & d & va & vt & Hb & Hd & Ha & Ht).
  destruct (date_fault' d) as [e|] eqn:Hdf.
  { by rewrite !(validate_date_raises _ data skip [] d e Hg Hd Hdf). }
  destruct (coerce float_of_str va) as [amount|e] eqn:Hca.
  2:{ by rewrite !(validate_coerce_raises _ data skip [] d va vt e) by auto. }
  destruct (coerce float_of_str vt) as [tax|e] eqn:Hct.
  2:{ by rewrite !(validate_coerce_raises _ data skip [] d va vt e) by eauto. }
  destruct (validate_gate_pass data d va vt b amount tax)
    as (r_date & r_total & _ & _ & E); try assumption.
  cbn zeta in E. by rewrite !E, (Hlk b Hb).
Qed.

(** C10: for a record that passes the gate and whose coerced tax is
    below 0, the tax is not equal to 0, the rate [tax / candidate] of a
    candidate that is not skipped is never within the tolerance band,
    and so the Tax Rate Validation result of every report is an error
    and [passed] is false. *)
Theorem C10_negative_tax_fails lk data skip va vt amount tax r :
  gate_passes data ->
  data !! "amount" = Some va -> coerce float_of_str va = Ok amount ->
  data !! "tax" = Some vt -> coerce float_of_str vt = Ok tax ->
  F64.ltb tax F64.zero = true ->
  outcome (validate_receipt' lk data skip) = Ok r ->
  F64.eqb tax F64.zero = false
  /\ (forall candidate, F64.leb candidate F64.zero = false ->
        within_tolerance (F64.div tax candidate) = false)
  /\ (forall st, exists rr,
        tax_rate_validation amount tax st = Ok (st.1 ++ [rr], false)
        /\ status rr = "error")
  /\ exists rr,
       results r !! 3%nat = Some rr
       /\ title rr = "Tax Rate Validation"
       /\ status rr = "error"
       /\ passed r = false.
Proof.
  intros Hg Ha Hca Ht Hct Hneg Hout.
  pose proof (ltb_zero_eqb tax Hneg) as Hne.
  assert (Hq : forall c, qualifies tax c = false).
  { intros c. unfold qualifies.
    destruct (F64.leb c F64.zero) eqn:Hc; [done|].
    by rewrite <- within_tolerance_in_band,
      (negative_rate_out_of_band tax c Hneg Hc). }
  assert (Hres : tax_rate_result amount tax =
            {| title := "Tax Rate Validation";
               status := "error";
               message := [Lit "Tax mismatch. Expected ~";
                           Fmt (PyFloat (F64.mul EXPECTED_TAX_RATE hundred)) ".1f";
                           Lit "% but got ₹"; Fmt (PyFloat tax) ".2f";
                           Lit " on amount ₹"; Fmt (PyFloat amount) ".2f"] |}).
  { unfold tax_rate_result, first_qualifying, candidates. cbn [List.find].
    by rewrite Hne, !Hq. }
  split; [exact Hne|]. split.
  { intros c Hc. by apply negative_rate_out_of_band. }
  split.
  { intros st. exists (tax_rate_result amount tax).
    rewrite tax_rate_validation_step, Hres. unfold step, ok. cbn.
    by rewrite andb_false_r. }
  destruct (gate_values data Hg) as (b & d & va' & vt' & Hb & Hd & Ha' & Ht').
  rewrite Ha in Ha'. rewrite Ht in Ht'. injection Ha' as <-. injection Ht' as <-.
  pose proof (returned_date_fault lk data skip d r Hg Hd Hout) as Hdf.
  destruct (validate_gate_pass_report lk data skip d va vt b amount tax)
    as (r_date & r_total & _ & _ & _ & Hr); try assumption.
  destruct (Hr r Hout) as [-> _].
  exists (tax_rate_result amount tax). split; [reflexivity|].
  rewrite Hres at 1 2. split; [done|]. split; [done|].
  apply (report_of_failed _ (tax_rate_result amount tax)); [cbn; tauto|].
  by rewrite Hres.
Qed.

End Properties.

(** *** Examples *)

Lemma receipt_gate bill_id vendor date amount tax :
  bill_id <> PyNone -> vendor <> PyNone -> date <> PyNone ->
  amount <> PyNone -> tax <> PyNone ->
  gate_passes (receipt bill_id vendor date amount tax).
Proof.
  intros Hb Hv Hd Ha Ht f Hf. cbn in Hf.
  destruct Hf as [<-|[<-|[<-|[<-|[<-|[]]]]]]; eexists; (split; [reflexivity|done]).
Qed.


Lemma C2_witness :
  outcome (validate never_stored groceries false) = Ok groceries_report
  /\ (passed groceries_report = true
       <-> Forall succeeded (results groceries_report)).
Proof.
  assert (H : outcome (validate never_stored groceries false)
              = Ok groceries_report) by (vm_compute; reflexivity).
  split; [exact H|].
  exact (C2_passed_iff_all_success
           Ref.float_of_str Ref.strptime_ymd None never_stored groceries false _ H).
Defined.

Lemma groceries_gate : gate_passes groceries.
Proof. by apply receipt_gate. Qed.



Lemma C5_witness :
  gate_passes groceries
  /\ groceries !! "bill_id" = Some (PyStr "B-1")
  /\ (only_B1 (PyStr "B-1") = Ok true ->
       (reportable Ref.strptime_ymd None groceries -> convertible groceries ->
        exists r, outcome (validate only_B1 groceries false) = Ok r)
       /\ forall r, outcome (validate only_B1 groceries false) = Ok r ->
            In duplicate_error (results r) /\ passed r = false)
  /\ (forall r, outcome (validate only_B1 groceries true) = Ok r ->
        ~ In "Duplicate Detection" (titles r))
  /\ calls (validate only_B1 groceries true) = []
  /\ (forall lk', run (validate lk' groceries true)
                  = run (validate only_B1 groceries true)).
Proof.
  assert (Hb : groceries !! "bill_id" = Some (PyStr "B-1")) by reflexivity.
  split; [exact groceries_gate|]. split; [exact Hb|].
  exact (C5_duplicate_detection Ref.float_of_str Ref.strptime_ymd None
           only_B1 groceries (PyStr "B-1") groceries_gate Hb).
Defined.

Lemma tax_free_gate : gate_passes tax_free.
Proof. by apply receipt_gate. Qed.

(** C6 as stated fails: the tax-free receipt has its five fields, a tax
    of 0, an amount of 100 and a date that parses, and yet its report
    does not pass, because the bill is already stored. *)
Lemma C6_counterexample :
  gate_passes tax_free
  /\ tax_free !! "date" = Some (PyStr "2024-02-29")
  /\ tax_free !! "amount" = Some (PyFloat (F64.of_Z 100))
  /\ tax_free !! "tax" = Some (PyInt 0)
  /\ coerce Ref.float_of_str (PyFloat (F64.of_Z 100)) = Ok (F64.of_Z 100)
  /\ coerce Ref.float_of_str (PyInt 0) = Ok F64.zero
  /\ F64.eqb F64.zero F64.zero = true
  /\ F64.ltb F64.zero (F64.of_Z 100) = true
  /\ Ref.strptime_ymd (PyStr "2024-02-29") = true
  /\ outcome (validate always_stored tax_free false)
     = Ok tax_free_duplicate_report
  /\ passed tax_free_duplicate_report = false.
Proof.
  split; [exact tax_free_gate|].
  repeat split; vm_compute; reflexivity.
Qed.

Lemma C6_witness :
  gate_passes tax_free
  /\ tax_free !! "date" = Some (PyStr "2024-02-29")
  /\ tax_free !! "amount" = Some (PyFloat (F64.of_Z 100))
  /\ tax_free !! "tax" = Some (PyInt 0)
  /\ tax_free !! "bill_id" = Some (PyStr "B-2")
  /\ coerce Ref.float_of_str (PyFloat (F64.of_Z 100)) = Ok (F64.of_Z 100)
  /\ coerce Ref.float_of_str (PyInt 0) = Ok F64.zero
  /\ F64.eqb F64.zero F64.zero = true
  /\ F64.ltb F64.zero (F64.of_Z 100) = true
  /\ Ref.strptime_ymd (PyStr "2024-02-29") = true
  /\ (false = true \/ only_B1 (PyStr "B-2") = Ok false)
  /\ exists r, outcome (validate only_B1 tax_free false) = Ok r
               /\ passed r = true.
Proof.
  assert (Hd : tax_free !! "date" = Some (PyStr "2024-02-29")) by reflexivity.
  assert (Ha : tax_free !! "amount" = Some (PyFloat (F64.of_Z 100)))
    by reflexivity.
  assert (Ht : tax_free !! "tax" = Some (PyInt 0)) by reflexivity.
  assert (Hb : tax_free !! "bill_id" = Some (PyStr "B-2")) by reflexivity.
  assert (Hca : coerce Ref.float_of_str (PyFloat (F64.of_Z 100))
                = Ok (F64.of_Z 100)) by reflexivity.
  assert (Hct : coerce Ref.float_of_str (PyInt 0) = Ok F64.zero)
    by (vm_compute; reflexivity).
  assert (Htax : F64.eqb F64.zero F64.zero = true) by reflexivity.
  assert (Hamount : F64.ltb F64.zero (F64.of_Z 100) = true)
    by (vm_compute; reflexivity).
  assert (Hdate : Ref.strptime_ymd (PyStr "2024-02-29") = true)
    by (vm_compute; reflexivity).
  assert (Hdup : false = true \/ only_B1 (PyStr "B-2") = Ok false)
    by (right; reflexivity).
  repeat (split; [assumption || exact tax_free_gate|]).
  exact (C6_tax_free_passes Ref.float_of_str Ref.strptime_ymd None
           only_B1 tax_free false (PyStr "2024-02-29")
           (PyFloat (F64.of_Z 100)) (PyInt 0) (PyStr "B-2")
           (F64.of_Z 100) F64.zero
           tax_free_gate Hd Ha Ht Hb Hca Hct Htax Hamount Hdate Hdup).
Defined.

Lemma bad_date_gate : gate_passes bad_date.
Proof. by apply receipt_gate. Qed.

(** Two stores that differ, but not on the bill of the record. *)
Lemma C9_witness :
  (forall bill_id, groceries !! "bill_id" = Some bill_id ->
     only_B1 bill_id = always_stored bill_id)
  /\ run (validate only_B1 groceries false)
     = run (validate always_stored groceries false).
Proof.
  assert (H : forall bill_id, groceries !! "bill_id" = Some bill_id ->
                only_B1 bill_id = always_stored bill_id).
  { intros bill_id Hb. change (Some (PyStr "B-1") = Some bill_id) in Hb.
    injection Hb as <-. reflexivity. }
  split; [exact H|].
  exact (C9_deterministic Ref.float_of_str Ref.strptime_ymd None
           only_B1 always_stored groceries false H).
Defined.

(** C4: the receipt whose amount is an int of 401 digits passes the
    gate, and the run ends in [OverflowError]: [float()] raises it, the
    [except (ValueError, TypeError)] clause lets it through, and the
    lookup has not been called. *)
Theorem C4_overflow_escapes :
  gate_passes huge_amount
  /\ huge_amount !! "amount" = Some (PyInt (10 ^ 400))
  /\ py_float Ref.float_of_str (PyInt (10 ^ 400)) = Raise OverflowError
  /\ run (validate store_down huge_amount true) = (Raise OverflowError, [])
  /\ run (validate never_stored huge_amount false) = (Raise OverflowError, []).
Proof.
  split; [by apply receipt_gate|].
  repeat split; vm_compute; reflexivity.
Qed.

(** C7: the conversion of an int of 401 digits fails and does not yield
    [0.0]: the tax of such a receipt makes the run raise
    [OverflowError], where a string that does not parse is taken as
    [0.0]. *)
Theorem C7_overflow_not_defaulted :
  coerce Ref.float_of_str (PyInt (10 ^ 400)) = Raise OverflowError
  /\ coerce Ref.float_of_str (PyStr "abc") = Ok F64.zero
  /\ gate_passes huge_tax
  /\ huge_tax !! "tax" = Some (PyInt (10 ^ 400))
  /\ outcome (validate never_stored huge_tax true) = Raise OverflowError.
Proof.
  split; [vm_compute; reflexivity|].
  split; [vm_compute; reflexivity|].
  split; [by apply receipt_gate|].
  split; vm_compute; reflexivity.
Qed.

(** An int of 5001 digits is longer than what [str()] writes. *)
Lemma beyond_str_digits : 10 ^ INT_MAX_STR_DIGITS <= Z.abs (10 ^ 5000).
Proof.
  unfold INT_MAX_STR_DIGITS. rewrite Z.abs_eq by (apply Z.pow_nonneg; lia).
  apply Z.pow_le_mono_r; lia.
Qed.

Lemma huge_date_unwritable :
  str_raises None (PyInt (10 ^ 5000)) = Some ValueError.
Proof.
  unfold str_raises. by rewrite (proj2 (Z.leb_le _ _) beyond_str_digits).
Qed.

Lemma huge_date_gate : gate_passes huge_date.
Proof. by apply receipt_gate. Qed.

Lemma huge_date_raises lk skip :
  run (validate lk huge_date skip) = (Raise ValueError, []).
Proof.
  unfold run, validate.
  apply validate_date_raises with (PyInt (10 ^ 5000)).
  - exact huge_date_gate.
  - reflexivity.
  - unfold date_fault. cbn [Ref.strptime_ymd]. exact huge_date_unwritable.
Qed.

(** C8: the receipt whose date is an int of 5001 digits passes the
    gate.  Its date does not parse, so the Date Format rule fails; the
    handler then writes the date into its message, and [str()] raises
    [ValueError] on an int of more than 4300 digits.  The run ends there:
    no report, and none of the later rules, with or without the
    duplicate check, where the receipt dated 15/01/2024 gets its Date
    Format error and the later results all the same. *)
Theorem C8_date_failure_escapes :
  gate_passes huge_date
  /\ huge_date !! "date" = Some (PyInt (10 ^ 5000))
  /\ Ref.strptime_ymd (PyInt (10 ^ 5000)) = false
  /\ format_value None (PyInt (10 ^ 5000)) = Raise ValueError
  /\ run (validate never_stored huge_date true) = (Raise ValueError, [])
  /\ run (validate never_stored huge_date false) = (Raise ValueError, [])
  /\ outcome (validate never_stored bad_date false) = Ok bad_date_report
  /\ titles bad_date_report = rule_titles false.
Proof.
  split; [exact huge_date_gate|]. split; [reflexivity|]. split; [reflexivity|].
  split; [unfold format_value; by rewrite huge_date_unwritable|].
  split; [apply huge_date_raises|]. split; [apply huge_date_raises|].
  split; vm_compute; reflexivity.
Qed.

(** The specification's [amount = "abc"]: a report, not an exception,
    with the Total Validation error. *)
Lemma abc_amount_reported :
  outcome (validate never_stored abc_amount false) = Ok abc_report
  /\ passed abc_report = false
  /\ results abc_report !! 2%nat =
       Some {| title := "Total Validation";
               status := "error";
               message := [Lit "Invalid amount value"] |}.
Proof. repeat split; vm_compute; reflexivity. Qed.

Lemma refund_gate : gate_passes refund.
Proof. by apply receipt_gate. Qed.

(** A refund of 8 on 108: neither -8/116 nor -8/108 is in the band. *)
Lemma C10_witness :
  gate_passes refund
  /\ refund !! "amount" = Some (PyInt 108)
  /\ coerce Ref.float_of_str (PyInt 108) = Ok (F64.of_Z 108)
  /\ refund !! "tax" = Some (PyInt (-8))
  /\ coerce Ref.float_of_str (PyInt (-8)) = Ok (F64.of_Z (-8))
  /\ F64.ltb (F64.of_Z (-8)) F64.zero = true
  /\ outcome (validate never_stored refund true) = Ok refund_report
  /\ exists rr,
       results refund_report !! 3%nat = Some rr
       /\ title rr = "Tax Rate Validation"
       /\ status rr = "error"
       /\ passed refund_report = false.
Proof.
  assert (Ha : refund !! "amount" = Some (PyInt 108)) by reflexivity.
  assert (Hca : coerce Ref.float_of_str (PyInt 108) = Ok (F64.of_Z 108))
    by (vm_compute; reflexivity).
  assert (Ht : refund !! "tax" = Some (PyInt (-8))) by reflexivity.
  assert (Hct : coerce Ref.float_of_str (PyInt (-8)) = Ok (F64.of_Z (-8)))
    by (vm_compute; reflexivity).
  assert (Hneg : F64.ltb (F64.of_Z (-8)) F64.zero = true)
    by (vm_compute; reflexivity).
  assert (Hout : outcome (validate never_stored refund true)
                 = Ok refund_report) by (vm_compute; reflexivity).
  repeat (split; [assumption || exact refund_gate|]).
  exact (proj2 (proj2 (proj2
           (C10_negative_tax_fails Ref.float_of_str Ref.strptime_ymd None
              never_stored refund true (PyInt 108) (PyInt (-8))
              (F64.of_Z 108) (F64.of_Z (-8)) refund_report
              refund_gate Ha Hca Ht Hct Hneg Hout)))).
Defined.

(** *** The conversions and the examples of the specification *)

(** [float()] of an int rounds to nearest, ties to even, and overflows
    exactly from [2^1024 - 2^970] on. *)
Example float_of_int_largest :
  float_of_int (2 ^ 1024 - 2 ^ 970 - 1)
  = Ok (S754_finite false 9007199254740991 971).
Proof. vm_compute. reflexivity. Qed.

Example float_of_int_overflow :
  float_of_int (2 ^ 1024 - 2 ^ 970) = Raise OverflowError.
Proof. vm_compute. reflexivity. Qed.

Example float_of_int_ties_to_even :
  float_of_int (2 ^ 53 + 1) = Ok (F64.of_Z (2 ^ 53))
  /\ float_of_int (2 ^ 53 + 3) = Ok (F64.of_Z (2 ^ 53 + 4)).
Proof. split; vm_compute; reflexivity. Qed.

(** [str()] writes an int of 4300 digits, of either sign, and no
    longer one. *)
Example str_raises_longest :
  str_raises None (PyInt (10 ^ 4300 - 1)) = None
  /\ str_raises None (PyInt (- (10 ^ 4300 - 1))) = None
  /\ str_raises None (PyInt (10 ^ 4300)) = Some ValueError
  /\ str_raises None (PyInt (- 10 ^ 4300)) = Some ValueError.
Proof.
  unfold str_raises, INT_MAX_STR_DIGITS.
  assert (Hn : 0 < 10 ^ 4300)
    by (apply Z.pow_pos_nonneg; [reflexivity|discriminate]).
  revert Hn. generalize (10 ^ 4300). intros n Hn.
  repeat split.
  - destruct (Z.leb_spec n (Z.abs (n - 1))); [lia|done].
  - destruct (Z.leb_spec n (Z.abs (- (n - 1)))); [lia|done].
  - destruct (Z.leb_spec n (Z.abs n)); [done|lia].
  - destruct (Z.leb_spec n (Z.abs (- n))); [done|lia].
Qed.

(** The band, at its two ends: the least and the greatest float for
    which [abs(rate - 0.08) <= 0.05] holds, and their neighbours. *)
Example band_ends :
  in_band (S754_finite false 8646911284551351 (-58)) = true
  /\ in_band (S754_finite false 8646911284551350 (-58)) = false
  /\ in_band (S754_finite false 4683743612465316 (-55)) = true
  /\ in_band (S754_finite false 4683743612465317 (-55)) = false.
Proof. repeat split; vm_compute; reflexivity. Qed.

(** The band is read off the decimals [0.03] and [0.13]. *)
Example band_decimals :
  Ref.float_of_str "0.03"
  = Some (S754_finite false 8646911284551352 (-58))
  /\ Ref.float_of_str "0.13"
     = Some (S754_finite false 4683743612465316 (-55))
  /\ Ref.float_of_str "0.029999999999999995"
     = Some (S754_finite false 8646911284551351 (-58)).
Proof. repeat split; vm_compute; reflexivity. Qed.

(** The constants are the floats Python reads from [0.08], [0.05] and
    [100]. *)
Example constants_parse :
  Ref.float_of_str "0.08" = Some EXPECTED_TAX_RATE
  /\ Ref.float_of_str "0.05" = Some TOLERANCE
  /\ Ref.float_of_str "100" = Some hundred.
Proof. repeat split; vm_compute; reflexivity. Qed.

(** [amount = 100, tax = 8]: the first candidate, 92, qualifies. *)
Example tax_8_on_100 :
  first_qualifying (F64.of_Z 100) (F64.of_Z 8) = Some (F64.of_Z 92)
  /\ status (tax_rate_result (F64.of_Z 100) (F64.of_Z 8)) = "success".
Proof. split; vm_compute; reflexivity. Qed.

(** [amount = 50, tax = 40]: neither 10 nor 50 qualifies. *)
Example tax_40_on_50 :
  first_qualifying (F64.of_Z 50) (F64.of_Z 40) = None
  /\ status (tax_rate_result (F64.of_Z 50) (F64.of_Z 40)) = "error".
Proof. split; vm_compute; reflexivity. Qed.

(** A tax that is not a number is not equal to 0 and fails the rule. *)
Example tax_nan :
  F64.eqb S754_nan F64.zero = false
  /\ status (tax_rate_result (F64.of_Z 100) S754_nan) = "error".
Proof. split; vm_compute; reflexivity. Qed.

(** ** More on the validator *)

Section ValidatorMore.

Variable float_of_str : string -> option float.
Variable strptime_ymd : pyval -> bool.
Variable str_other : option exn.

Local Abbreviation validate_receipt' :=
  (validate_receipt float_of_str strptime_ymd str_other).
Local Abbreviation date_fault' := (date_fault strptime_ymd str_other).
Local Abbreviation reportable' := (reportable strptime_ymd str_other).

Lemma coerce_ok_in_range v x z :
  coerce float_of_str v = Ok x -> v = PyInt z ->
  exists y, float_of_int z = Ok y.
Proof.
  intros H ->. unfold coerce, py_float, float_of_int in *.
  destruct (F64.of_Z z); by eauto.
Qed.

Lemma coerced_convertible data va vt amount tax :
  data !! "amount" = Some va -> data !! "tax" = Some vt ->
  coerce float_of_str va = Ok amount -> coerce float_of_str vt = Ok tax ->
  convertible data.
Proof.
  intros Ha Ht Hca Hct f z [-> | ->] Hf.
  - rewrite Ha in Hf. injection Hf as ->.
    by apply (coerce_ok_in_range _ amount z Hca).
  - rewrite Ht in Hf. injection Hf as ->.
    by apply (coerce_ok_in_range _ tax z Hct).
Qed.

Lemma convertible_coerced data va vt :
  data !! "amount" = Some va -> data !! "tax" = Some vt ->
  convertible data ->
  exists amount tax,
    coerce float_of_str va = Ok amount /\ coerce float_of_str vt = Ok tax.
Proof.
  intros Ha Ht Hc.
  destruct (coerce_total float_of_str va) as [amount Hca].
  { intros z s -> Hz. destruct (Hc "amount" z) as [x Hx]; auto.
    unfold float_of_int in Hx. by rewrite Hz in Hx. }
  destruct (coerce_total float_of_str vt) as [tax Hct].
  { intros z s -> Hz. destruct (Hc "tax" z) as [x Hx]; auto.
    unfold float_of_int in Hx. by rewrite Hz in Hx. }
  by exists amount, tax.
Qed.

Lemma reportable_date data date :
  data !! "date" = Some date ->
  reportable' data <-> date_fault' date = None.
Proof.
  intros Hd. split; [by intros H; apply H|].
  intros H d' Hd'. rewrite Hd in Hd'. by injection Hd' as <-.
Qed.

(** A record is of one of four kinds: it fails the gate; its date
    neither parses nor can be written, and the handler raises; a
    conversion overflows; or the four results are there and the
    duplicate rule runs. *)
Lemma validate_cases data :
  (missing_fields data <> []
   /\ forall lk skip tr,
        validate_receipt' lk data skip tr = (Ok (missing_report data), tr))
  \/ (gate_passes data /\
      exists bill_id date va vt,
        data !! "bill_id" = Some bill_id /\ data !! "date" = Some date
        /\ data !! "amount" = Some va /\ data !! "tax" = Some vt
        /\ ((exists e, date_fault' date = Some e
               /\ forall lk skip tr,
                    validate_receipt' lk data skip tr = (Raise e, tr))
            \/ (date_fault' date = None /\ ~ convertible data
                /\ forall lk skip tr,
                     validate_receipt' lk data skip tr
                     = (Raise OverflowError, tr))
            \/ (date_fault' date = None /\ convertible data /\
                exists amount tax,
                  coerce float_of_str va = Ok amount
                  /\ coerce float_of_str vt = Ok tax
                  /\ forall lk skip tr,
                       let rs := [required_ok;
                                  date_result (strptime_ymd date) date;
                                  total_result amount;
                                  tax_rate_result amount tax] in
                       validate_receipt' lk data skip tr =
                       if skip then (Ok (report_of rs), tr)
                       else
                         (match lk bill_id with
                          | Ok found =>
                              Ok (report_of (rs ++ [duplicate_result found]))
                          | Raise e => Raise e
                          end, tr ++ [bill_id])))).
Proof.
  destruct (gate_decide data) as [Hg|Hm].
  2:{ left. split; [done|]. intros lk skip tr. by rewrite validate_gate_fail. }
  right. split; [done|].
  destruct (gate_values strptime_ymd data Hg)
    as (b & d & va & vt & Hb & Hd & Ha & Ht).
  exists b, d, va, vt. do 4 (split; [assumption|]).
  destruct (date_fault' d) as [e|] eqn:Hdf.
  { left. exists e. split; [reflexivity|]. intros lk skip tr.
    by apply validate_date_raises with d. }
  right.
  assert (Hover : forall f v e', f = "amount" \/ f = "tax" ->
            data !! f = Some v -> coerce float_of_str v = Raise e' ->
            e' = OverflowError /\ ~ convertible data).
  { intros f v e' Hf Hv Hr.
    apply coerce_raises in Hr as (-> & z & sg & -> & Hz).
    split; [reflexivity|].
    intros Hc. destruct (Hc f z Hf Hv) as [x Hx].
    unfold float_of_int in Hx. by rewrite Hz in Hx. }
  destruct (coerce float_of_str va) as [amount|e] eqn:Hca.
  2:{ left. destruct (Hover "amount" va e) as [-> Hn]; [by left|done|done|].
      do 2 (split; [done|]). intros lk skip tr.
      apply validate_coerce_raises with d va vt; try assumption. by left. }
  destruct (coerce float_of_str vt) as [tax|e] eqn:Hct.
  2:{ left. destruct (Hover "tax" vt e) as [-> Hn]; [by right|done|done|].
      do 2 (split; [done|]). intros lk skip tr.
      apply validate_coerce_raises with d va vt; try assumption.
      right. split; [by exists amount|done]. }
  right. split; [reflexivity|].
  split; [by apply (coerced_convertible data va vt amount tax)|].
  exists amount, tax. do 2 (split; [done|]).
  intros lk skip tr. by apply validate_gate_pass_run with va vt.
Qed.

(** The outcome and the lookups of a run do not depend on the lookups
    made before it. *)
Lemma validate_trace lk data skip tr :
  validate_receipt' lk data skip tr
  = (outcome (validate_receipt' lk data skip),
     tr ++ calls (validate_receipt' lk data skip)).
Proof.
  unfold outcome, calls, run.
  destruct (validate_cases data) as [[_ E]|(_ & b & d & va & vt
    & _ & _ & _ & _ & [(e & _ & E)|[(_ & _ & E)|(_ & _ & amount & tax & _ & _ & E)]])];
    cbn zeta in E; rewrite !E; cbn [fst snd]; rewrite ?app_nil_r; try done.
  destruct skip; cbn [fst snd]; by rewrite ?app_nil_r.
Qed.

(** Skipping the duplicate check: no lookup, and the same run for every
    lookup. *)
Lemma validate_skip lk lk' data tr :
  validate_receipt' lk data true tr = validate_receipt' lk' data true tr
  /\ (validate_receipt' lk data true tr).2 = tr.
Proof.
  destruct (validate_cases data) as [[_ E]|(_ & b & d & va & vt
    & _ & _ & _ & _ & [(e & _ & E)|[(_ & _ & E)|(_ & _ & amount & tax & _ & _ & E)]])];
    cbn zeta in E; by rewrite !E.
Qed.

(** X1: [validate_receipt] returns a report exactly when the record
    fails the required-fields gate, or its date parses or can be
    written, its amount and tax are not ints too large for a float and
    the lookup, unless skipped, answers for the bill id. *)
Theorem X1_report_returned_iff lk data skip :
  (exists r, outcome (validate_receipt' lk data skip) = Ok r)
  <-> (~ gate_passes data
       \/ (reportable strptime_ymd str_other data /\ convertible data
           /\ (skip = true \/ answers lk data))).
Proof.
  split.
  - intros [r Hout]. unfold outcome, run in Hout. revert Hout.
    destruct (validate_cases data) as [[Hm E]|(Hg & b & d & va & vt
      & Hb & Hd & Ha & Ht & [(e & Hdf & E)|[(Hdf & Hn & E)
                            |(Hdf & Hc & amount & tax & Hca & Hct & E)]])];
      cbn zeta in E; rewrite E; cbn [fst]; try done.
    + intros _. left. intros Hg. by apply gate_passes_missing in Hg.
    + intros Hout. right. split; [by apply (reportable_date data d)|].
      split; [done|]. destruct skip; [by left|right].
      intros b' Hb'. rewrite Hb in Hb'. injection Hb' as <-.
      cbn [fst] in Hout. destruct (lk b) as [found|]; [by exists found|done].
  - intros [Hng|(Hrep & Hc & Hl)].
    + destruct (gate_decide data) as [Hg|Hm]; [done|].
      exists (missing_report data). unfold outcome, run.
      by rewrite validate_gate_fail.
    + by apply validate_returns.
Qed.

(** X2: an exception that leaves [validate_receipt] comes from a record
    that passes the gate, and is one of three.  The [ValueError] of the
    Date Format handler, whose message cannot be written: the date is an
    int of more than 4300 digits, or a list or dict on which [str()]
    raises that exception.  The [OverflowError] of a conversion: the
    amount or the tax is an int too large for a float.  The exception the
    lookup raised for the bill id, the duplicate check not being
    skipped. *)
Theorem X2_exceptions_classified lk data skip e :
  outcome (validate_receipt' lk data skip) = Raise e ->
  gate_passes data
  /\ ((exists date,
         data !! "date" = Some date /\ strptime_ymd date = false
         /\ ((exists z, date = PyInt z /\ 10 ^ 4300 <= Z.abs z
                        /\ e = ValueError)
             \/ (date = PyOther /\ str_other = Some e)))
      \/ (e = OverflowError /\ ~ convertible data)
      \/ (skip = false /\
          exists bill_id,
            data !! "bill_id" = Some bill_id /\ lk bill_id = Raise e)).
Proof.
  unfold outcome, run.
  destruct (validate_cases data) as [[Hm E]|(Hg & b & d & va & vt
    & Hb & Hd & Ha & Ht & [(e' & Hdf & E)|[(Hdf & Hn & E)
                          |(Hdf & Hc & amount & tax & Hca & Hct & E)]])];
    cbn zeta in E; rewrite E; cbn [fst]; try done.
  - intros [= <-]. split; [done|]. left. exists d. split; [done|].
    unfold date_fault in Hdf.
    destruct (strptime_ymd d); [done|]. split; [done|].
    destruct d as [| | z | | |]; cbn in Hdf; try done.
    + left. exists z. unfold INT_MAX_STR_DIGITS in Hdf.
      destruct (Z.leb_spec (10 ^ 4300) (Z.abs z)); [|done].
      injection Hdf as <-. done.
    + by right.
  - intros [= <-]. split; [done|]. right. by left.
  - destruct skip; [done|]. cbn [fst].
    destruct (lk b) as [found|e'] eqn:Hlk; [done|].
    intros [= <-]. split; [done|]. right. right. split; [done|]. by exists b.
Qed.

(** X3: the lookup is called at most once: exactly once, with the bill
    id, when the record passes the gate, its date parses or can be
    written, its numbers convert and the duplicate check is not skipped,
    and not at all otherwise. *)
Theorem X3_lookup_called_once lk data skip :
  (gate_passes data -> reportable strptime_ymd str_other data ->
   convertible data -> skip = false ->
   exists bill_id, data !! "bill_id" = Some bill_id
     /\ calls (validate_receipt' lk data skip) = [bill_id])
  /\ (~ gate_passes data \/ ~ reportable strptime_ymd str_other data
      \/ ~ convertible data \/ skip = true ->
      calls (validate_receipt' lk data skip) = []).
Proof.
  unfold calls, run.
  destruct (validate_cases data) as [[Hm E]|(Hg & b & d & va & vt
    & Hb & Hd & Ha & Ht & [(e' & Hdf & E)|[(Hdf & Hn & E)
                          |(Hdf & Hc & amount & tax & Hca & Hct & E)]])];
    cbn zeta in E; rewrite E; cbn [snd]; (split; [|try done]).
  - intros Hg. by apply gate_passes_missing in Hg.
  - intros _ Hrep. rewrite (Hrep d Hd) in Hdf. discriminate Hdf.
  - intros _ _ Hc. by destruct Hn.
  - intros _ _ _ ->. by exists b.
  - pose proof (proj2 (reportable_date data d Hd) Hdf) as Hrep.
    intros [H|[H|[H|H]]]; [done|done|done|by rewrite H].
Qed.

(** X4: a tax that [float()] rejects with [ValueError] or [TypeError],
    such as text that is not a number, a list or a dict, counts as no
    tax: the Tax Rate Validation result of every report is the success
    "No tax applied (valid)". *)
Theorem X4_unreadable_tax_is_no_tax lk data skip vt r :
  gate_passes data ->
  data !! "tax" = Some vt ->
  py_float float_of_str vt = Raise ValueError
  \/ py_float float_of_str vt = Raise TypeError ->
  outcome (validate_receipt' lk data skip) = Ok r ->
  results r !! 3%nat =
    Some {| title := "Tax Rate Validation";
            status := "success";
            message := [Lit "No tax applied (valid)"] |}.
Proof.
  intros Hg Ht Hbad Hout.
  destruct (gate_values strptime_ymd data Hg)
    as (b & d & va & vt' & Hb & Hd & Ha & Ht').
  rewrite Ht in Ht'. injection Ht' as <-.
  pose proof (returned_date_fault _ _ _ lk data skip d r Hg Hd Hout) as Hdf.
  pose proof (coerce_defaults float_of_str vt Hbad) as Hct.
  destruct (coerce float_of_str va) as [amount|e] eqn:Hca.
  2:{ unfold outcome, run in Hout.
      by rewrite (validate_coerce_raises _ _ _ lk data skip [] d va vt e)
        in Hout by auto. }
  destruct (validate_gate_pass_report float_of_str strptime_ymd str_other
              lk data skip d va vt b amount F64.zero)
    as (r_date & r_total & _ & _ & _ & Hr); try assumption.
  destruct (Hr r Hout) as [-> _]. reflexivity.
Qed.

(** X5: the validator reads the bill id, the date, the amount and the
    tax, and of the vendor only whether it is missing: two records that
    agree on these give the same run, whatever else they hold
    (a subtotal, a category, another vendor). *)
Theorem X5_reads_five_fields lk data data' skip :
  (forall f, In f ["bill_id"; "date"; "amount"; "tax"] ->
     data !! f = data' !! f) ->
  get_is_None data "vendor" = get_is_None data' "vendor" ->
  validate_receipt' lk data skip = validate_receipt' lk data' skip.
Proof.
  intros Hsame Hvendor.
  assert (Hb : data !! "bill_id" = data' !! "bill_id") by (apply Hsame; cbn; tauto).
  assert (Hd : data !! "date" = data' !! "date") by (apply Hsame; cbn; tauto).
  assert (Ha : data !! "amount" = data' !! "amount") by (apply Hsame; cbn; tauto).
  assert (Ht : data !! "tax" = data' !! "tax") by (apply Hsame; cbn; tauto).
  unfold validate_receipt, duplicate_detection, date_format, getitem.
  cbn [List.filter required]. unfold get_is_None in *.
  by rewrite <- Hb, <- Hd, <- Ha, <- Ht, Hvendor.
Qed.

(** X18: the report of a record that passes the gate holds, in this
    order, the Required Fields success, the Date Format result (a
    success when the date parses, an error whose message cites the date
    when it does not), the Total Validation result (a success citing the
    amount when it is above 0, the error "Invalid amount value"
    otherwise), the Tax Rate Validation result and, unless the duplicate
    check is skipped, the Duplicate Detection result for the answer of
    the lookup; [passed] is false as soon as the date does not parse or
    the amount is not above 0. *)
Theorem X18_report_contents lk data skip bill_id date va vt amount tax r :
  gate_passes data ->
  data !! "bill_id" = Some bill_id -> data !! "date" = Some date ->
  data !! "amount" = Some va -> data !! "tax" = Some vt ->
  coerce float_of_str va = Ok amount -> coerce float_of_str vt = Ok tax ->
  outcome (validate_receipt' lk data skip) = Ok r ->
  results r
  = [required_ok; date_result (strptime_ymd date) date;
     total_result amount; tax_rate_result amount tax]
    ++ duplicate_tail skip (lk bill_id)
  /\ titles r = rule_titles skip
  /\ (skip = false -> exists found, lk bill_id = Ok found)
  /\ (strptime_ymd date = false \/ F64.ltb F64.zero amount = false ->
      passed r = false).
Proof.
  intros Hg Hb Hd Ha Ht Hca Hct Hout.
  pose proof (returned_date_fault _ _ _ lk data skip date r Hg Hd Hout) as Hdf.
  pose proof (validate_gate_pass_run float_of_str strptime_ymd str_other
                data date va vt bill_id amount tax
                Hg Hd Ha Ht Hb Hdf Hca Hct lk skip []) as E.
  cbn zeta in E. unfold outcome, run in Hout. rewrite E in Hout.
  assert (Ttax : title (tax_rate_result amount tax) = "Tax Rate Validation").
  { unfold tax_rate_result. destruct (F64.eqb tax F64.zero); [done|].
    by destruct (first_qualifying amount tax). }
  destruct (date_result_facts (strptime_ymd date) date) as [Td Sd].
  destruct (total_result_facts amount) as (Tt & St & _).
  assert (Hfail : forall tail,
            strptime_ymd date = false \/ F64.ltb F64.zero amount = false ->
            passed (report_of ([required_ok;
                                date_result (strptime_ymd date) date;
                                total_result amount;
                                tax_rate_result amount tax] ++ tail)) = false).
  { intros tail [H|H].
    - apply (report_of_failed _ (date_result (strptime_ymd date) date));
        [cbn; tauto|]. rewrite H. reflexivity.
    - apply (report_of_failed _ (total_result amount)); [cbn; tauto|].
      unfold total_result. rewrite H. reflexivity. }
  destruct skip; cbn [fst] in Hout.
  - injection Hout as <-. cbn [results report_of duplicate_tail].
    split; [reflexivity|]. split.
    { unfold titles, rule_titles. cbn. by rewrite Td, Tt, Ttax. }
    split; [done|]. intros H. apply (Hfail [] H).
  - destruct (lk bill_id) as [found|e]; [|done].
    injection Hout as <-. cbn [results report_of duplicate_tail].
    split; [reflexivity|]. split.
    { unfold titles, rule_titles. cbn. rewrite Td, Tt, Ttax.
      by destruct found. }
    split; [by exists found|]. intros H. apply (Hfail _ H).
Qed.

End ValidatorMore.

(** ** The pages *)

Lemma with_drawn_nil w : with_drawn w [] = w.
Proof. destruct w. unfold with_drawn. cbn. by rewrite app_nil_r. Qed.

Lemma with_drawn_app w cs cs' :
  with_drawn (with_drawn w cs) cs' = with_drawn w (cs ++ cs').
Proof. unfold with_drawn. cbn. by rewrite app_assoc. Qed.

Lemma draw_with_drawn c w : draw c w = (Done tt, with_drawn w [c]).
Proof. reflexivity. Qed.

Lemma show_results_drawn rs w :
  show_results rs w = (Done tt, with_drawn w (map result_line rs)).
Proof.
  revert w. induction rs as [|r rs IH]; intros w; cbn [show_results map].
  - by rewrite with_drawn_nil.
  - unfold mbind, P_bind. rewrite draw_with_drawn, IH, with_drawn_app. done.
Qed.

Lemma result_line_success r :
  is_success_line (result_line r) <-> succeeded r.
Proof.
  unfold result_line, is_success_line, succeeded.
  destruct (String.eqb_spec (status r) "success") as [E|E]; split; try done.
  - by eexists.
  - by intros [t Ht].
Qed.

Section PagesFacts.

Variable float_of_str : string -> option float.
Variable strptime_ymd : pyval -> bool.
Variable str_other : option exn.
Variable str_lower : string -> string.
Variable in_other : string -> bool.
Variable dataframe_raises : st_call -> option pyexn.
Variable save_raises : gmap string pyval -> option exn.

Local Abbreviation validate_receipt' :=
  (validate_receipt float_of_str strptime_ymd str_other).
Local Abbreviation validation_ui' :=
  (validation_ui float_of_str strptime_ymd str_other str_lower in_other).
Local Abbreviation stored_lines' :=
  (stored_lines float_of_str strptime_ymd str_other str_lower in_other).
Local Abbreviation find_match' := (find_match float_of_str str_lower in_other).
Local Abbreviation filtered_out' :=
  (filtered_out float_of_str str_lower in_other).
Local Abbreviation render_upload_ui' :=
  (render_upload_ui float_of_str strptime_ymd str_other
     dataframe_raises save_raises).

#[local] Arguments validate_receipt : simpl never.

(** Run the draws at the head of a page. *)
Ltac draws :=
  unfold mbind, P_bind;
  repeat (first [rewrite draw_with_drawn | rewrite show_results_drawn];
          cbn beta iota);
  rewrite ?with_drawn_app.

Lemma world_eta w :
  {| LAST_EXTRACTED_RECEIPT := LAST_EXTRACTED_RECEIPT w;
     LAST_VALIDATION_REPORT := LAST_VALIDATION_REPORT w;
     drawn := drawn w; looked_up := looked_up w; saved := saved w |} = w.
Proof. by destruct w. Qed.

Lemma of_M_validate lk data skip w :
  of_M (validate_receipt' lk data skip) w
  = (of_result (outcome (validate_receipt' lk data skip)),
     {| LAST_EXTRACTED_RECEIPT := LAST_EXTRACTED_RECEIPT w;
        LAST_VALIDATION_REPORT := LAST_VALIDATION_REPORT w;
        drawn := drawn w;
        looked_up := looked_up w ++ calls (validate_receipt' lk data skip);
        saved := saved w |}).
Proof. unfold of_M. by rewrite validate_trace. Qed.

Lemma of_M_validate_skipped lk data w :
  of_M (validate_receipt' lk data true) w
  = (of_result (outcome (validate_receipt' lk data true)), w).
Proof.
  rewrite of_M_validate.
  destruct (validate_skip float_of_str strptime_ymd str_other lk lk data [])
    as [_ H].
  unfold calls, run. rewrite H, app_nil_r, world_eta. done.
Qed.

Lemma outcome_skip_any_lookup lk lk' data :
  outcome (validate_receipt' lk data true)
  = outcome (validate_receipt' lk' data true).
Proof.
  unfold outcome, run.
  by destruct (validate_skip float_of_str strptime_ymd str_other lk lk' data [])
    as [-> _].
Qed.

(** The first half draws the lines of the session's report. *)
Lemma current_uploaded_receipt_drawn w :
  current_uploaded_receipt w = (Done tt, with_drawn w (current_lines w)).
Proof.
  unfold current_uploaded_receipt, current_lines, truthy.
  destruct (LAST_EXTRACTED_RECEIPT w) as [data|]; [|done].
  destruct (bool_decide (data = ∅)); cbn [negb];
    destruct (LAST_VALIDATION_REPORT w) as [r|]; try done.
  destruct (passed r); draws; done.
Qed.

(** The second half draws the form and then the stored lines, or fails
    after the form. *)
Lemma stored_receipt_validation_drawn lk i receipts w :
  stored_receipt_validation float_of_str strptime_ymd str_other
    str_lower in_other lk i receipts w
  = match stored_lines' lk i receipts with
    | Done cs => (Done tt, with_drawn w (stored_form ++ cs))
    | Failed e => (Failed e, with_drawn w stored_form)
    end.
Proof.
  unfold stored_receipt_validation, stored_lines. draws. cbn [app].
  fold stored_form.
  destruct (run_clicked i).
  2:{ cbn [mret answer_ret]. by rewrite app_nil_r. }
  unfold of_answer at 1.
  destruct (find_match' i receipts) as [[m|]|e];
    cbn [mbind answer_bind]; cbn beta iota.
  - unfold truthy. destruct (bool_decide (m = ∅)); cbn [negb].
    { by draws. }
    rewrite of_M_validate_skipped.
    destruct (outcome (validate_receipt' lk m true)) as [r|e];
      cbn [of_result mbind answer_bind]; cbn beta iota; [|done].
    unfold of_answer at 1.
    destruct (result_bind _ _ (format_value str_other) (getitem m "bill_id"))
      as [b|e]; cbn [of_result answer_bind]; cbn beta iota; [|done].
    destruct (passed r); draws; done.
  - by draws.
  - done.
Qed.

Lemma validation_ui_drawn lk i receipts w :
  validation_ui' lk i receipts w
  = match stored_lines' lk i receipts with
    | Done cs =>
        (Done tt,
         with_drawn w
           (st_header "🧾 Receipt Validation" :: current_lines w
            ++ st_divider :: stored_form ++ cs))
    | Failed e =>
        (Failed e,
         with_drawn w
           (st_header "🧾 Receipt Validation" :: current_lines w
            ++ st_divider :: stored_form))
    end.
Proof.
  unfold validation_ui. unfold mbind, P_bind.
  rewrite draw_with_drawn, current_uploaded_receipt_drawn.
  assert (E : current_lines (with_drawn w [st_header "🧾 Receipt Validation"])
              = current_lines w) by done.
  rewrite E, draw_with_drawn, stored_receipt_validation_drawn.
  destruct (stored_lines' lk i receipts);
    rewrite !with_drawn_app; cbn [app]; rewrite <- ?app_assoc; done.
Qed.

Lemma stored_lines_any_lookup lk lk' i receipts :
  stored_lines' lk i receipts = stored_lines' lk' i receipts.
Proof.
  unfold stored_lines. destruct (run_clicked i); [|done].
  destruct (find_match' i receipts) as [[m|]|e]; cbn [mbind answer_bind];
    [|done..].
  destruct (bool_decide (m = ∅)); [done|].
  by rewrite (outcome_skip_any_lookup lk lk' m).
Qed.

(** X10: the Validation page only draws: it leaves the session keys and
    the saved receipts as they are and never calls the existence lookup,
    and nothing it does depends on that lookup, since it validates a
    stored receipt with the duplicate check skipped. *)
Theorem X10_validation_page_only_draws lk i receipts w :
  (exists cs, snd (validation_ui' lk i receipts w) = with_drawn w cs)
  /\ forall lk', validation_ui' lk' i receipts w = validation_ui' lk i receipts w.
Proof.
  split.
  - rewrite validation_ui_drawn.
    destruct (stored_lines' lk i receipts); by eexists.
  - intros lk'. rewrite !validation_ui_drawn.
    by rewrite (stored_lines_any_lookup lk' lk).
Qed.

(** X11: when the session holds a receipt and a report that the
    validator produced, the page draws one line per result, in order, a
    success line exactly for the results with status success, and then
    the banner "Receipt passed validation" exactly when no line is an
    error line. *)
Theorem X11_banner_agrees_with_lines lk0 data0 skip0 lk i receipts w data r :
  LAST_EXTRACTED_RECEIPT w = Some data -> data <> ∅ ->
  LAST_VALIDATION_REPORT w = Some r ->
  outcome (validate_receipt' lk0 data0 skip0) = Ok r ->
  exists banner rest,
    drawn (snd (validation_ui' lk i receipts w))
    = drawn w
      ++ [st_header "🧾 Receipt Validation";
          st_subheader [Lit "🎯 Current Uploaded Receipt"]]
      ++ map result_line (results r) ++ banner :: st_divider :: rest
    /\ (forall k x, results r !! k = Some x ->
          (is_success_line (result_line x) <-> succeeded x))
    /\ (banner = st_success [Lit "🎉 Receipt passed validation"]
        \/ banner = st_error [Lit "❌ Receipt failed validation"])
    /\ (banner = st_success [Lit "🎉 Receipt passed validation"]
        <-> Forall is_success_line (map result_line (results r))).
Proof.
  intros Hd Hne Hr Hout.
  assert (Hpass : passed r = true <-> Forall succeeded (results r)).
  { apply validate_report_of in Hout. rewrite Hout. apply report_of_passed. }
  assert (Hlines : Forall is_success_line (map result_line (results r))
                   <-> Forall succeeded (results r)).
  { rewrite List.Forall_map, !List.Forall_forall.
    split; intros H x Hx; apply result_line_success, H, Hx. }
  exists (if passed r
          then st_success [Lit "🎉 Receipt passed validation"]
          else st_error [Lit "❌ Receipt failed validation"]).
  rewrite validation_ui_drawn.
  assert (Hcur : current_lines w =
            [st_subheader [Lit "🎯 Current Uploaded Receipt"]]
            ++ map result_line (results r)
            ++ [if passed r
                then st_success [Lit "🎉 Receipt passed validation"]
                else st_error [Lit "❌ Receipt failed validation"]]).
  { unfold current_lines. rewrite Hd, Hr.
    by rewrite bool_decide_eq_false_2 by done. }
  destruct (stored_lines' lk i receipts) as [cs|e];
    eexists; (split; [cbn [snd with_drawn drawn]; rewrite Hcur; cbn [app];
                      rewrite <- !app_assoc; cbn [app]; reflexivity|]);
    (split; [intros k x _; apply result_line_success|]);
    (split; [destruct (passed r); auto|]);
    rewrite Hlines, <- Hpass; destruct (passed r); split; done.
Qed.

(** *** The search among the stored receipts *)

Lemma number_differs_text_row text key r v :
  r !! key = Some v ->
  number_differs float_of_str text key r
  = Done (negb (number_matches float_of_str text v)).
Proof.
  intros Hv. unfold number_differs, number_matches, nonempty, getitem.
  rewrite Hv. destruct (String.eqb text ""); cbn.
  - by destruct (float_of_str text).
  - destruct (float_of_str text); cbn; [|done]. by rewrite negb_involutive.
Qed.

Lemma filtered_out_text_row i r :
  text_row r ->
  filtered_out' i r = Done (negb (selects float_of_str str_lower i r)).
Proof.
  intros (b & v & a & t & Hb & Hv & Ha & Ht).
  unfold filtered_out, selects, getitem, nonempty.
  rewrite (number_differs_text_row _ "amount" r a Ha).
  rewrite (number_differs_text_row _ "tax" r t Ht).
  rewrite Hb, Hv, Ha, Ht.
  destruct (String.eqb (bill_id_input i) ""); cbn;
    [|destruct (str_contains (bill_id_input i) b); cbn; [|done]];
    (destruct (String.eqb (vendor_input i) ""); cbn;
     [|destruct (str_contains (str_lower (vendor_input i)) (str_lower v));
       cbn; [|done]]);
    destruct (number_matches float_of_str (amount_input i) a); cbn; done.
Qed.

(** X6: on stored receipts whose bill id and vendor are text and whose
    amount and tax are there, the search never raises and returns the
    first receipt that every filter lets through: a text filter when it
    is empty or (for the vendor, in lower case) a substring, a numeric
    filter when it is empty, not a number, or equal to the value. *)
Theorem X6_search_is_first_selected i receipts :
  Forall text_row receipts ->
  find_match' i receipts
  = Done (List.find (selects float_of_str str_lower i) receipts).
Proof.
  induction 1 as [|r rest Hr _ IH]; [done|].
  cbn [find_match List.find]. rewrite (filtered_out_text_row i r Hr).
  cbn [mbind answer_bind].
  destruct (selects float_of_str str_lower i r); cbn [negb]; done.
Qed.

Lemma number_differs_ignored text text' key r :
  text = text' \/ (float_of_str text = None /\ text' = "") ->
  number_differs float_of_str text key r
  = number_differs float_of_str text' key r.
Proof.
  intros [->|[H ->]]; [done|]. unfold number_differs.
  rewrite H. by destruct (nonempty text).
Qed.

(** X7: a numeric filter that is not a number is ignored: the search
    gives what it gives with that filter left empty. *)
Theorem X7_unreadable_filter_ignored i i' receipts :
  bill_id_input i = bill_id_input i' ->
  vendor_input i = vendor_input i' ->
  amount_input i = amount_input i'
  \/ (float_of_str (amount_input i) = None /\ amount_input i' = "") ->
  tax_input i = tax_input i'
  \/ (float_of_str (tax_input i) = None /\ tax_input i' = "") ->
  find_match' i receipts = find_match' i' receipts.
Proof.
  intros Hb Hv Ha Ht.
  induction receipts as [|r rest IH]; [done|].
  cbn [find_match]. rewrite IH.
  assert (E : filtered_out' i r = filtered_out' i' r); [|by rewrite E].
  unfold filtered_out.
  rewrite (number_differs_ignored _ _ "amount" r Ha).
  rewrite (number_differs_ignored _ _ "tax" r Ht).
  by rewrite Hb, Hv.
Qed.

Lemma float_ne_nan v : float_ne S754_nan v = true.
Proof. by destruct v. Qed.

Lemma filtered_out_true_or_fails i r :
  (nonempty (amount_input i) = true
   /\ float_of_str (amount_input i) = Some S754_nan)
  \/ (nonempty (tax_input i) = true
      /\ float_of_str (tax_input i) = Some S754_nan) ->
  filtered_out' i r <> Done false.
Proof.
  intros H. unfold filtered_out.
  destruct (if nonempty (bill_id_input i) then _ else _) as [[]|]; cbn; try done.
  destruct (if nonempty (vendor_input i) then _ else _) as [[]|]; cbn; try done.
  assert (Hnum : forall text key,
            nonempty text = true -> float_of_str text = Some S754_nan ->
            number_differs float_of_str text key r <> Done false).
  { intros text key Hn Hf. unfold number_differs. rewrite Hn, Hf.
    destruct (getitem r key); cbn; [|done]. by rewrite float_ne_nan. }
  destruct H as [[Hn Hf]|[Hn Hf]].
  - pose proof (Hnum _ "amount" Hn Hf) as Ha.
    destruct (number_differs float_of_str (amount_input i) "amount" r)
      as [[]|]; cbn; done.
  - destruct (number_differs float_of_str (amount_input i) "amount" r)
      as [[]|]; cbn; try done.
    by apply Hnum.
Qed.

(** X8: when the text typed as amount or as tax reads as not-a-number,
    the search selects no receipt, whatever is stored. *)
Theorem X8_nan_filter_selects_nothing i receipts r :
  (amount_input i <> "" /\ float_of_str (amount_input i) = Some S754_nan)
  \/ (tax_input i <> "" /\ float_of_str (tax_input i) = Some S754_nan) ->
  find_match' i receipts <> Done (Some r).
Proof.
  intros H.
  assert (H' : (nonempty (amount_input i) = true
                /\ float_of_str (amount_input i) = Some S754_nan)
               \/ (nonempty (tax_input i) = true
                   /\ float_of_str (tax_input i) = Some S754_nan)).
  { unfold nonempty.
    destruct H as [[Hn Hf]|[Hn Hf]]; [left|right]; (split; [|done]);
      by apply negb_true_iff, String.eqb_neq. }
  induction receipts as [|r' rest IH]; [done|].
  cbn [find_match].
  pose proof (filtered_out_true_or_fails i r' H') as Hf.
  destruct (filtered_out' i r') as [[]|]; cbn; done.
Qed.

(** X9: a stored receipt whose bill id is null or a number stops the
    search with [TypeError] as soon as a bill-id filter reaches it, and
    one whose vendor is not text stops it with [AttributeError] as soon
    as a vendor filter reaches it: the receipt is not skipped. *)
Theorem X9_untyped_field_stops_search i r rest v :
  (bill_id_input i <> "" ->
   r !! "bill_id" = Some v -> (forall s, v <> PyStr s) -> v <> PyOther ->
   find_match float_of_str str_lower in_other i (r :: rest)
   = Failed (Py TypeError))
  /\ (bill_id_input i = "" -> vendor_input i <> "" ->
      r !! "vendor" = Some v -> (forall s, v <> PyStr s) ->
      find_match float_of_str str_lower in_other i (r :: rest)
      = Failed AttributeError).
Proof.
  split.
  - intros Hn Hb Hs Ho. cbn [find_match]. unfold filtered_out, nonempty, getitem.
    rewrite (proj2 (String.eqb_neq _ _) Hn), Hb. cbn.
    destruct v; cbn; try done. by destruct (Hs s).
  - intros Hbill Hn Hv Hs. cbn [find_match].
    unfold filtered_out, nonempty, getitem.
    rewrite Hbill. cbn. rewrite (proj2 (String.eqb_neq _ _) Hn), Hv. cbn.
    destruct v; cbn; try done. by destruct (Hs s).
Qed.


(** *** The upload page *)

Lemma render_upload_ui_summary_fails lk data items w e :
  summary_row data = Raise e ->
  render_upload_ui' lk data items w =
  (Failed (Py e),
   {| LAST_EXTRACTED_RECEIPT := Some data;
      LAST_VALIDATION_REPORT := LAST_VALIDATION_REPORT w;
      drawn := drawn w ++ [st_subheader [Lit "🧾 Receipt Summary"]];
      looked_up := looked_up w;
      saved := saved w |}).
Proof.
  intros H. unfold render_upload_ui, mbind, P_bind, set_extracted, of_answer.
  cbn beta iota. rewrite draw_with_drawn. cbn beta iota. by rewrite H.
Qed.

(** When [st.dataframe] refuses the summary, the page raises there,
    before the duplicate check. *)
Lemma render_upload_ui_summary_refused lk data items w row e :
  summary_row data = Ok row ->
  dataframe_raises (st_dataframe row) = Some e ->
  render_upload_ui' lk data items w =
  (Failed e,
   {| LAST_EXTRACTED_RECEIPT := Some data;
      LAST_VALIDATION_REPORT := LAST_VALIDATION_REPORT w;
      drawn := drawn w ++ [st_subheader [Lit "🧾 Receipt Summary"]];
      looked_up := looked_up w;
      saved := saved w |}).
Proof.
  intros Hrow He. unfold render_upload_ui, mbind, P_bind, set_extracted, of_answer.
  cbn beta iota. rewrite draw_with_drawn. cbn beta iota. rewrite Hrow.
  cbn [of_result]. unfold show_table. by rewrite He.
Qed.

(** ... and likewise when it refuses the items. *)
Lemma render_upload_ui_items_refused lk data items w row e :
  summary_row data = Ok row ->
  dataframe_raises (st_dataframe row) = None ->
  items <> [] ->
  dataframe_raises (st_dataframe_items items) = Some e ->
  render_upload_ui' lk data items w =
  (Failed e,
   {| LAST_EXTRACTED_RECEIPT := Some data;
      LAST_VALIDATION_REPORT := LAST_VALIDATION_REPORT w;
      drawn := drawn w ++ [st_subheader [Lit "🧾 Receipt Summary"];
                           st_dataframe row;
                           st_subheader [Lit "🛒 Item-wise Details"]];
      looked_up := looked_up w;
      saved := saved w |}).
Proof.
  intros Hrow Hs Hi He. destruct w as [ex rep dr lu sv].
  unfold render_upload_ui, mbind, P_bind, set_extracted, of_answer, show_table,
    draw.
  cbn [LAST_EXTRACTED_RECEIPT LAST_VALIDATION_REPORT drawn looked_up saved].
  rewrite Hrow. cbn [of_result]. rewrite Hs.
  cbn [LAST_EXTRACTED_RECEIPT LAST_VALIDATION_REPORT drawn looked_up saved].
  rewrite (bool_decide_eq_false_2 (items = [])) by done. cbn [negb].
  rewrite He. by rewrite <- !app_assoc.
Qed.

Lemma tables_shown_dec row items :
  tables_shown dataframe_raises row items
  \/ (exists e, dataframe_raises (st_dataframe row) = Some e)
  \/ (dataframe_raises (st_dataframe row) = None /\ items <> []
      /\ exists e, dataframe_raises (st_dataframe_items items) = Some e).
Proof.
  unfold tables_shown.
  destruct (dataframe_raises (st_dataframe row)) as [e|]; [right; left; eauto|].
  destruct items as [|x items]; [left; split; [done|by left]|].
  destruct (dataframe_raises (st_dataframe_items (x :: items))) as [e|].
  - right. right. split; [done|]. split; [done|]. eauto.
  - left. split; [done|]. by right.
Qed.

(** The run of the upload page once both tables are shown. *)
Lemma render_upload_ui_checked lk data items w row bill_id :
  summary_row data = Ok row -> tables_shown dataframe_raises row items ->
  data !! "bill_id" = Some bill_id ->
  render_upload_ui' lk data items w =
  match lk bill_id with
  | Raise e =>
      (Failed (Py e),
       {| LAST_EXTRACTED_RECEIPT := Some data;
          LAST_VALIDATION_REPORT := LAST_VALIDATION_REPORT w;
          drawn := drawn w ++ summary_calls row items;
          looked_up := looked_up w ++ [bill_id];
          saved := saved w |})
  | Ok true =>
      (Done tt,
       {| LAST_EXTRACTED_RECEIPT := Some data;
          LAST_VALIDATION_REPORT := LAST_VALIDATION_REPORT w;
          drawn := drawn w ++ summary_calls row items
                   ++ [st_error [Lit "❌ Duplicate detected — receipt NOT saved to database"]];
          looked_up := looked_up w ++ [bill_id];
          saved := saved w |})
  | Ok false =>
      let w1 := checked w data row items bill_id in
      match outcome (validate_receipt' lk data false) with
      | Raise e =>
          (Failed (Py e),
           {| LAST_EXTRACTED_RECEIPT := Some data;
              LAST_VALIDATION_REPORT := LAST_VALIDATION_REPORT w;
              drawn := drawn w1;
              looked_up := looked_up w1
                           ++ calls (validate_receipt' lk data false);
              saved := saved w |})
      | Ok r =>
          match save_raises data with
          | Some e =>
              (Failed (Py e),
               {| LAST_EXTRACTED_RECEIPT := Some data;
                  LAST_VALIDATION_REPORT := Some r;
                  drawn := drawn w1;
                  looked_up := looked_up w1
                               ++ calls (validate_receipt' lk data false);
                  saved := saved w |})
          | None =>
              (Done tt,
               {| LAST_EXTRACTED_RECEIPT := Some data;
                  LAST_VALIDATION_REPORT := Some r;
                  drawn := drawn w1
                    ++ [if passed r
                        then st_success
                               [Lit "🎉 Receipt passed validation and was saved successfully"]
                        else st_error [Lit "❌ Receipt failed validation"]];
                  looked_up := looked_up w1
                               ++ calls (validate_receipt' lk data false);
                  saved := saved w ++ [data] |})
          end
      end
  end.
Proof.
  intros Hrow [Hs Hi] Hb. destruct w as [ex rep dr lu sv].
  unfold render_upload_ui, mbind, P_bind, set_extracted, of_answer, show_table,
    draw, checked, summary_calls.
  cbn [LAST_EXTRACTED_RECEIPT LAST_VALIDATION_REPORT drawn looked_up saved].
  rewrite Hrow. cbn [of_result]. rewrite Hs.
  cbn [LAST_EXTRACTED_RECEIPT LAST_VALIDATION_REPORT drawn looked_up saved].
  unfold getitem. rewrite Hb. cbn [of_result].
  assert (Hi' : bool_decide (items = []) = false ->
                 dataframe_raises (st_dataframe_items items) = None).
  { intros E. destruct Hi as [Hi|Hi]; [|done].
    by apply bool_decide_eq_false_1 in E. }
  destruct (bool_decide (items = [])); cbn [negb];
    [|rewrite (Hi' eq_refl)]; clear Hi'.
  all: cbn [LAST_EXTRACTED_RECEIPT LAST_VALIDATION_REPORT drawn looked_up saved].
  all: unfold of_M at 1, call at 1.
  all: cbn [LAST_EXTRACTED_RECEIPT LAST_VALIDATION_REPORT drawn looked_up saved].
  all: destruct (lk bill_id) as [[]|e]; cbn [of_result];
    cbn [LAST_EXTRACTED_RECEIPT LAST_VALIDATION_REPORT drawn looked_up saved];
    [rewrite <- !app_assoc; reflexivity
    |
    |rewrite <- !app_assoc; reflexivity].
  all: rewrite of_M_validate.
  all: cbn [LAST_EXTRACTED_RECEIPT LAST_VALIDATION_REPORT drawn looked_up saved].
  all: destruct (outcome (validate_receipt' lk data false)) as [r|e];
    cbn [of_result]; unfold set_report, save_receipt;
    cbn [LAST_EXTRACTED_RECEIPT LAST_VALIDATION_REPORT drawn looked_up saved];
    [|rewrite <- !app_assoc; reflexivity].
  all: destruct (save_raises data);
    cbn [LAST_EXTRACTED_RECEIPT LAST_VALIDATION_REPORT drawn looked_up saved];
    [rewrite <- !app_assoc; reflexivity|].
  all: destruct (passed r);
    cbn [LAST_EXTRACTED_RECEIPT LAST_VALIDATION_REPORT drawn looked_up saved];
    rewrite <- !app_assoc; reflexivity.
Qed.

(** X12: a receipt that the lookup does not know is saved whatever the
    validation says: when both tables are shown, the validator returns a
    report, passed or not, and the store takes the receipt, the page
    stores that report in the session, hands the receipt to
    [save_receipt] and ends with the banner that matches [passed]. *)
Theorem X12_saved_whatever_the_report lk data items w row bill_id r :
  summary_row data = Ok row ->
  tables_shown dataframe_raises row items ->
  data !! "bill_id" = Some bill_id ->
  lk bill_id = Ok false ->
  outcome (validate_receipt' lk data false) = Ok r ->
  save_raises data = None ->
  let w' := snd (render_upload_ui' lk data items w) in
  fst (render_upload_ui' lk data items w) = Done tt
  /\ saved w' = saved w ++ [data]
  /\ LAST_VALIDATION_REPORT w' = Some r
  /\ LAST_EXTRACTED_RECEIPT w' = Some data
  /\ last (drawn w')
     = Some (if passed r
             then st_success
                    [Lit "🎉 Receipt passed validation and was saved successfully"]
             else st_error [Lit "❌ Receipt failed validation"]).
Proof.
  intros Hrow Hshown Hb Hlk Hout Hsave.
  rewrite (render_upload_ui_checked lk data items w row bill_id Hrow Hshown Hb).
  rewrite Hlk. cbn zeta. rewrite Hout, Hsave. cbn [fst snd saved
    LAST_VALIDATION_REPORT LAST_EXTRACTED_RECEIPT drawn].
  repeat split. by rewrite last_snoc.
Qed.

(** X13: a receipt that the lookup knows is neither validated nor
    saved, and the session keeps the report of an earlier upload while
    the receipt in the session is replaced: the Validation page then
    shows that earlier report under "Current Uploaded Receipt". *)
Theorem X13_duplicate_keeps_old_report lk data items w row bill_id :
  summary_row data = Ok row ->
  tables_shown dataframe_raises row items ->
  data !! "bill_id" = Some bill_id ->
  lk bill_id = Ok true ->
  let w' := snd (render_upload_ui' lk data items w) in
  fst (render_upload_ui' lk data items w) = Done tt
  /\ saved w' = saved w
  /\ looked_up w' = looked_up w ++ [bill_id]
  /\ LAST_EXTRACTED_RECEIPT w' = Some data
  /\ LAST_VALIDATION_REPORT w' = LAST_VALIDATION_REPORT w
  /\ forall r0 lk2 i receipts,
       LAST_VALIDATION_REPORT w = Some r0 ->
       exists rest,
         drawn (snd (validation_ui' lk2 i receipts w'))
         = drawn w'
           ++ [st_header "🧾 Receipt Validation";
               st_subheader [Lit "🎯 Current Uploaded Receipt"]]
           ++ map result_line (results r0) ++ rest.
Proof.
  intros Hrow Hshown Hb Hlk.
  rewrite (render_upload_ui_checked lk data items w row bill_id Hrow Hshown Hb).
  rewrite Hlk. cbn zeta. cbn [fst snd saved looked_up
    LAST_VALIDATION_REPORT LAST_EXTRACTED_RECEIPT].
  repeat (split; [reflexivity|]).
  intros r0 lk2 i receipts Hr0. rewrite validation_ui_drawn.
  assert (Hne : data <> ∅).
  { intros ->. by rewrite lookup_empty in Hb. }
  set (w' := {| LAST_EXTRACTED_RECEIPT := Some data |}).
  assert (Hcur : current_lines w' =
            [st_subheader [Lit "🎯 Current Uploaded Receipt"]]
            ++ map result_line (results r0)
            ++ [if passed r0
                then st_success [Lit "🎉 Receipt passed validation"]
                else st_error [Lit "❌ Receipt failed validation"]]).
  { unfold current_lines, w'. cbn [LAST_EXTRACTED_RECEIPT LAST_VALIDATION_REPORT].
    rewrite Hr0. by rewrite bool_decide_eq_false_2 by done. }
  destruct (stored_lines' lk2 i receipts) as [cs|e];
    eexists; cbn [snd with_drawn drawn]; rewrite Hcur; cbn [app];
    rewrite <- !app_assoc; cbn [app]; reflexivity.
Qed.

Lemma not_stored_no_duplicate_error lk data bill_id r :
  data !! "bill_id" = Some bill_id -> lk bill_id = Ok false ->
  outcome (validate_receipt' lk data false) = Ok r ->
  ~ In duplicate_error (results r).
Proof.
  intros Hb Hlk Hout. destruct (gate_decide data) as [Hg|Hm].
  2:{ unfold outcome, run in Hout. rewrite validate_gate_fail in Hout by done.
      injection Hout as <-. cbn. intros [H|[]]. discriminate H. }
  destruct (gate_values strptime_ymd data Hg)
    as (b & d & va & vt & Hb' & Hd & Ha & Ht).
  rewrite Hb in Hb'. injection Hb' as <-.
  pose proof (returned_date_fault _ _ _ lk data false d r Hg Hd Hout) as Hdf.
  destruct (coerce float_of_str va) as [amount|e] eqn:Hca.
  2:{ unfold outcome, run in Hout.
      by rewrite (validate_coerce_raises _ _ _ lk data false [] d va vt e)
        in Hout by auto. }
  destruct (coerce float_of_str vt) as [tax|e] eqn:Hct.
  2:{ unfold outcome, run in Hout.
      by rewrite (validate_coerce_raises _ _ _ lk data false [] d va vt e)
        in Hout by eauto. }
  destruct (validate_gate_pass_report float_of_str strptime_ymd str_other
              lk data false d va vt bill_id amount tax)
    as (r_date & r_total & (Td & _) & (Tt & _) & _ & Hr); try assumption.
  destruct (Hr r Hout) as [-> _]. rewrite Hlk.
  assert (Ttax : title (tax_rate_result amount tax) = "Tax Rate Validation").
  { unfold tax_rate_result. destruct (F64.eqb tax F64.zero); [done|].
    by destruct (first_qualifying amount tax). }
  cbn. intros [H|[H|[H|[H|[H|[]]]]]].
  - discriminate H.
  - apply (f_equal title) in H. rewrite Td in H. discriminate H.
  - apply (f_equal title) in H. rewrite Tt in H. discriminate H.
  - apply (f_equal title) in H. rewrite Ttax in H. discriminate H.
  - discriminate H.
Qed.

Lemma summary_row_bill data row :
  summary_row data = Ok row -> exists b, data !! "bill_id" = Some b.
Proof.
  unfold summary_row, getitem. destruct (data !! "bill_id") as [b|]; [|done].
  by exists b.
Qed.

(** X14: whenever the upload page runs to its end, either the receipt
    was taken for a duplicate and neither the saved receipts nor the
    session's report changed, or the receipt was saved together with the
    validator's report, and that report holds no "Duplicate receipt
    found" result: the page asks the lookup before it validates. *)
Theorem X14_upload_never_reports_duplicate lk data items w :
  fst (render_upload_ui' lk data items w) = Done tt ->
  let w' := snd (render_upload_ui' lk data items w) in
  (saved w' = saved w
   /\ LAST_VALIDATION_REPORT w' = LAST_VALIDATION_REPORT w)
  \/ exists r,
       outcome (validate_receipt' lk data false) = Ok r
       /\ LAST_VALIDATION_REPORT w' = Some r
       /\ saved w' = saved w ++ [data]
       /\ ~ In duplicate_error (results r).
Proof.
  destruct (summary_row data) as [row|e] eqn:Hrow.
  2:{ by rewrite (render_upload_ui_summary_fails lk data items w e Hrow). }
  destruct (tables_shown_dec row items)
    as [Hshown|[[e He]|(Hs & Hi & e & He)]].
  2:{ by rewrite (render_upload_ui_summary_refused lk data items w row e
                    Hrow He). }
  2:{ by rewrite (render_upload_ui_items_refused lk data items w row e
                    Hrow Hs Hi He). }
  destruct (summary_row_bill data row Hrow) as [b Hb].
  rewrite (render_upload_ui_checked lk data items w row b Hrow Hshown Hb).
  destruct (lk b) as [[]|e] eqn:Hlk; [by left| |done].
  cbn zeta.
  destruct (outcome (validate_receipt' lk data false)) as [r|e] eqn:Hout;
    [|done].
  destruct (save_raises data); [done|].
  intros _. right. exists r. repeat split.
  by apply (not_stored_no_duplicate_error lk data b r).
Qed.

(** X15: a receipt whose tax or amount is not a number (text, null, a
    list) never reaches the duplicate check, the validator or the
    store: building the summary raises, after the receipt was put in the
    session. *)
Theorem X15_unrounded_field_stops_upload lk data items w f v :
  f = "tax" \/ f = "amount" ->
  data !! f = Some v -> round2 v = Raise TypeError ->
  let w' := snd (render_upload_ui' lk data items w) in
  (exists e, fst (render_upload_ui' lk data items w) = Failed (Py e)
             /\ (e = KeyError \/ e = TypeError))
  /\ looked_up w' = looked_up w
  /\ saved w' = saved w
  /\ LAST_VALIDATION_REPORT w' = LAST_VALIDATION_REPORT w
  /\ LAST_EXTRACTED_RECEIPT w' = Some data.
Proof.
  intros Hf Hv Hr.
  assert (Hrow : exists e, summary_row data = Raise e
                           /\ (e = KeyError \/ e = TypeError)).
  { unfold summary_row, getitem.
    destruct (data !! "bill_id"); cbn; [|eauto].
    destruct (data !! "vendor"); cbn; [|eauto].
    destruct (data !! "date"); cbn; [|eauto].
    destruct (round2 (get_default data "subtotal" (PyFloat F64.zero)))
      as [c|e] eqn:Hs; cbn.
    2:{ exists e. split; [done|]. right.
        destruct (get_default data "subtotal" (PyFloat F64.zero));
          cbn in Hs; congruence. }
    destruct Hf as [-> | ->].
    - rewrite Hv. cbn. rewrite Hr. cbn. eauto.
    - destruct (data !! "tax") as [t|]; cbn; [|eauto].
      destruct (round2 t) as [c'|e] eqn:Ht; cbn.
      2:{ exists e. split; [done|]. right.
          destruct t; cbn in Ht; congruence. }
      rewrite Hv. cbn. rewrite Hr. cbn. eauto. }
  destruct Hrow as (e & Hrow & He).
  rewrite (render_upload_ui_summary_fails lk data items w e Hrow).
  cbn. eauto 10.
Qed.

(** X17: after the upload of a receipt that was not a duplicate, the
    Validation page shows that receipt's report: one line per result of
    the validator, in order, and the banner that matches [passed]. *)
Theorem X17_page_shows_uploaded_report lk data items w row bill_id r
    lk2 i receipts :
  summary_row data = Ok row ->
  tables_shown dataframe_raises row items ->
  data !! "bill_id" = Some bill_id ->
  lk bill_id = Ok false ->
  outcome (validate_receipt' lk data false) = Ok r ->
  save_raises data = None ->
  let w' := snd (render_upload_ui' lk data items w) in
  exists rest,
    drawn (snd (validation_ui' lk2 i receipts w'))
    = drawn w'
      ++ [st_header "🧾 Receipt Validation";
          st_subheader [Lit "🎯 Current Uploaded Receipt"]]
      ++ map result_line (results r)
      ++ (if passed r
          then st_success [Lit "🎉 Receipt passed validation"]
          else st_error [Lit "❌ Receipt failed validation"])
         :: st_divider :: rest.
Proof.
  intros Hrow Hshown Hb Hlk Hout Hsave.
  rewrite (render_upload_ui_checked lk data items w row bill_id Hrow Hshown Hb).
  rewrite Hlk. cbn zeta. rewrite Hout, Hsave. cbn [snd].
  rewrite validation_ui_drawn.
  assert (Hne : data <> ∅).
  { intros ->. by rewrite lookup_empty in Hb. }
  set (w' := {| LAST_EXTRACTED_RECEIPT := Some data |}).
  assert (Hcur : current_lines w' =
            [st_subheader [Lit "🎯 Current Uploaded Receipt"]]
            ++ map result_line (results r)
            ++ [if passed r
                then st_success [Lit "🎉 Receipt passed validation"]
                else st_error [Lit "❌ Receipt failed validation"]]).
  { unfold current_lines, w'. cbn [LAST_EXTRACTED_RECEIPT LAST_VALIDATION_REPORT].
    by rewrite bool_decide_eq_false_2 by done. }
  destruct (stored_lines' lk2 i receipts) as [cs|e'];
    eexists; cbn [snd with_drawn drawn]; rewrite Hcur; cbn [app];
    rewrite <- !app_assoc; cbn [app]; reflexivity.
Qed.

(** X19: when [st.dataframe] refuses the summary table, the page raises
    Streamlit's exception there: the receipt has replaced the one in the
    session, but the lookup is not asked, the validator does not run,
    nothing is saved and the session keeps its old report. *)
Theorem X19_refused_summary_stops_upload lk data items w row e :
  summary_row data = Ok row ->
  dataframe_raises (st_dataframe row) = Some e ->
  let w' := snd (render_upload_ui' lk data items w) in
  fst (render_upload_ui' lk data items w) = Failed e
  /\ looked_up w' = looked_up w
  /\ saved w' = saved w
  /\ LAST_VALIDATION_REPORT w' = LAST_VALIDATION_REPORT w
  /\ LAST_EXTRACTED_RECEIPT w' = Some data.
Proof.
  intros Hrow He.
  by rewrite (render_upload_ui_summary_refused lk data items w row e Hrow He).
Qed.

End PagesFacts.

(** *** Examples for the pages and the further properties *)

Lemma groceries_convertible : convertible groceries.
Proof.
  intros f z [-> | ->] Hf.
  - change (Some (PyInt 108) = Some (PyInt z)) in Hf. injection Hf as <-.
    eexists. vm_compute. reflexivity.
  - change (Some (PyInt 8) = Some (PyInt z)) in Hf. injection Hf as <-.
    eexists. vm_compute. reflexivity.
Qed.

Lemma groceries_nonempty : groceries <> ∅.
Proof.
  intros H. assert (E : groceries !! "bill_id" = None)
    by (rewrite H; apply lookup_empty).
  discriminate E.
Qed.

Lemma shelf_text_rows : Forall text_row shelf.
Proof.
  repeat constructor; unfold text_row; do 4 eexists;
    repeat split; reflexivity.
Qed.

Lemma groceries_reportable : reportable Ref.strptime_ymd None groceries.
Proof.
  intros d Hd. change (Some (PyStr "2024-01-15") = Some d) in Hd.
  injection Hd as <-. vm_compute. reflexivity.
Qed.

(** The receipt whose date is an int of 5001 digits: the exception is
    the [ValueError] of the date handler. *)
Lemma X2_witness :
  outcome (validate never_stored huge_date false) = Raise ValueError
  /\ gate_passes huge_date
  /\ ((exists date,
         huge_date !! "date" = Some date /\ Ref.strptime_ymd date = false
         /\ ((exists z, date = PyInt z /\ 10 ^ 4300 <= Z.abs z
                        /\ ValueError = ValueError)
             \/ (date = PyOther /\ None = Some ValueError)))
      \/ (ValueError = OverflowError /\ ~ convertible huge_date)
      \/ (false = false /\
          exists bill_id,
            huge_date !! "bill_id" = Some bill_id
            /\ never_stored bill_id = Raise ValueError)).
Proof.
  assert (H : outcome (validate never_stored huge_date false)
              = Raise ValueError)
    by exact (f_equal fst (huge_date_raises never_stored false)).
  split; [exact H|].
  exact (X2_exceptions_classified Ref.float_of_str Ref.strptime_ymd None
           never_stored huge_date false ValueError H).
Defined.

Lemma X3_witness :
  gate_passes groceries /\ reportable Ref.strptime_ymd None groceries
  /\ convertible groceries /\ false = false
  /\ exists bill_id, groceries !! "bill_id" = Some bill_id
       /\ calls (validate never_stored groceries false) = [bill_id].
Proof.
  split; [exact groceries_gate|]. split; [exact groceries_reportable|].
  split; [exact groceries_convertible|]. split; [reflexivity|].
  exact (proj1 (X3_lookup_called_once Ref.float_of_str Ref.strptime_ymd None
                  never_stored groceries false)
           groceries_gate groceries_reportable groceries_convertible eq_refl).
Defined.

(** The receipt dated 15/01/2024: its five results, and [passed] is
    false because the date does not parse. *)
Lemma X18_witness :
  gate_passes bad_date
  /\ bad_date !! "bill_id" = Some (PyStr "B-3")
  /\ bad_date !! "date" = Some (PyStr "15/01/2024")
  /\ bad_date !! "amount" = Some (PyInt 108)
  /\ bad_date !! "tax" = Some (PyInt 8)
  /\ coerce Ref.float_of_str (PyInt 108) = Ok (F64.of_Z 108)
  /\ coerce Ref.float_of_str (PyInt 8) = Ok (F64.of_Z 8)
  /\ outcome (validate never_stored bad_date false) = Ok bad_date_report
  /\ results bad_date_report
     = [required_ok;
        date_result (Ref.strptime_ymd (PyStr "15/01/2024")) (PyStr "15/01/2024");
        total_result (F64.of_Z 108);
        tax_rate_result (F64.of_Z 108) (F64.of_Z 8)]
       ++ duplicate_tail false (never_stored (PyStr "B-3"))
  /\ titles bad_date_report = rule_titles false
  /\ (false = false -> exists found, never_stored (PyStr "B-3") = Ok found)
  /\ (Ref.strptime_ymd (PyStr "15/01/2024") = false
      \/ F64.ltb F64.zero (F64.of_Z 108) = false ->
      passed bad_date_report = false).
Proof.
  assert (Hb : bad_date !! "bill_id" = Some (PyStr "B-3")) by reflexivity.
  assert (Hd : bad_date !! "date" = Some (PyStr "15/01/2024")) by reflexivity.
  assert (Ha : bad_date !! "amount" = Some (PyInt 108)) by reflexivity.
  assert (Ht : bad_date !! "tax" = Some (PyInt 8)) by reflexivity.
  assert (Hca : coerce Ref.float_of_str (PyInt 108) = Ok (F64.of_Z 108))
    by (vm_compute; reflexivity).
  assert (Hct : coerce Ref.float_of_str (PyInt 8) = Ok (F64.of_Z 8))
    by (vm_compute; reflexivity).
  assert (Hout : outcome (validate never_stored bad_date false)
                 = Ok bad_date_report) by (vm_compute; reflexivity).
  split; [exact bad_date_gate|]. split; [exact Hb|]. split; [exact Hd|].
  split; [exact Ha|]. split; [exact Ht|]. split; [exact Hca|].
  split; [exact Hct|]. split; [exact Hout|].
  exact (X18_report_contents Ref.float_of_str Ref.strptime_ymd None
           never_stored bad_date false (PyStr "B-3") (PyStr "15/01/2024")
           (PyInt 108) (PyInt 8) (F64.of_Z 108) (F64.of_Z 8) bad_date_report
           bad_date_gate Hb Hd Ha Ht Hca Hct Hout).
Defined.

Lemma tax_unreadable_gate : gate_passes tax_unreadable.
Proof. by apply receipt_gate. Qed.

Lemma X4_witness :
  gate_passes tax_unreadable
  /\ tax_unreadable !! "tax" = Some (PyStr "n/a")
  /\ (py_float Ref.float_of_str (PyStr "n/a") = Raise ValueError
      \/ py_float Ref.float_of_str (PyStr "n/a") = Raise TypeError)
  /\ outcome (validate never_stored tax_unreadable true)
     = Ok tax_unreadable_report
  /\ results tax_unreadable_report !! 3%nat =
       Some {| title := "Tax Rate Validation";
               status := "success";
               message := [Lit "No tax applied (valid)"] |}.
Proof.
  assert (Ht : tax_unreadable !! "tax" = Some (PyStr "n/a")) by reflexivity.
  assert (Hbad : py_float Ref.float_of_str (PyStr "n/a") = Raise ValueError
                 \/ py_float Ref.float_of_str (PyStr "n/a") = Raise TypeError)
    by (left; vm_compute; reflexivity).
  assert (Hout : outcome (validate never_stored tax_unreadable true)
                 = Ok tax_unreadable_report) by (vm_compute; reflexivity).
  repeat (split; [assumption || exact tax_unreadable_gate|]).
  exact (X4_unreadable_tax_is_no_tax Ref.float_of_str Ref.strptime_ymd None
           never_stored tax_unreadable true (PyStr "n/a")
           tax_unreadable_report tax_unreadable_gate Ht Hbad Hout).
Defined.

Lemma X5_witness :
  (forall f, In f ["bill_id"; "date"; "amount"; "tax"] ->
     groceries !! f = groceries_detailed !! f)
  /\ get_is_None groceries "vendor" = get_is_None groceries_detailed "vendor"
  /\ validate only_B1 groceries false = validate only_B1 groceries_detailed false.
Proof.
  assert (Hsame : forall f, In f ["bill_id"; "date"; "amount"; "tax"] ->
                    groceries !! f = groceries_detailed !! f).
  { intros f [<-|[<-|[<-|[<-|[]]]]]; reflexivity. }
  assert (Hv : get_is_None groceries "vendor"
               = get_is_None groceries_detailed "vendor") by reflexivity.
  split; [exact Hsame|]. split; [exact Hv|].
  exact (X5_reads_five_fields Ref.float_of_str Ref.strptime_ymd None
           only_B1 groceries groceries_detailed false Hsame Hv).
Defined.

(** Searching the shelf for the vendor "SHOP" finds the groceries, whose
    vendor is "Corner Shop". *)
Lemma X6_witness :
  Forall text_row shelf
  /\ find_stored (by_vendor "SHOP") shelf
     = Done (List.find (selects Ref.float_of_str ascii_lower (by_vendor "SHOP"))
               shelf)
  /\ List.find (selects Ref.float_of_str ascii_lower (by_vendor "SHOP")) shelf
     = Some groceries.
Proof.
  split; [exact shelf_text_rows|]. split.
  - exact (X6_search_is_first_selected Ref.float_of_str ascii_lower
             (fun _ => false) (by_vendor "SHOP") shelf shelf_text_rows).
  - vm_compute. reflexivity.
Defined.

Lemma X7_witness :
  bill_id_input (by_amount "abc") = bill_id_input no_filter
  /\ vendor_input (by_amount "abc") = vendor_input no_filter
  /\ (amount_input (by_amount "abc") = amount_input no_filter
      \/ (Ref.float_of_str (amount_input (by_amount "abc")) = None
          /\ amount_input no_filter = ""))
  /\ (tax_input (by_amount "abc") = tax_input no_filter
      \/ (Ref.float_of_str (tax_input (by_amount "abc")) = None
          /\ tax_input no_filter = ""))
  /\ find_stored (by_amount "abc") shelf = find_stored no_filter shelf.
Proof.
  assert (Ha : amount_input (by_amount "abc") = amount_input no_filter
               \/ (Ref.float_of_str (amount_input (by_amount "abc")) = None
                   /\ amount_input no_filter = ""))
    by (right; split; vm_compute; reflexivity).
  assert (Ht : tax_input (by_amount "abc") = tax_input no_filter
               \/ (Ref.float_of_str (tax_input (by_amount "abc")) = None
                   /\ tax_input no_filter = ""))
    by (left; reflexivity).
  split; [reflexivity|]. split; [reflexivity|].
  split; [exact Ha|]. split; [exact Ht|].
  exact (X7_unreadable_filter_ignored Ref.float_of_str ascii_lower
           (fun _ => false) (by_amount "abc") no_filter shelf
           eq_refl eq_refl Ha Ht).
Defined.

Lemma X8_witness :
  ((amount_input (by_amount "nan") <> ""
    /\ Ref.float_of_str (amount_input (by_amount "nan")) = Some S754_nan)
   \/ (tax_input (by_amount "nan") <> ""
       /\ Ref.float_of_str (tax_input (by_amount "nan")) = Some S754_nan))
  /\ find_stored (by_amount "nan") shelf <> Done (Some groceries).
Proof.
  assert (H : (amount_input (by_amount "nan") <> ""
               /\ Ref.float_of_str (amount_input (by_amount "nan"))
                  = Some S754_nan)
              \/ (tax_input (by_amount "nan") <> ""
                  /\ Ref.float_of_str (tax_input (by_amount "nan"))
                     = Some S754_nan)).
  { left. split; [discriminate|vm_compute; reflexivity]. }
  split; [exact H|].
  exact (X8_nan_filter_selects_nothing Ref.float_of_str ascii_lower
           (fun _ => false) (by_amount "nan") shelf groceries H).
Defined.

Lemma X9_witness :
  find_stored (by_bill "17") [numeric_bill; groceries] = Failed (Py TypeError)
  /\ find_stored (by_vendor "kiosk") [null_vendor; groceries]
     = Failed AttributeError.
Proof.
  split.
  - apply (proj1 (X9_untyped_field_stops_search Ref.float_of_str ascii_lower
                    (fun _ => false) (by_bill "17") numeric_bill [groceries]
                    (PyInt 17))).
    + discriminate.
    + reflexivity.
    + discriminate.
    + discriminate.
  - apply (proj2 (X9_untyped_field_stops_search Ref.float_of_str ascii_lower
                    (fun _ => false) (by_vendor "kiosk") null_vendor [groceries]
                    PyNone)).
    + reflexivity.
    + discriminate.
    + reflexivity.
    + discriminate.
Defined.

Lemma X11_witness :
  LAST_EXTRACTED_RECEIPT groceries_uploaded = Some groceries
  /\ groceries <> ∅
  /\ LAST_VALIDATION_REPORT groceries_uploaded = Some groceries_report
  /\ outcome (validate never_stored groceries false) = Ok groceries_report
  /\ exists banner rest,
       drawn (snd (validation_page store_down not_clicked [] groceries_uploaded))
       = drawn groceries_uploaded
         ++ [st_header "🧾 Receipt Validation";
             st_subheader [Lit "🎯 Current Uploaded Receipt"]]
         ++ map result_line (results groceries_report)
         ++ banner :: st_divider :: rest
       /\ (forall k x, results groceries_report !! k = Some x ->
             (is_success_line (result_line x) <-> succeeded x))
       /\ (banner = st_success [Lit "🎉 Receipt passed validation"]
           \/ banner = st_error [Lit "❌ Receipt failed validation"])
       /\ (banner = st_success [Lit "🎉 Receipt passed validation"]
           <-> Forall is_success_line
                 (map result_line (results groceries_report))).
Proof.
  assert (Hout : outcome (validate never_stored groceries false)
                 = Ok groceries_report) by (vm_compute; reflexivity).
  split; [reflexivity|]. split; [exact groceries_nonempty|].
  split; [reflexivity|]. split; [exact Hout|].
  exact (X11_banner_agrees_with_lines Ref.float_of_str Ref.strptime_ymd None
           ascii_lower (fun _ => false) never_stored groceries false
           store_down not_clicked [] groceries_uploaded groceries
           groceries_report eq_refl groceries_nonempty eq_refl Hout).
Defined.

(** The tables of the examples hold small numbers and text: they are
    shown. *)
Lemma bad_date_shown : tables_shown arrow_refuses bad_date_row [].
Proof. split; [vm_compute; reflexivity|by left]. Qed.

Lemma tax_free_shown : tables_shown arrow_refuses tax_free_row [].
Proof. split; [vm_compute; reflexivity|by left]. Qed.

Lemma groceries_shown : tables_shown arrow_refuses groceries_row [].
Proof. split; [vm_compute; reflexivity|by left]. Qed.

(** The receipt with the bad date is saved although its report fails. *)
Lemma X12_witness :
  summary_row bad_date = Ok bad_date_row
  /\ tables_shown arrow_refuses bad_date_row []
  /\ bad_date !! "bill_id" = Some (PyStr "B-3")
  /\ never_stored (PyStr "B-3") = Ok false
  /\ outcome (validate never_stored bad_date false) = Ok bad_date_report
  /\ passed bad_date_report = false
  /\ let w' := snd (upload_page never_stored bad_date [] fresh) in
     fst (upload_page never_stored bad_date [] fresh) = Done tt
     /\ saved w' = saved fresh ++ [bad_date]
     /\ LAST_VALIDATION_REPORT w' = Some bad_date_report
     /\ LAST_EXTRACTED_RECEIPT w' = Some bad_date
     /\ last (drawn w')
        = Some (if passed bad_date_report
                then st_success
                       [Lit "🎉 Receipt passed validation and was saved successfully"]
                else st_error [Lit "❌ Receipt failed validation"]).
Proof.
  assert (Hrow : summary_row bad_date = Ok bad_date_row)
    by (vm_compute; reflexivity).
  assert (Hb : bad_date !! "bill_id" = Some (PyStr "B-3")) by reflexivity.
  assert (Hlk : never_stored (PyStr "B-3") = Ok false) by reflexivity.
  assert (Hout : outcome (validate never_stored bad_date false)
                 = Ok bad_date_report) by (vm_compute; reflexivity).
  split; [exact Hrow|]. split; [exact bad_date_shown|]. split; [exact Hb|].
  split; [exact Hlk|]. split; [exact Hout|]. split; [reflexivity|].
  exact (X12_saved_whatever_the_report Ref.float_of_str Ref.strptime_ymd None
           arrow_refuses (fun _ => None)
           never_stored bad_date [] fresh bad_date_row (PyStr "B-3")
           bad_date_report Hrow bad_date_shown Hb Hlk Hout eq_refl).
Defined.

(** The tax-free receipt is uploaded after the groceries, to a store
    that knows it: the session still holds the groceries' report. *)
Lemma X13_witness :
  summary_row tax_free = Ok tax_free_row
  /\ tables_shown arrow_refuses tax_free_row []
  /\ tax_free !! "bill_id" = Some (PyStr "B-2")
  /\ always_stored (PyStr "B-2") = Ok true
  /\ let w' := snd (upload_page always_stored tax_free [] groceries_uploaded) in
     fst (upload_page always_stored tax_free [] groceries_uploaded) = Done tt
     /\ saved w' = saved groceries_uploaded
     /\ looked_up w' = looked_up groceries_uploaded ++ [PyStr "B-2"]
     /\ LAST_EXTRACTED_RECEIPT w' = Some tax_free
     /\ LAST_VALIDATION_REPORT w' = LAST_VALIDATION_REPORT groceries_uploaded
     /\ forall r0 lk2 i receipts,
          LAST_VALIDATION_REPORT groceries_uploaded = Some r0 ->
          exists rest,
            drawn (snd (validation_page lk2 i receipts w'))
            = drawn w'
              ++ [st_header "🧾 Receipt Validation";
                  st_subheader [Lit "🎯 Current Uploaded Receipt"]]
              ++ map result_line (results r0) ++ rest.
Proof.
  assert (Hrow : summary_row tax_free = Ok tax_free_row)
    by (vm_compute; reflexivity).
  assert (Hb : tax_free !! "bill_id" = Some (PyStr "B-2")) by reflexivity.
  assert (Hlk : always_stored (PyStr "B-2") = Ok true) by reflexivity.
  split; [exact Hrow|]. split; [exact tax_free_shown|]. split; [exact Hb|].
  split; [exact Hlk|].
  exact (X13_duplicate_keeps_old_report Ref.float_of_str Ref.strptime_ymd None
           ascii_lower (fun _ => false) arrow_refuses (fun _ => None)
           always_stored tax_free []
           groceries_uploaded tax_free_row (PyStr "B-2")
           Hrow tax_free_shown Hb Hlk).
Defined.

Lemma X14_witness :
  fst (upload_page never_stored groceries [] fresh) = Done tt
  /\ let w' := snd (upload_page never_stored groceries [] fresh) in
     (saved w' = saved fresh
      /\ LAST_VALIDATION_REPORT w' = LAST_VALIDATION_REPORT fresh)
     \/ exists r,
          outcome (validate never_stored groceries false) = Ok r
          /\ LAST_VALIDATION_REPORT w' = Some r
          /\ saved w' = saved fresh ++ [groceries]
          /\ ~ In duplicate_error (results r).
Proof.
  assert (H : fst (upload_page never_stored groceries [] fresh) = Done tt)
    by (vm_compute; reflexivity).
  split; [exact H|].
  exact (X14_upload_never_reports_duplicate Ref.float_of_str Ref.strptime_ymd
           None arrow_refuses (fun _ => None)
           never_stored groceries [] fresh H).
Defined.

Lemma X15_witness :
  ("tax" = "tax" \/ "tax" = "amount")
  /\ tax_unreadable !! "tax" = Some (PyStr "n/a")
  /\ round2 (PyStr "n/a") = Raise TypeError
  /\ let w' := snd (upload_page never_stored tax_unreadable [] fresh) in
     (exists e, fst (upload_page never_stored tax_unreadable [] fresh)
                = Failed (Py e)
                /\ (e = KeyError \/ e = TypeError))
     /\ looked_up w' = looked_up fresh
     /\ saved w' = saved fresh
     /\ LAST_VALIDATION_REPORT w' = LAST_VALIDATION_REPORT fresh
     /\ LAST_EXTRACTED_RECEIPT w' = Some tax_unreadable.
Proof.
  assert (Hf : "tax" = "tax" \/ "tax" = "amount") by (left; reflexivity).
  assert (Hv : tax_unreadable !! "tax" = Some (PyStr "n/a")) by reflexivity.
  assert (Hr : round2 (PyStr "n/a") = Raise TypeError) by reflexivity.
  split; [exact Hf|]. split; [exact Hv|]. split; [exact Hr|].
  exact (X15_unrounded_field_stops_upload Ref.float_of_str Ref.strptime_ymd
           None arrow_refuses (fun _ => None)
           never_stored tax_unreadable [] fresh "tax" (PyStr "n/a") Hf Hv Hr).
Defined.

Lemma X17_witness :
  summary_row groceries = Ok groceries_row
  /\ tables_shown arrow_refuses groceries_row []
  /\ groceries !! "bill_id" = Some (PyStr "B-1")
  /\ never_stored (PyStr "B-1") = Ok false
  /\ outcome (validate never_stored groceries false) = Ok groceries_report
  /\ let w' := snd (upload_page never_stored groceries [] fresh) in
     exists rest,
       drawn (snd (validation_page store_down not_clicked [] w'))
       = drawn w'
         ++ [st_header "🧾 Receipt Validation";
             st_subheader [Lit "🎯 Current Uploaded Receipt"]]
         ++ map result_line (results groceries_report)
         ++ (if passed groceries_report
             then st_success [Lit "🎉 Receipt passed validation"]
             else st_error [Lit "❌ Receipt failed validation"])
            :: st_divider :: rest.
Proof.
  assert (Hrow : summary_row groceries = Ok groceries_row)
    by (vm_compute; reflexivity).
  assert (Hb : groceries !! "bill_id" = Some (PyStr "B-1")) by reflexivity.
  assert (Hlk : never_stored (PyStr "B-1") = Ok false) by reflexivity.
  assert (Hout : outcome (validate never_stored groceries false)
                 = Ok groceries_report) by (vm_compute; reflexivity).
  split; [exact Hrow|]. split; [exact groceries_shown|]. split; [exact Hb|].
  split; [exact Hlk|]. split; [exact Hout|].
  exact (X17_page_shows_uploaded_report Ref.float_of_str Ref.strptime_ymd None
           ascii_lower (fun _ => false) arrow_refuses (fun _ => None)
           never_stored groceries [] fresh
           groceries_row (PyStr "B-1") groceries_report
           store_down not_clicked [] Hrow groceries_shown Hb Hlk Hout eq_refl).
Defined.

(** The receipt whose amount is an int of 401 digits: the summary is
    built, [st.dataframe] refuses it, and the page stops there. *)
Lemma X19_witness :
  summary_row huge_amount = Ok huge_amount_row
  /\ arrow_refuses (st_dataframe huge_amount_row) = Some StreamlitError
  /\ let w' := snd (upload_page never_stored huge_amount [] fresh) in
     fst (upload_page never_stored huge_amount [] fresh) = Failed StreamlitError
     /\ looked_up w' = looked_up fresh
     /\ saved w' = saved fresh
     /\ LAST_VALIDATION_REPORT w' = LAST_VALIDATION_REPORT fresh
     /\ LAST_EXTRACTED_RECEIPT w' = Some huge_amount.
Proof.
  assert (Hrow : summary_row huge_amount = Ok huge_amount_row)
    by (vm_compute; reflexivity).
  assert (He : arrow_refuses (st_dataframe huge_amount_row)
               = Some StreamlitError) by (vm_compute; reflexivity).
  split; [exact Hrow|]. split; [exact He|].
  exact (X19_refused_summary_stops_upload Ref.float_of_str Ref.strptime_ymd
           None arrow_refuses (fun _ => None)
           never_stored huge_amount [] fresh huge_amount_row StreamlitError
           Hrow He).
Defined.
